(** * Oportunidade_investimentos: ingestion, metrics and signals

    A shallow embedding of [src/app.py] (metrics engine and signal
    generator), [src/data_collector.py] (Yahoo Finance collector) and
    [src/data_loader.py] (bulk loader), with the properties of the
    design document stated against it.

    Conventions of the embedding.
    - A Python [float] is modelled at two levels.  [pyfloat] is an exact
      rational extended with the IEEE-754 special values [+inf], [-inf]
      and [NaN]: rounding and the sign of zero are not represented, and
      division by zero, the arithmetic of infinities and the behaviour of
      [NaN] in comparisons follow IEEE-754, as numpy and pandas do.  It
      carries the properties that depend on the special values and on the
      thresholds.  [Binary64] evaluates the returns and their aggregates
      in IEEE-754 binary64, every operation rounded to nearest, ties to
      even, square root included.
    - In the exact layer the square root used by the sample standard
      deviation is a parameter ([raiz]) of the analysis section.  In
      [Binary64] the sum of an array is a parameter ([soma]): numpy fixes
      the order of the additions only for fewer than eight numbers.
    - A column of integers is an [int64] array: its sum wraps around at
      64 bits; with a null among the integers it is a [float64] array.
    - A [datetime] is a day between 1 and 3652059 with a time of day, a
      [timedelta] has at most 999999999 days; outside of them the
      arithmetic raises [OverflowError].
    - A table of the relational store is the list of its rows in
      insertion order.  Timestamp columns filled from [datetime.now()]
      ([DataCriacao], [DataInsercao]) and the surrogate key
      [IdHistorico] are not represented.
    - The store is an external service.  Its statements, its commits and
      the fetches of its results are round trips that may fail with a
      connectivity error; the statements of one connection see the rows
      written earlier on that connection, which become durable at
      [commit] and are discarded when an exception leaves the connection
      before it.  It compares text exactly and rejects a numeric
      parameter that is not a finite number. *)

From Stdlib Require Import List ZArith QArith Qabs Bool String Ascii Lia Lqa
  Sorted Permutation Floats.SpecFloat.
Import ListNotations.

Set Implicit Arguments.

(* ================================================================= *)
(** ** Python floats *)

Module PyFloat.

Inductive pyfloat : Type :=
| Fin (q : Q)
| PInf
| NInf
| NaN.

(** Equality of floats up to the representation of the rational. *)
Definition pf_eq (x y : pyfloat) : Prop :=
  match x, y with
  | Fin a, Fin b => a == b
  | PInf, PInf | NInf, NInf | NaN, NaN => True
  | _, _ => False
  end.

Definition isnan (x : pyfloat) : bool :=
  match x with NaN => true | _ => false end.

Definition isinf (x : pyfloat) : bool :=
  match x with PInf | NInf => true | _ => false end.

Definition isfinite (x : pyfloat) : bool :=
  match x with Fin _ => true | _ => false end.

(** The infinity (or [NaN]) whose sign is that of a comparison with 0. *)
Definition inf_com_sinal (c : comparison) : pyfloat :=
  match c with Gt => PInf | Lt => NInf | Eq => NaN end.

Definition pf_neg (x : pyfloat) : pyfloat :=
  match x with
  | Fin q => Fin (- q)
  | PInf => NInf
  | NInf => PInf
  | NaN => NaN
  end.

Definition pf_add (x y : pyfloat) : pyfloat :=
  match x, y with
  | NaN, _ | _, NaN => NaN
  | Fin a, Fin b => Fin (a + b)
  | PInf, NInf | NInf, PInf => NaN
  | PInf, _ | _, PInf => PInf
  | NInf, _ | _, NInf => NInf
  end.

Definition pf_sub (x y : pyfloat) : pyfloat := pf_add x (pf_neg y).

Definition pf_mul (x y : pyfloat) : pyfloat :=
  match x, y with
  | NaN, _ | _, NaN => NaN
  | Fin a, Fin b => Fin (a * b)
  | PInf, Fin b | Fin b, PInf => inf_com_sinal (b ?= 0)
  | NInf, Fin b | Fin b, NInf => inf_com_sinal (0 ?= b)
  | PInf, PInf | NInf, NInf => PInf
  | PInf, NInf | NInf, PInf => NInf
  end.

Definition pf_div (x y : pyfloat) : pyfloat :=
  match x, y with
  | NaN, _ | _, NaN => NaN
  | Fin a, Fin b =>
      if Qeq_bool b 0 then inf_com_sinal (a ?= 0) else Fin (a / b)
  | Fin _, (PInf | NInf) => Fin 0
  | (PInf | NInf), (PInf | NInf) => NaN
  | PInf, Fin b => match b ?= 0 with Lt => NInf | _ => PInf end
  | NInf, Fin b => match b ?= 0 with Lt => PInf | _ => NInf end
  end.

Definition pf_abs (x : pyfloat) : pyfloat :=
  match x with
  | Fin q => Fin (Qabs q)
  | PInf | NInf => PInf
  | NaN => NaN
  end.

(** [x < y]; false as soon as one side is [NaN]. *)
Definition pf_ltb (x y : pyfloat) : bool :=
  match x, y with
  | NaN, _ | _, NaN => false
  | Fin a, Fin b => match a ?= b with Lt => true | _ => false end
  | NInf, NInf | PInf, PInf => false
  | NInf, _ | _, PInf => true
  | _, _ => false
  end.

(** [x <= y]; false as soon as one side is [NaN]. *)
Definition pf_leb (x y : pyfloat) : bool :=
  match x, y with
  | NaN, _ | _, NaN => false
  | Fin a, Fin b => match a ?= b with Gt => false | _ => true end
  | NInf, _ | _, PInf => true
  | _, _ => false
  end.

Definition pf_gtb (x y : pyfloat) : bool := pf_ltb y x.
Definition pf_geb (x y : pyfloat) : bool := pf_leb y x.

Definition pf_of_Z (z : Z) : pyfloat := Fin (inject_Z z).
Definition pf_of_nat (n : nat) : pyfloat := pf_of_Z (Z.of_nat n).

End PyFloat.
Export PyFloat.

Declare Scope pf_scope.
Delimit Scope pf_scope with pf.
Infix "+" := pf_add : pf_scope.
Infix "-" := pf_sub : pf_scope.
Infix "*" := pf_mul : pf_scope.
Infix "/" := pf_div : pf_scope.
Infix "<?" := pf_ltb : pf_scope.
Infix "<=?" := pf_leb : pf_scope.
Infix ">?" := pf_gtb (at level 70) : pf_scope.
Infix ">=?" := pf_geb (at level 70) : pf_scope.
Infix "=f=" := pf_eq (at level 70, no associativity).

(* ================================================================= *)
(** ** The relational store *)

(** A calendar date is its day number; a [datetime] (or pandas
    [Timestamp]) is a date and the seconds elapsed since midnight. *)
Definition data := Z.
Bind Scope Z_scope with data.

Record Timestamp : Type := mkTimestamp {
  ts_dia : data;
  ts_seg : Z
}.

(** [Timestamp.date()]. *)
Definition date (t : Timestamp) : data := ts_dia t.

(** Table [Indices]. *)
Record Indices : Type := mkIndices {
  IdIndice : Z;
  Ticker : string;
  Descricao : string;
  Pais : string;
  Ativo : bool
}.

(** Table [HistoricoPrecos]; the numeric columns are nullable. *)
Record HistoricoPrecos : Type := mkHistoricoPrecos {
  hp_IdIndice : Z;
  DataQuotacao : data;
  Abertura : option Q;
  Alta : option Q;
  Baixa : option Q;
  Fechamento : option Q;
  FechamentoAjustado : option Q;
  Volume : option Z
}.

(** Table [SegmentosInvestimento]. *)
Record SegmentosInvestimento : Type := mkSegmentosInvestimento {
  IdSegmento : Z;
  Nome : string;
  seg_Descricao : string;
  seg_Ativo : bool
}.

(** Table [IndicesSegmentos]. *)
Record IndicesSegmentos : Type := mkIndicesSegmentos {
  is_IdIndice : Z;
  is_IdSegmento : Z;
  Peso : Q
}.

(** The committed content of the store, with the next value of the
    identity column of [Indices]. *)
Record Banco : Type := mkBanco {
  tab_Indices : list Indices;
  tab_HistoricoPrecos : list HistoricoPrecos;
  tab_SegmentosInvestimento : list SegmentosInvestimento;
  tab_IndicesSegmentos : list IndicesSegmentos;
  prox_IdIndice : Z
}.

Definition banco_vazio : Banco := mkBanco [] [] [] [] 1.

(* ================================================================= *)
(** ** pandas: the operations used by the metrics engine *)

Module Pandas.

(** [Series.dropna()]: infinities are kept, only [NaN] is dropped. *)
Definition dropna (xs : list pyfloat) : list pyfloat :=
  filter (fun x => negb (isnan x)) xs.

Definition pf_sum (xs : list pyfloat) : pyfloat :=
  fold_left pf_add xs (Fin 0).

(** [Series.mean()] with the default [skipna=True]. *)
Definition mean (xs : list pyfloat) : pyfloat :=
  match dropna xs with
  | [] => NaN
  | vs => (pf_sum vs / pf_of_nat (List.length vs))%pf
  end.

Section Std.
(** numpy's square root on the non-negative rationals. *)
Variable raiz : Q -> Q.

Definition pf_sqrt (x : pyfloat) : pyfloat :=
  match x with
  | Fin q => match q ?= 0 with Lt => NaN | _ => Fin (raiz q) end
  | PInf => PInf
  | NInf | NaN => NaN
  end.

(** [Series.std()]: sample standard deviation ([ddof=1]) of the values
    that are not [NaN]; [NaN] when fewer than two of them remain. *)
Definition std (xs : list pyfloat) : pyfloat :=
  let vs := dropna xs in
  let n := List.length vs in
  if (n <=? 1)%nat then NaN
  else
    let avg := (pf_sum vs / pf_of_nat n)%pf in
    let sqr := map (fun x => ((avg - x) * (avg - x))%pf) vs in
    pf_sqrt (pf_sum sqr / pf_of_nat (n - 1))%pf.
End Std.

(** [Series.max()] and [Series.min()] of a column without [NaN]. *)
Definition qmax (a b : Q) : Q := if Qle_bool a b then b else a.
Definition qmin (a b : Q) : Q := if Qle_bool a b then a else b.

Definition max (xs : list Q) : pyfloat :=
  match xs with
  | [] => NaN
  | x :: r => Fin (fold_left qmax r x)
  end.

Definition min (xs : list Q) : pyfloat :=
  match xs with
  | [] => NaN
  | x :: r => Fin (fold_left qmin r x)
  end.

(** The total of a column built from [BIGINT] values and [None].
    A column without [None] has dtype int64 and its total is a numpy
    int64, which wraps around; a column of [None] only has dtype object
    and its total is the integer 0.  When [None] and integers are mixed,
    the column has dtype float64 and the total is a float64: its value
    depends on the order in which numpy adds the values and is not
    represented. *)
Inductive total : Type :=
| Inteiro (z : Z)
| Float64.

(** Two's complement on 64 bits. *)
Definition wrap64 (z : Z) : Z :=
  ((z + 2 ^ 63) mod 2 ^ 64 - 2 ^ 63)%Z.

Definition presentes (xs : list (option Z)) : list Z :=
  flat_map (fun v => match v with Some z => [z] | None => [] end) xs.

(** [Series.sum()] of such a column, with the default [skipna=True]. *)
Definition sum (xs : list (option Z)) : total :=
  if forallb (fun v => match v with Some _ => true | None => false end) xs
  then Inteiro (wrap64 (fold_left Z.add (presentes xs) 0%Z))
  else if forallb (fun v => match v with Some _ => false | None => true end) xs
       then Inteiro 0
       else Float64.

(** State of a grouped shift: the last value seen for each key. *)
Definition vistos := list (string * Q).

Fixpoint procura (t : string) (v : vistos) : option Q :=
  match v with
  | [] => None
  | (k, x) :: r => if String.eqb k t then Some x else procura t r
  end.

Definition atualiza (t : string) (x : Q) (v : vistos) : vistos := (t, x) :: v.

(** [df.groupby(key)[col].pct_change()]: for each row, the value divided
    by the previous value of the same group, minus one; [NaN] on the
    first row of each group.  The result keeps the order of the rows. *)
Fixpoint pct_change_grupo (v : vistos) (linhas : list (string * Q))
  : list pyfloat :=
  match linhas with
  | [] => []
  | (t, x) :: r =>
      match procura t v with
      | None => NaN
      | Some p => (Fin x / Fin p - Fin 1)%pf
      end :: pct_change_grupo (atualiza t x v) r
  end.

Definition groupby_pct_change (linhas : list (string * Q)) : list pyfloat :=
  pct_change_grupo [] linhas.

End Pandas.

(* ================================================================= *)
(** ** src/app.py: metrics engine and signal generator *)

Module App.

(** A row of the result set of [obter_dados_segmento]; the fields are the
    columns of the [SELECT], in order ([row[0]] to [row[7]]). *)
Record Linha : Type := mkLinha {
  row0_Ticker : string;
  row1_Descricao : string;
  row2_DataQuotacao : data;
  row3_Fechamento : option Q;
  row4_FechamentoAjustado : option Q;
  row5_Volume : option Z;
  row6_Alta : option Q;
  row7_Baixa : option Q
}.

Definition ts_leb (a b : Timestamp) : bool :=
  (ts_dia a <? ts_dia b)%Z || ((ts_dia a =? ts_dia b)%Z && (ts_seg a <=? ts_seg b)%Z).

(** [datetime - timedelta(days=dias)]. *)
Definition menos_dias (t : Timestamp) (dias : Z) : Timestamp :=
  mkTimestamp (ts_dia t - dias)%Z (ts_seg t).

(** [ORDER BY i.Ticker, hp.DataQuotacao]. *)
Definition ordem_leb (a b : Linha) : bool :=
  match String.compare (row0_Ticker a) (row0_Ticker b) with
  | Lt => true
  | Gt => false
  | Eq => (row2_DataQuotacao a <=? row2_DataQuotacao b)%Z
  end.

Fixpoint insere_ordenado (x : Linha) (l : list Linha) : list Linha :=
  match l with
  | [] => [x]
  | y :: r => if ordem_leb x y then x :: l else y :: insere_ordenado x r
  end.

Definition order_by (l : list Linha) : list Linha :=
  fold_right insere_ordenado [] l.

(** The query of [obter_dados_segmento]: bars of the instruments linked
    to the segment, from [data_inicio] on, ordered by ticker and date.
    [agora] is the value of [datetime.now()]. *)
Definition obter_dados_segmento (b : Banco) (agora : Timestamp)
           (id_segmento : Z) (dias : Z) : list Linha :=
  let data_inicio := menos_dias agora dias in
  order_by
    (flat_map (fun hp =>
       flat_map (fun i =>
         if (hp_IdIndice hp =? IdIndice i)%Z then
           flat_map (fun seg =>
             if (IdIndice i =? is_IdIndice seg)%Z
                && (is_IdSegmento seg =? id_segmento)%Z
                && ts_leb data_inicio (mkTimestamp (DataQuotacao hp) 0)
             then [mkLinha (Ticker i) (Descricao i) (DataQuotacao hp)
                           (Fechamento hp) (FechamentoAjustado hp)
                           (Volume hp) (Alta hp) (Baixa hp)]
             else [])
             (tab_IndicesSegmentos b)
         else [])
         (tab_Indices b))
       (tab_HistoricoPrecos b)).

(** A row of the data frame built by [calcular_metricas_segmento]. *)
Record LinhaDF : Type := mkLinhaDF {
  df_Ticker : string;
  df_DataQuotacao : data;
  df_Fechamento : Q;
  df_Volume : option Z
}.

(** [float(row[3]) if row[3] else 0]: a null close and a zero close both
    become 0. *)
Definition fechamento_de (c : option Q) : Q :=
  match c with
  | Some q => if Qeq_bool q 0 then 0 else q
  | None => 0
  end.

Definition linha_df (row : Linha) : LinhaDF :=
  mkLinhaDF (row0_Ticker row) (row2_DataQuotacao row)
            (fechamento_de (row3_Fechamento row)) (row5_Volume row).

(** The column [df['Retorno']]. *)
Definition coluna_Retorno (df : list LinhaDF) : list pyfloat :=
  map (fun r => (r * Fin 100)%pf)
      (Pandas.groupby_pct_change
         (map (fun l => (df_Ticker l, df_Fechamento l)) df)).

(** The previous observation of the instrument of row [i]: the closest
    earlier row with the same ticker. *)
Definition observacao_anterior (df : list LinhaDF) (i : nat) : option LinhaDF :=
  match nth_error df i with
  | None => None
  | Some l =>
      find (fun a => String.eqb (df_Ticker a) (df_Ticker l)) (rev (firstn i df))
  end.

(** The return of row [i], from the previous observation of the same
    instrument, in the order in which pandas evaluates it. *)
Definition retorno_calculado (df : list LinhaDF) (i : nat) : pyfloat :=
  match nth_error df i, observacao_anterior df i with
  | Some l, Some a =>
      ((Fin (df_Fechamento l) / Fin (df_Fechamento a) - Fin 1) * Fin 100)%pf
  | _, _ => NaN
  end.

Record Metricas : Type := mkMetricas {
  RetornoMedio : pyfloat;
  VolatilidadeMedia : pyfloat;
  PrecoMaximo : pyfloat;
  PrecoMinimo : pyfloat;
  VolumeTotal : Pandas.total
}.

Inductive TipoOportunidade : Type := COMPRA | VENDA | HOLD.
Inductive NivelRisco : Type := BAIXO | MEDIO | ALTO.

Record Oportunidade : Type := mkOportunidade {
  id_segmento : Z;
  titulo : string;
  descricao : string;
  tipo : TipoOportunidade;
  potencial_retorno : pyfloat;
  nivel_risco : NivelRisco;
  confianca : pyfloat;
  metricas : Metricas
}.

Section Analise.
Variable raiz : Q -> Q.

(** The body of [calcular_metricas_segmento] once [dados] is fetched. *)
Definition metricas_de_dados (dados : list Linha) : option Metricas :=
  match dados with
  | [] => None
  | _ =>
      let df := map linha_df dados in
      match df with
      | [] => None
      | _ =>
          let Retorno := coluna_Retorno df in
          Some {| RetornoMedio := Pandas.mean Retorno;
                  VolatilidadeMedia := Pandas.std raiz Retorno;
                  PrecoMaximo := Pandas.max (map df_Fechamento df);
                  PrecoMinimo := Pandas.min (map df_Fechamento df);
                  VolumeTotal := Pandas.sum (map df_Volume df) |}
      end
  end.

Definition calcular_metricas_segmento (b : Banco) (agora : Timestamp)
           (id_segmento : Z) : option Metricas :=
  let dados := obter_dados_segmento b agora id_segmento 365 in
  metricas_de_dados dados.

(** The body of [gerar_oportunidades] once the metrics are computed. *)
Definition oportunidades_de (id_segmento : Z) (m : option Metricas)
  : list Oportunidade :=
  match m with
  | None => []
  | Some metricas =>
      let retorno_medio := RetornoMedio metricas in
      let volatilidade := VolatilidadeMedia metricas in
      let '(tipo, potencial) :=
        if (retorno_medio >? Fin 2)%pf then
          (COMPRA, (retorno_medio * Fin (15 # 10))%pf)
        else if (retorno_medio <? Fin (-1))%pf then
          (VENDA, (pf_abs retorno_medio * Fin (8 # 10))%pf)
        else
          (HOLD, retorno_medio) in
      let '(risco, confianca) :=
        if (volatilidade <? Fin 2)%pf then (BAIXO, Fin (85 # 100))
        else if (volatilidade <? Fin 5)%pf then (MEDIO, Fin (70 # 100))
        else (ALTO, Fin (55 # 100)) in
      [ {| id_segmento := id_segmento;
           titulo := "Oportunidade em Segmento";
           descricao := "Análise baseada em 365 dias de dados históricos";
           tipo := tipo;
           potencial_retorno := potencial;
           nivel_risco := risco;
           confianca := confianca;
           metricas := metricas |} ]
  end.

Definition gerar_oportunidades (b : Banco) (agora : Timestamp)
           (id_segmento : Z) : list Oportunidade :=
  oportunidades_de id_segmento (calcular_metricas_segmento b agora id_segmento).

End Analise.

End App.

(* ================================================================= *)
(** ** Exceptions, log records and the store as seen by a client *)

Inductive Excecao : Type :=
| ValueError
| TypeError
| OverflowError
| KeyError
| OperationalError
| DataError.

Inductive Resultado (A : Type) : Type :=
| Retorna (a : A)
| Levanta (e : Excecao).
Arguments Retorna {A} a.
Arguments Levanta {A} e.

(** The lines written to the logger, one constructor per message. *)
Inductive Registro : Type :=
| IndiceJaExiste (ticker : string) (id : Z)
| IndiceAdicionado (ticker : string) (id : Z)
| ErroAdicionarIndice (ticker : string) (e : Excecao)
| BaixandoDados (ticker periodo : string)
| NenhumDadoEncontrado (ticker : string)
| RegistrosBaixados (n : nat) (ticker : string)
| ErroBaixarDados (ticker : string) (e : Excecao)
| NenhumDadoParaSalvar (ticker : string)
| ErroInserirRegistro (e : Excecao)
| NovosRegistrosInseridos (n : nat) (ticker : string)
| RegistrosDuplicadosIgnorados (n : nat)
| ErroSalvarHistorico (ticker : string) (e : Excecao)
| IniciandoColeta (ticker descricao : string)
| ColetaConcluida (ticker : string)
| NenhumDadoColetado (ticker : string)
| ErroNaColeta (ticker : string) (e : Excecao)
| InserindoRegistrosPrecos (n : nat)
| IndiceNaoEncontrado (ticker : string)
| ErroInserirPreco (e : Excecao)
| RegistrosInseridosDuplicados (inseridos duplicados : nat)
| ConexaoEstabelecida
| ErroConectar (e : Excecao).

(** What a run can observe and change: the committed store, the outcome
    of the coming round trips to the store ([true]: the call fails with
    a connectivity error; an exhausted plan means no further failure)
    and the log. *)
Record Mundo : Type := mkMundo {
  banco : Banco;
  falhas : list bool;
  log : list Registro
}.

(** Computations that read and change the world and may raise. *)
Definition M (A : Type) : Type := Mundo -> Resultado A * Mundo.

Definition ret {A} (a : A) : M A := fun m => (Retorna a, m).

Definition levanta {A} (e : Excecao) : M A := fun m => (Levanta e, m).

Definition bind {A B} (c : M A) (k : A -> M B) : M B :=
  fun m =>
    match c m with
    | (Retorna a, m') => k a m'
    | (Levanta e, m') => (Levanta e, m')
    end.

(** [try: c except Exception as e: h e]. *)
Definition tenta {A} (c : M A) (h : Excecao -> M A) : M A :=
  fun m =>
    match c m with
    | (Retorna a, m') => (Retorna a, m')
    | (Levanta e, m') => h e m'
    end.

Definition eleva {A} (r : Resultado A) : M A := fun m => (r, m).

Declare Scope m_scope.
Delimit Scope m_scope with M.
Notation "x <- c ;; k" := (bind c (fun x => k))
  (at level 61, c at next level, right associativity) : m_scope.
Notation "c ;; k" := (bind c (fun _ => k))
  (at level 61, right associativity) : m_scope.
Open Scope m_scope.

Definition registra (r : Registro) : M unit :=
  fun m => (Retorna tt, mkMundo (banco m) (falhas m) (log m ++ [r])).

(** One round trip to the store. *)
Definition ida_ao_banco : M unit :=
  fun m =>
    match falhas m with
    | [] => (Retorna tt, m)
    | false :: r => (Retorna tt, mkMundo (banco m) r (log m))
    | true :: r => (Levanta OperationalError, mkMundo (banco m) r (log m))
    end.

(** [engine.connect()]: the statements of the connection work on a copy
    of the committed store until [commit]. *)
Definition conecta : M Banco :=
  ida_ao_banco ;; (fun m => (Retorna (banco m), m)).

(** [conn.execute(...)]: the round trip of one statement. *)
Definition executa : M unit := ida_ao_banco.

(** [conn.commit()]. *)
Definition commit (tx : Banco) : M unit :=
  ida_ao_banco ;; (fun m => (Retorna tt, mkMundo tx (falhas m) (log m))).

(** [result.fetchone()] on a result that is read after [conn.commit()]:
    one more access to the cursor, which can fail when the rows are
    already committed. *)
Definition fetchone : M unit := ida_ao_banco.

(** *** Cells of a data frame and their conversions *)

(** A cell of a pandas row.  A text cell stands for text that is not a
    numeric literal, which [float()] and [int()] reject. *)
Inductive celula : Type :=
| CFloat (x : pyfloat)
| CInt (z : Z)
| CTexto (s : string)
| CNone.

(** [pd.notna]. *)
Definition notna (c : celula) : bool :=
  match c with
  | CFloat NaN | CNone => false
  | _ => true
  end.

(** [float(c)]. *)
Definition py_float (c : celula) : Resultado pyfloat :=
  match c with
  | CFloat x => Retorna x
  | CInt z => Retorna (pf_of_Z z)
  | CTexto _ => Levanta ValueError
  | CNone => Levanta TypeError
  end.

(** [int(c)]: truncation towards zero. *)
Definition py_int (c : celula) : Resultado Z :=
  match c with
  | CFloat (Fin q) => Retorna (Z.quot (Qnum q) (Zpos (Qden q)))
  | CFloat NaN => Levanta ValueError
  | CFloat _ => Levanta OverflowError
  | CInt z => Retorna z
  | CTexto _ => Levanta ValueError
  | CNone => Levanta TypeError
  end.

(** The parameters of an [INSERT INTO HistoricoPrecos]. *)
Record Parametros : Type := mkParametros {
  p_id_indice : Z;
  p_data_quotacao : data;
  p_abertura : celula;
  p_alta : celula;
  p_baixa : celula;
  p_fechamento : celula;
  p_fechamento_ajustado : celula;
  p_volume : celula
}.

(** The store binds a parameter to a [NUMERIC] column: a finite number
    or [NULL]; anything else is rejected. *)
Definition param_numeric (c : celula) : Resultado (option Q) :=
  match c with
  | CFloat (Fin q) => Retorna (Some q)
  | CInt z => Retorna (Some (inject_Z z))
  | CNone => Retorna None
  | _ => Levanta DataError
  end.

(** The same for a [BIGINT] column. *)
Definition param_bigint (c : celula) : Resultado (option Z) :=
  match c with
  | CInt z => Retorna (Some z)
  | CNone => Retorna None
  | _ => Levanta DataError
  end.

Definition liga {A B} (r : Resultado A) (k : A -> Resultado B) : Resultado B :=
  match r with
  | Retorna a => k a
  | Levanta e => Levanta e
  end.

(** The row that the store writes for the parameters of an insert. *)
Definition linha_inserida (p : Parametros) : Resultado HistoricoPrecos :=
  liga (param_numeric (p_abertura p)) (fun abertura =>
  liga (param_numeric (p_alta p)) (fun alta =>
  liga (param_numeric (p_baixa p)) (fun baixa =>
  liga (param_numeric (p_fechamento p)) (fun fechamento =>
  liga (param_numeric (p_fechamento_ajustado p)) (fun ajustado =>
  liga (param_bigint (p_volume p)) (fun volume =>
  Retorna (mkHistoricoPrecos (p_id_indice p) (p_data_quotacao p)
             abertura alta baixa fechamento ajustado volume))))))).

(** The key of the uniqueness constraint of [HistoricoPrecos]. *)
Definition chave (h : HistoricoPrecos) : Z * data :=
  (hp_IdIndice h, DataQuotacao h).

(** No two stored bars of an instrument share a date. *)
Definition unico (b : Banco) : Prop :=
  NoDup (map chave (tab_HistoricoPrecos b)).

Definition com_HistoricoPrecos (b : Banco) (l : list HistoricoPrecos) : Banco :=
  mkBanco (tab_Indices b) l (tab_SegmentosInvestimento b)
          (tab_IndicesSegmentos b) (prox_IdIndice b).

(** [SELECT COUNT( * ) FROM HistoricoPrecos WHERE IdIndice = :id AND
    DataQuotacao = :data]. *)
Definition conta_historico (b : Banco) (id : Z) (d : data) : nat :=
  List.length
    (filter (fun h => (hp_IdIndice h =? id)%Z && (DataQuotacao h =? d)%Z)
            (tab_HistoricoPrecos b)).

(** The local variables of an insertion loop: the content seen by the
    connection and the two counters. *)
Record Laco : Type := mkLaco {
  tx : Banco;
  registros_inseridos : nat;
  registros_duplicados : nat
}.

(* ================================================================= *)
(** ** src/data_collector.py: YahooFinanceCollector *)

Module Collector.

(** A row of the frame returned by [yfinance]: the columns the collector
    reads, and whatever other columns the frame carries. *)
Record LinhaYF : Type := mkLinhaYF {
  yf_Date : Timestamp;
  yf_Open : celula;
  yf_High : celula;
  yf_Low : celula;
  yf_Close : celula;
  yf_Volume : celula;
  yf_outras : list (string * celula)
}.

Definition DataFrame := list LinhaYF.

Definition empty (df : DataFrame) : bool :=
  match df with [] => true | _ => false end.

(** [adicionar_indice]. *)
Definition adicionar_indice (ticker descricao pais : string) : M Z :=
  tenta
    (conn <- conecta ;;
     executa ;;
     match find (fun i => String.eqb (Ticker i) ticker) (tab_Indices conn) with
     | Some result =>
         registra (IndiceJaExiste ticker (IdIndice result)) ;;
         ret (IdIndice result)
     | None =>
         executa ;;
         let id_indice := prox_IdIndice conn in
         commit (mkBanco
                   (tab_Indices conn
                      ++ [mkIndices id_indice ticker descricao pais true])
                   (tab_HistoricoPrecos conn)
                   (tab_SegmentosInvestimento conn)
                   (tab_IndicesSegmentos conn)
                   (id_indice + 1)%Z) ;;
         fetchone ;;
         registra (IndiceAdicionado ticker id_indice) ;;
         ret id_indice
     end)
    (fun e => registra (ErroAdicionarIndice ticker e) ;; levanta e).

(** [float(c) if pd.notna(c) else None]. *)
Definition float_ou_None (c : celula) : Resultado celula :=
  if notna c then liga (py_float c) (fun x => Retorna (CFloat x))
  else Retorna CNone.

(** [int(c) if pd.notna(c) else 0]. *)
Definition int_ou_zero (c : celula) : Resultado celula :=
  if notna c then liga (py_int c) (fun z => Retorna (CInt z))
  else Retorna (CInt 0).

(** The dictionary of parameters of the insert, its values evaluated in
    the order in which they are written. *)
Definition parametros_insert (id_indice : Z) (row : LinhaYF)
  : Resultado Parametros :=
  let data_quotacao := date (yf_Date row) in
  liga (float_ou_None (yf_Open row)) (fun abertura =>
  liga (float_ou_None (yf_High row)) (fun alta =>
  liga (float_ou_None (yf_Low row)) (fun baixa =>
  liga (float_ou_None (yf_Close row)) (fun fechamento =>
  liga (float_ou_None (yf_Close row)) (fun fechamento_ajustado =>
  liga (int_ou_zero (yf_Volume row)) (fun volume =>
  Retorna (mkParametros id_indice data_quotacao abertura alta baixa
             fechamento fechamento_ajustado volume))))))).

(** The body of the [try] inside the loop, for one row. *)
Definition corpo_linha (id_indice : Z) (row : LinhaYF) (st : Laco) : M Laco :=
  executa ;;
  let existe := conta_historico (tx st) id_indice (date (yf_Date row)) in
  if (0 <? existe)%nat then
    ret (mkLaco (tx st) (registros_inseridos st) (registros_duplicados st + 1))
  else
    p <- eleva (parametros_insert id_indice row) ;;
    executa ;;
    h <- eleva (linha_inserida p) ;;
    ret (mkLaco (com_HistoricoPrecos (tx st) (tab_HistoricoPrecos (tx st) ++ [h]))
                (registros_inseridos st + 1) (registros_duplicados st)).

(** [for _, row in df.iterrows(): try: ... except Exception: continue]. *)
Fixpoint para_cada_linha (id_indice : Z) (df : DataFrame) (st : Laco) : M Laco :=
  match df with
  | [] => ret st
  | row :: resto =>
      st' <- tenta (corpo_linha id_indice row st)
                   (fun e => registra (ErroInserirRegistro e) ;; ret st) ;;
      para_cada_linha id_indice resto st'
  end.

(** The two lines that close a batch: the only place where the counters
    are reported. *)
Definition resumo (ticker : string) (st : Laco) : M unit :=
  registra (NovosRegistrosInseridos (registros_inseridos st) ticker) ;;
  if (0 <? registros_duplicados st)%nat
  then registra (RegistrosDuplicadosIgnorados (registros_duplicados st))
  else ret tt.

(** [salvar_historico_precos].  The method returns [None]; the embedding
    returns the final values of its two counters, which the method writes
    to the log only. *)
Definition salvar_historico_precos (id_indice : Z) (ticker : string)
           (df : DataFrame) : M (nat * nat) :=
  if empty df then
    registra (NenhumDadoParaSalvar ticker) ;; ret (0, 0)%nat
  else
    tenta
      (conn <- conecta ;;
       st <- para_cada_linha id_indice df (mkLaco conn 0 0) ;;
       commit (tx st) ;;
       resumo ticker st ;;
       ret (registros_inseridos st, registros_duplicados st))
      (fun e => registra (ErroSalvarHistorico ticker e) ;; levanta e).

(** *** The loop when no round trip fails

    What the loop computes in a run whose round trips to the store all
    succeed, as a function of the rows; [para_cada_linha] is related to
    it in the theorems. *)

(** The stored row for a row of the frame, or the exception that makes
    the row fail. *)
Definition linha_convertida (id_indice : Z) (row : LinhaYF)
  : Resultado HistoricoPrecos :=
  liga (parametros_insert id_indice row) linha_inserida.

(** A row is well formed when its conversion succeeds, malformed when it
    raises. *)
Definition bem_formada (id_indice : Z) (row : LinhaYF) : Prop :=
  exists h, linha_convertida id_indice row = Retorna h.

Definition malformada (id_indice : Z) (row : LinhaYF) : Prop :=
  exists e, linha_convertida id_indice row = Levanta e.

Definition presente (b : Banco) (id_indice : Z) (row : LinhaYF) : bool :=
  (0 <? conta_historico b id_indice (date (yf_Date row)))%nat.

Definition passo (id_indice : Z) (st : Laco) (row : LinhaYF) : Laco :=
  if presente (tx st) id_indice row then
    mkLaco (tx st) (registros_inseridos st) (registros_duplicados st + 1)
  else
    match linha_convertida id_indice row with
    | Retorna h =>
        mkLaco (com_HistoricoPrecos (tx st) (tab_HistoricoPrecos (tx st) ++ [h]))
               (registros_inseridos st + 1) (registros_duplicados st)
    | Levanta _ => st
    end.

Definition laco (id_indice : Z) (df : DataFrame) (st : Laco) : Laco :=
  fold_left (passo id_indice) df st.

(** The error lines that the loop logs in a run without store failure
    from the loop state [st]: one for each row that fails. *)
Fixpoint erros (id_indice : Z) (df : DataFrame) (st : Laco) : list Registro :=
  match df with
  | [] => []
  | row :: resto =>
      (if presente (tx st) id_indice row then []
       else match linha_convertida id_indice row with
            | Retorna _ => []
            | Levanta e => [ErroInserirRegistro e]
            end)
      ++ erros id_indice resto (passo id_indice st row)
  end.

(** The number of rows of a batch that fail. *)
Definition falhadas (id_indice : Z) (df : DataFrame) (st : Laco) : nat :=
  List.length (erros id_indice df st).

(** The lines of the closing summary for given counters. *)
Definition linhas_resumo (ticker : string) (inseridos duplicados : nat)
  : list Registro :=
  NovosRegistrosInseridos inseridos ticker
  :: (if (0 <? duplicados)%nat then [RegistrosDuplicadosIgnorados duplicados]
      else []).

(** The loop state [st] extends the store [b] with bars converted from
    rows of the batch. *)
Definition acrescenta (id : Z) (df : DataFrame) (b : Banco) (st : Laco) : Prop :=
  exists novos,
    tx st = com_HistoricoPrecos b (tab_HistoricoPrecos b ++ novos)
    /\ Forall (fun h => exists row, In row df /\ linha_convertida id row = Retorna h)
              novos.

Section Provedor.
(** [yf.Ticker(ticker).history(period=periodo)], index reset: the
    provider's answer, or the exception it raises. *)
Variable history : string -> string -> Resultado DataFrame.

(** [baixar_dados_historicos]. *)
Definition baixar_dados_historicos (ticker periodo : string) : M DataFrame :=
  tenta
    (registra (BaixandoDados ticker periodo) ;;
     df <- eleva (history ticker periodo) ;;
     if empty df then
       registra (NenhumDadoEncontrado ticker) ;; ret []
     else
       registra (RegistrosBaixados (List.length df) ticker) ;; ret df)
    (fun e => registra (ErroBaixarDados ticker e) ;; ret []).

(** [coletar_indice_completo]. *)
Definition coletar_indice_completo (ticker descricao pais periodo : string)
  : M unit :=
  tenta
    (registra (IniciandoColeta ticker descricao) ;;
     id_indice <- adicionar_indice ticker descricao pais ;;
     df <- baixar_dados_historicos ticker periodo ;;
     if negb (empty df) then
       salvar_historico_precos id_indice ticker df ;;
       registra (ColetaConcluida ticker)
     else
       registra (NenhumDadoColetado ticker))
    (fun e => registra (ErroNaColeta ticker e)).

End Provedor.

End Collector.

(* ================================================================= *)
(** ** src/data_loader.py: IndiceManager and RepositorioSQLServer *)

Module Loader.

(** *** Column labels *)

Definition lower_ascii (a : ascii) : ascii :=
  let n := nat_of_ascii a in
  if ((65 <=? n) && (n <=? 90))%nat then ascii_of_nat (n + 32) else a.

(** [str.lower()] on ASCII text. *)
Fixpoint lower (s : string) : string :=
  match s with
  | EmptyString => EmptyString
  | String a r => String (lower_ascii a) (lower r)
  end.

(** [sub in s]. *)
Definition contem (sub s : string) : bool :=
  match String.index 0 sub s with
  | Some _ => true
  | None => false
  end.

(** A data frame: the labels of its columns and its rows, each row
    holding one cell per label.  The frame is taken after
    [reset_index()], its labels reduced to their first level. *)
Record Frame : Type := mkFrame {
  columns : list string;
  linhas : list (list celula)
}.

Definition frame_empty (df : Frame) : bool :=
  match linhas df with [] => true | _ => false end.

(** [df.rename(columns={de: para})]. *)
Definition rename1 (de para : string) (df : Frame) : Frame :=
  mkFrame (map (fun c => if String.eqb c de then para else c) (columns df))
          (linhas df).

(** [df.rename(columns={...})] for a dictionary of renamings. *)
Definition rename (d : list (string * string)) (df : Frame) : Frame :=
  mkFrame
    (map (fun c =>
            match find (fun kv => String.eqb (fst kv) c) d with
            | Some kv => snd kv
            | None => c
            end)
         (columns df))
    (linhas df).

Fixpoint posicao (rotulo : string) (cols : list string) : option nat :=
  match cols with
  | [] => None
  | c :: r =>
      if String.eqb c rotulo then Some O
      else option_map S (posicao rotulo r)
  end.

Fixpoint substitui {A} (n : nat) (x : A) (l : list A) : list A :=
  match n, l with
  | _, [] => []
  | O, _ :: r => x :: r
  | S k, y :: r => y :: substitui k x r
  end.

(** [df[rotulo] = valor]: the column is overwritten when the label
    exists and appended otherwise. *)
Definition atribui (rotulo : string) (valor : celula) (df : Frame) : Frame :=
  match posicao rotulo (columns df) with
  | Some n => mkFrame (columns df) (map (substitui n valor) (linhas df))
  | None => mkFrame (columns df ++ [rotulo])
                    (map (fun l => l ++ [valor]) (linhas df))
  end.

(** [df[rotulos]]: the first column carrying each label, [KeyError] for a
    label that no column carries. *)
Fixpoint posicoes (rotulos cols : list string) : Resultado (list nat) :=
  match rotulos with
  | [] => Retorna []
  | r :: resto =>
      match posicao r cols with
      | None => Levanta KeyError
      | Some n => liga (posicoes resto cols) (fun ns => Retorna (n :: ns))
      end
  end.

Definition seleciona (rotulos : list string) (df : Frame) : Resultado Frame :=
  liga (posicoes rotulos (columns df)) (fun ns =>
  Retorna (mkFrame rotulos
             (map (fun l => map (fun n => nth n l CNone) ns) (linhas df)))).

(** The cells of the column at a position. *)
Definition celulas (n : nat) (df : Frame) : list celula :=
  map (fun l => nth n l CNone) (linhas df).

(** The values of the first column carrying a label. *)
Definition coluna (rotulo : string) (df : Frame) : option (list celula) :=
  option_map (fun n => celulas n df) (posicao rotulo (columns df)).

Definition colunas_mantidas : list string :=
  ["Ticker"; "Descricao"; "Pais"; "DataQuotacao"; "Abertura"; "Alta";
   "Baixa"; "Fechamento"; "FechamentoAjustado"; "Volume"]%string.

(** ['adj' in str(col).lower() and 'close' in str(col).lower()]. *)
Definition rotulo_ajustado (col : string) : bool :=
  contem "adj" (lower col) && contem "close" (lower col).

(** [# Renomear Adj Close]: when no column is labelled 'Adj Close', the
    first column whose lower-cased label contains both 'adj' and 'close'
    takes that label. *)
Definition renomear_adj_close (df : Frame) : Frame :=
  if existsb (String.eqb "Adj Close") (columns df) then df
  else
    match find rotulo_ajustado (columns df) with
    | Some col => rename1 col "Adj Close" df
    | None => df
    end.

(** Every row of the frame holds one cell per column. *)
Definition bem_formado (df : Frame) : Prop :=
  Forall (fun l => List.length l = List.length (columns df)) (linhas df).

(** The label of the column of a download that holds the adjusted
    close: 'Adj Close', or else the first label that spells it. *)
Definition origem_ajustado (df : Frame) : option string :=
  if existsb (String.eqb "Adj Close") (columns df) then Some "Adj Close"%string
  else find rotulo_ajustado (columns df).

(** The body of the loop of [baixar_dados_indices] for one ticker whose
    download is [df]: the frame appended to [dados_completos], nothing
    for an empty download, or the exception that the handler of the loop
    logs before moving to the next ticker. *)
Definition baixar_dados_indices_ticker (ticker descricao pais : string)
           (df : Frame) : Resultado (option Frame) :=
  if negb (frame_empty df) then
    let df := renomear_adj_close df in
    let df := atribui "Ticker" (CTexto ticker) df in
    let df := atribui "Descricao" (CTexto descricao) df in
    let df := atribui "Pais" (CTexto pais) df in
    let df := rename [("Date", "DataQuotacao"); ("Open", "Abertura");
                      ("High", "Alta"); ("Low", "Baixa");
                      ("Close", "Fechamento");
                      ("Adj Close", "FechamentoAjustado");
                      ("Volume", "Volume")]%string df in
    liga (seleciona colunas_mantidas df) (fun df => Retorna (Some df))
  else Retorna None.

(** *** Insertion of the price history *)

(** A row of the frame read by [insere_historico_precos], by label. *)
Record LinhaCarga : Type := mkLinhaCarga {
  ld_Ticker : string;
  ld_DataQuotacao : Timestamp;
  ld_Abertura : celula;
  ld_Alta : celula;
  ld_Baixa : celula;
  ld_Fechamento : celula;
  ld_FechamentoAjustado : celula;
  ld_Volume : celula
}.

(** [DatabaseConfig.get_connection]. *)
Definition get_connection : M Banco :=
  tenta (conn <- conecta ;; registra ConexaoEstabelecida ;; ret conn)
        (fun e => registra (ErroConectar e) ;; levanta e).

(** [{row[1]: row[0] for row in cursor.fetchall()}] as the list of its
    items; a later row replaces an earlier one with the same ticker. *)
Definition indices_map (b : Banco) : list (string * Z) :=
  map (fun i => (Ticker i, IdIndice i)) (tab_Indices b).

Fixpoint dict_get (k : string) (d : list (string * Z)) : option Z :=
  match d with
  | [] => None
  | (k', v) :: r =>
      match dict_get k r with
      | Some v' => Some v'
      | None => if String.eqb k' k then Some v else None
      end
  end.

(** The body of the [try] inside the loop, for one row.  The statement
    [IF NOT EXISTS (...) BEGIN INSERT ... END] is one round trip, whose
    parameters the store binds before it runs the statement. *)
Definition corpo_linha (mapa : list (string * Z)) (row : LinhaCarga)
           (st : Laco) : M Laco :=
  match dict_get (ld_Ticker row) mapa with
  | Some id_indice =>
      if (id_indice =? 0)%Z then
        registra (IndiceNaoEncontrado (ld_Ticker row)) ;; ret st
      else
        let data_quotacao := date (ld_DataQuotacao row) in
        volume <- eleva (py_int (ld_Volume row)) ;;
        executa ;;
        h <- eleva (linha_inserida
                      (mkParametros id_indice data_quotacao
                         (ld_Abertura row) (ld_Alta row) (ld_Baixa row)
                         (ld_Fechamento row) (ld_FechamentoAjustado row)
                         (CInt volume))) ;;
        if (0 <? conta_historico (tx st) id_indice data_quotacao)%nat then
          ret (mkLaco (tx st) (registros_inseridos st)
                      (registros_duplicados st + 1))
        else
          ret (mkLaco (com_HistoricoPrecos (tx st)
                         (tab_HistoricoPrecos (tx st) ++ [h]))
                      (registros_inseridos st + 1) (registros_duplicados st))
  | None => registra (IndiceNaoEncontrado (ld_Ticker row)) ;; ret st
  end.

Fixpoint para_cada_linha (mapa : list (string * Z)) (df : list LinhaCarga)
         (st : Laco) : M Laco :=
  match df with
  | [] => ret st
  | row :: resto =>
      st' <- tenta (corpo_linha mapa row st)
                   (fun e => registra (ErroInserirPreco e) ;; ret st) ;;
      para_cada_linha mapa resto st'
  end.

(** [RepositorioSQLServer.insere_historico_precos]; as for the collector,
    the embedding returns the two counters that the method only logs. *)
Definition insere_historico_precos (df : list LinhaCarga) : M (nat * nat) :=
  conn <- get_connection ;;
  registra (InserindoRegistrosPrecos (List.length df)) ;;
  executa ;;
  let mapa := indices_map conn in
  st <- para_cada_linha mapa df (mkLaco conn 0 0) ;;
  commit (tx st) ;;
  registra (RegistrosInseridosDuplicados (registros_inseridos st)
                                         (registros_duplicados st)) ;;
  ret (registros_inseridos st, registros_duplicados st).

End Loader.

(* ================================================================= *)
(** ** Sequences of insertions of bars *)

(** A call of one of the two operations that write bars. *)
Inductive Operacao : Type :=
| OpSalvar (id_indice : Z) (ticker : string) (df : Collector.DataFrame)
| OpInsere (df : list Loader.LinhaCarga).

(** The world after a call, whether it returns or raises. *)
Definition executa_operacao (m : Mundo) (op : Operacao) : Mundo :=
  match op with
  | OpSalvar id_indice ticker df =>
      snd (Collector.salvar_historico_precos id_indice ticker df m)
  | OpInsere df => snd (Loader.insere_historico_precos df m)
  end.

Definition executa_operacoes (ops : list Operacao) (m : Mundo) : Mundo :=
  fold_left executa_operacao ops m.

(* ================================================================= *)
(** ** Concrete stores, frames and runs used by the examples *)

Module Exemplos.
Import App Collector.

(** A square root for the examples: the integer square root of the
    integer part. *)
Definition raiz (q : Q) : Q :=
  inject_Z (Z.sqrt (Z.div (Qnum q) (Zpos (Qden q)))).

Definition agora : Timestamp := mkTimestamp 1000 3600.

Definition barra (id : Z) (d : data) (fechamento : option Q) (volume : option Z)
  : HistoricoPrecos :=
  mkHistoricoPrecos id d fechamento fechamento fechamento fechamento
                    fechamento volume.

(** Instrument 1, ticker AAA, linked to segment 1, with the given bars. *)
Definition banco_AAA (barras : list HistoricoPrecos) : Banco :=
  mkBanco [mkIndices 1 "AAA" "Indice AAA" "Brasil" true]
          barras
          [mkSegmentosInvestimento 1 "Tecnologia" "Empresas de tecnologia" true]
          [mkIndicesSegmentos 1 1 100]
          2.

(** A single bar in the window. *)
Definition banco_uma_barra : Banco :=
  banco_AAA [barra 1 900 (Some 100) (Some 0%Z)].

(** Closes 100, 110, 99 on three consecutive days. *)
Definition banco_tres_barras : Banco :=
  banco_AAA [barra 1 900 (Some 100) (Some 10%Z);
             barra 1 901 (Some 110) (Some 0%Z);
             barra 1 902 (Some 99) (Some 5%Z)].

(** A null close followed by a close of 110. *)
Definition banco_fechamento_nulo : Banco :=
  banco_AAA [barra 1 900 None (Some 0%Z);
             barra 1 901 (Some 110) (Some 0%Z)].

(** A row of a [yfinance] frame with the four prices equal. *)
Definition linha_yf (d : data) (preco : Q) (volume : celula) : LinhaYF :=
  mkLinhaYF (mkTimestamp d 0) (CFloat (Fin preco)) (CFloat (Fin preco))
            (CFloat (Fin preco)) (CFloat (Fin preco)) volume [].

(** A row whose opening price is text. *)
Definition linha_malformada (d : data) : LinhaYF :=
  mkLinhaYF (mkTimestamp d 0) (CTexto "n/d") (CFloat (Fin 10))
            (CFloat (Fin 10)) (CFloat (Fin 10)) (CInt 7) [].

(** A row with a close of 100 and an adjusted close of 95 under the
    label 'Adj Close'. *)
Definition linha_ajustada (d : data) : LinhaYF :=
  mkLinhaYF (mkTimestamp d 0) (CFloat (Fin 100)) (CFloat (Fin 100))
            (CFloat (Fin 100)) (CFloat (Fin 100)) (CInt 7)
            [("Adj Close"%string, CFloat (Fin 95))].

(** A world whose round trips all succeed. *)
Definition mundo (b : Banco) : Mundo := mkMundo b [] [].

(** The provider answers with one bar. *)
Definition history_uma_barra (ticker periodo : string) : Resultado DataFrame :=
  Retorna [linha_yf 900 100 (CInt 7)].

(** Frames as [yf.download] returns them, one row each: with the label
    'Adj Close', with the adjusted close under another spelling, and
    without an adjusted close. *)
Definition frame_adj_close : Loader.Frame :=
  Loader.mkFrame
    ["Date"; "Adj Close"; "Close"; "High"; "Low"; "Open"; "Volume"]%string
    [[CInt 900; CFloat (Fin 95); CFloat (Fin 100); CFloat (Fin 101);
      CFloat (Fin 99); CFloat (Fin 100); CInt 7]].

Definition frame_adjclose : Loader.Frame :=
  Loader.mkFrame
    ["Date"; "Open"; "High"; "Low"; "Close"; "AdjClose"; "Volume"]%string
    [[CInt 900; CFloat (Fin 100); CFloat (Fin 101); CFloat (Fin 99);
      CFloat (Fin 100); CFloat (Fin 95); CInt 7]].

Definition frame_sem_ajustado : Loader.Frame :=
  Loader.mkFrame
    ["Date"; "Open"; "High"; "Low"; "Close"; "Volume"]%string
    [[CInt 900; CFloat (Fin 100); CFloat (Fin 101); CFloat (Fin 99);
      CFloat (Fin 100); CInt 7]].

(** A row of the frame that [insere_historico_precos] reads. *)
Definition linha_carga (d : data) (preco : Q) : Loader.LinhaCarga :=
  Loader.mkLinhaCarga "AAA" (mkTimestamp d 0) (CFloat (Fin preco))
                      (CFloat (Fin preco)) (CFloat (Fin preco))
                      (CFloat (Fin preco)) (CFloat (Fin preco)) (CInt 7).

End Exemplos.

(* ================================================================= *)
(** ** src/data_collector.py: segments, links and the full collection

    The log lines of these methods are not represented, their handlers
    are; neither are the foreign keys of the store nor the pause between
    two instruments. *)

Module Segmentos.
Import Collector.

Definition com_segmentos (b : Banco) (l : list SegmentosInvestimento) : Banco :=
  mkBanco (tab_Indices b) (tab_HistoricoPrecos b) l
          (tab_IndicesSegmentos b) (prox_IdIndice b).

Definition com_links (b : Banco) (l : list IndicesSegmentos) : Banco :=
  mkBanco (tab_Indices b) (tab_HistoricoPrecos b)
          (tab_SegmentosInvestimento b) l (prox_IdIndice b).

(** [SELECT COUNT( * ) FROM IndicesSegmentos WHERE IdIndice = :id_indice
    AND IdSegmento = :id_segmento]. *)
Definition conta_links (b : Banco) (id_indice id_segmento : Z) : nat :=
  List.length
    (filter (fun s => (is_IdIndice s =? id_indice)%Z
                      && (is_IdSegmento s =? id_segmento)%Z)
            (tab_IndicesSegmentos b)).

(** [associar_indice_segmento]: every exception is caught and the method
    returns. *)
Definition associar_indice_segmento (ticker : string) (id_segmento : Z)
           (peso : pyfloat) : M unit :=
  tenta
    (conn <- conecta ;;
     executa ;;
     match find (fun i => String.eqb (Ticker i) ticker) (tab_Indices conn) with
     | None => ret tt
     | Some result =>
         let id_indice := IdIndice result in
         executa ;;
         let existe := conta_links conn id_indice id_segmento in
         if (0 <? existe)%nat then ret tt
         else
           executa ;;
           p <- eleva (param_numeric (CFloat peso)) ;;
           match p with
           | Some q =>
               commit (com_links conn
                         (tab_IndicesSegmentos conn
                            ++ [mkIndicesSegmentos id_indice id_segmento q]))
           | None => levanta DataError
           end
     end)
    (fun e => ret tt).

Section Identidade.
(** The value that the identity column [IdSegmento] takes in the next
    row of the table; the store chooses it. *)
Variable identity_segmento : list SegmentosInvestimento -> Z.

(** [criar_segmento]: the exception is raised again after it is logged. *)
Definition criar_segmento (nome descricao : string) : M Z :=
  tenta
    (conn <- conecta ;;
     executa ;;
     match find (fun s => String.eqb (Nome s) nome)
                (tab_SegmentosInvestimento conn) with
     | Some result => ret (IdSegmento result)
     | None =>
         executa ;;
         let id_segmento := identity_segmento (tab_SegmentosInvestimento conn) in
         commit (com_segmentos conn
                   (tab_SegmentosInvestimento conn
                      ++ [mkSegmentosInvestimento id_segmento nome descricao true])) ;;
         fetchone ;;
         ret id_segmento
     end)
    (fun e => levanta e).

(** A Python dictionary from names to ids, as the list of its items. *)
Definition dict := list (string * Z).

Fixpoint dict_set (k : string) (v : Z) (d : dict) : dict :=
  match d with
  | [] => [(k, v)]
  | (k', v') :: r =>
      if String.eqb k' k then (k', v) :: r else (k', v') :: dict_set k v r
  end.

Fixpoint get (k : string) (d : dict) : option Z :=
  match d with
  | [] => None
  | (k', v) :: r => if String.eqb k' k then Some v else get k r
  end.

(** An entry of [indices_para_coletar]. *)
Record IndiceInfo : Type := mkIndiceInfo {
  info_ticker : string;
  info_descricao : string;
  info_pais : string;
  info_segmento : string
}.

Section Provedor.
Variable history : string -> string -> Resultado DataFrame.

(** [for nome, descricao in segmentos_info.items():
       segmentos_ids[nome] = collector.criar_segmento(nome, descricao)]. *)
Fixpoint cria_segmentos (segmentos_info : list (string * string))
         (segmentos_ids : dict) : M dict :=
  match segmentos_info with
  | [] => ret segmentos_ids
  | (nome, descricao) :: resto =>
      id <- criar_segmento nome descricao ;;
      cria_segmentos resto (dict_set nome id segmentos_ids)
  end.

(** The loop over the instruments: collect, then link when the segment
    has an id ([if id_segmento:] is false for [None] and for 0). *)
Fixpoint coleta_indices (indices : list IndiceInfo) (segmentos_ids : dict)
  : M unit :=
  match indices with
  | [] => ret tt
  | indice_info :: resto =>
      coletar_indice_completo history (info_ticker indice_info)
                              (info_descricao indice_info)
                              (info_pais indice_info) "2y" ;;
      match get (info_segmento indice_info) segmentos_ids with
      | Some id_segmento =>
          if (id_segmento =? 0)%Z then ret tt
          else associar_indice_segmento (info_ticker indice_info)
                                        id_segmento (Fin 100)
      | None => ret tt
      end ;;
      coleta_indices resto segmentos_ids
  end.

(** The body of [executar_coleta_completa] for a catalogue of segments
    and a catalogue of instruments. *)
Definition coleta_completa (segmentos_info : list (string * string))
           (indices : list IndiceInfo) : M unit :=
  segmentos_ids <- cria_segmentos segmentos_info [] ;;
  coleta_indices indices segmentos_ids.

Definition indices_para_coletar : list IndiceInfo :=
  [mkIndiceInfo "^GSPC" "S&P 500" "Estados Unidos" "Mercado Amplo - EUA";
   mkIndiceInfo "^DJI" "Dow Jones Industrial Average" "Estados Unidos"
                "Mercado Amplo - EUA";
   mkIndiceInfo "^IXIC" "NASDAQ Composite" "Estados Unidos" "Tecnologia";
   mkIndiceInfo "^RUT" "Russell 2000" "Estados Unidos" "Small Caps - EUA";
   mkIndiceInfo "XLK" "Technology Select Sector SPDR Fund" "Estados Unidos"
                "Tecnologia";
   mkIndiceInfo "XLE" "Energy Select Sector SPDR Fund" "Estados Unidos"
                "Energia";
   mkIndiceInfo "XLF" "Financial Select Sector SPDR Fund" "Estados Unidos"
                "Financeiro";
   mkIndiceInfo "XLV" "Health Care Select Sector SPDR Fund" "Estados Unidos"
                "Saúde";
   mkIndiceInfo "XLY" "Consumer Discretionary Select Sector SPDR Fund"
                "Estados Unidos" "Consumo Discricionário";
   mkIndiceInfo "EWZ" "iShares MSCI Brazil ETF" "Brasil" "Mercados Emergentes";
   mkIndiceInfo "^BVSP" "Ibovespa" "Brasil" "Mercado Amplo - Brasil"].

Definition segmentos_info : list (string * string) :=
  [("Mercado Amplo - EUA", "Índices amplos do mercado americano");
   ("Tecnologia", "Empresas de tecnologia e inovação");
   ("Energia", "Setor de energia, petróleo e gás");
   ("Financeiro", "Bancos e instituições financeiras");
   ("Saúde", "Farmacêuticas e biotecnologia");
   ("Consumo Discricionário", "Varejo e bens de consumo");
   ("Small Caps - EUA", "Empresas de pequena capitalização");
   ("Mercados Emergentes", "Mercados em desenvolvimento");
   ("Mercado Amplo - Brasil", "Índices amplos do mercado brasileiro")]%string.

(** [executar_coleta_completa]. *)
Definition executar_coleta_completa : M unit :=
  coleta_completa segmentos_info indices_para_coletar.

End Provedor.
End Identidade.

End Segmentos.

(* ================================================================= *)
(** ** src/data_loader.py: instruments, download of all tickers, report

    The log lines of these methods are not represented. *)

Module Carga.
Import Loader.

(** A row of [df[['Ticker', 'Descricao', 'Pais']]]. *)
Definition Trio := (string * string * string)%type.

Definition trio_eqb (a b : Trio) : bool :=
  let '(t1, d1, p1) := a in
  let '(t2, d2, p2) := b in
  String.eqb t1 t2 && String.eqb d1 d2 && String.eqb p1 p2.

(** [DataFrame.drop_duplicates()]: the first occurrence of each row. *)
Fixpoint drop_duplicates_de (vistos : list Trio) (l : list Trio) : list Trio :=
  match l with
  | [] => []
  | x :: r =>
      if existsb (trio_eqb x) vistos then drop_duplicates_de vistos r
      else x :: drop_duplicates_de (x :: vistos) r
  end.

Definition drop_duplicates (l : list Trio) : list Trio :=
  drop_duplicates_de [] l.

Section Padrao.
(** The default of the column [Ativo], which the insert does not set. *)
Variable Ativo_padrao : bool.

(** [IF NOT EXISTS (SELECT 1 FROM Indices WHERE Ticker = ?) BEGIN INSERT
    INTO Indices (Ticker, Descricao, Pais) VALUES (?, ?, ?) END], one
    round trip. *)
Definition corpo_indice (row : Trio) (conn : Banco) : M Banco :=
  let '(ticker, descricao, pais) := row in
  executa ;;
  if existsb (fun i => String.eqb (Ticker i) ticker) (tab_Indices conn)
  then ret conn
  else ret (mkBanco
              (tab_Indices conn
                 ++ [mkIndices (prox_IdIndice conn) ticker descricao pais
                               Ativo_padrao])
              (tab_HistoricoPrecos conn)
              (tab_SegmentosInvestimento conn)
              (tab_IndicesSegmentos conn)
              (prox_IdIndice conn + 1)%Z).

Fixpoint para_cada_indice (rows : list Trio) (conn : Banco) : M Banco :=
  match rows with
  | [] => ret conn
  | row :: resto =>
      conn' <- tenta (corpo_indice row conn) (fun e => ret conn) ;;
      para_cada_indice resto conn'
  end.

(** [RepositorioSQLServer.insere_ou_atualiza_indice], on the three
    columns of the frame that it reads. *)
Definition insere_ou_atualiza_indice (df : list Trio) : M unit :=
  conn <- get_connection ;;
  let indices_unicos := drop_duplicates df in
  conn' <- para_cada_indice indices_unicos conn ;;
  commit conn'.

End Padrao.

Section Download.
(** [yf.download(ticker, start, end, progress=False, auto_adjust=False)],
    index reset and labels reduced to their first level. *)
Variable download : string -> Resultado Frame.

(** The loop of [baixar_dados_indices] over [self.tickers_info]: the
    frames appended to [dados_completos]. *)
Fixpoint dados_completos (tickers_info : list (string * (string * string)))
  : list Frame :=
  match tickers_info with
  | [] => []
  | (ticker, (descricao, pais)) :: resto =>
      match liga (download ticker)
                 (baixar_dados_indices_ticker ticker descricao pais) with
      | Retorna (Some df) => df :: dados_completos resto
      | Retorna None => dados_completos resto
      | Levanta _ => dados_completos resto
      end
  end.

(** [pd.concat(frames, ignore_index=True)] for frames that have the same
    columns. *)
Definition concat (frames : list Frame) : Frame :=
  mkFrame (match frames with f :: _ => columns f | [] => [] end)
          (flat_map linhas frames).

(** [IndiceManager.baixar_dados_indices]. *)
Definition baixar_dados_indices (tickers_info : list (string * (string * string)))
  : option Frame :=
  match dados_completos tickers_info with
  | [] => None
  | frames => Some (concat frames)
  end.

End Download.

(** [IndiceManager.tickers_info]. *)
Definition tickers_info : list (string * (string * string)) :=
  [("^NYA", ("NYSE Composite Index", "Estados Unidos"));
   ("^IXIC", ("Nasdaq Composite Index", "Estados Unidos"));
   ("^FTSE", ("FTSE 100 Index", "Reino Unido"));
   ("^NSEI", ("NSE Nifty 50 Index", "Índia"));
   ("^BSESN", ("BSE Sensex Index", "Índia"));
   ("^N225", ("Nikkei 225 Index", "Japão"));
   ("000001.SS", ("SSE Composite Index", "China"));
   ("^N100", ("Euronext 100 Index", "Europa"));
   ("^DJI", ("Dow Jones Industrial Average", "Estados Unidos"));
   ("^GSPC", ("S&P 500 Index", "Estados Unidos"))]%string.

(** *** The loading report *)

(** What [gera_relatorio_carregamento] writes to the log: the number of
    active instruments, the number of bars, the first and the last date,
    and a total for each instrument. *)
Record Relatorio : Type := mkRelatorio {
  total_indices : nat;
  total_historico : nat;
  periodo : option data * option data;
  registros_por_indice : list (string * string * nat)
}.

(** [MIN(DataQuotacao)] and [MAX(DataQuotacao)]: [NULL] on no row. *)
Definition min_data (l : list data) : option data :=
  match l with
  | [] => None
  | x :: r => Some (fold_left Z.min r x)
  end.

Definition max_data (l : list data) : option data :=
  match l with
  | [] => None
  | x :: r => Some (fold_left Z.max r x)
  end.

(** The rows of [Indices i LEFT JOIN HistoricoPrecos hp ON i.IdIndice =
    hp.IdIndice] for one instrument: its bars, or one row without bar. *)
Definition left_join (b : Banco) (i : Indices) : list (option HistoricoPrecos) :=
  match filter (fun hp => (IdIndice i =? hp_IdIndice hp)%Z)
               (tab_HistoricoPrecos b) with
  | [] => [None]
  | barras => map Some barras
  end.

(** [ORDER BY Total DESC]. *)
Fixpoint insere_por_total (x : string * string * nat)
         (l : list (string * string * nat)) : list (string * string * nat) :=
  match l with
  | [] => [x]
  | y :: r =>
      if (snd y <=? snd x)%nat then x :: l else y :: insere_por_total x r
  end.

(** [SELECT i.Ticker, i.Descricao, COUNT( * ) ... GROUP BY i.IdIndice,
    i.Ticker, i.Descricao ORDER BY Total DESC]; [IdIndice] is the key of
    the table, so that every instrument is a group. *)
Definition totais_por_indice (b : Banco) : list (string * string * nat) :=
  fold_right insere_por_total []
    (map (fun i => (Ticker i, Descricao i, List.length (left_join b i)))
         (tab_Indices b)).

(** [RepositorioSQLServer.gera_relatorio_carregamento]; the embedding
    returns what the method logs. *)
Definition gera_relatorio_carregamento : M Relatorio :=
  conn <- get_connection ;;
  executa ;;
  let total_indices := List.length (filter Ativo (tab_Indices conn)) in
  executa ;;
  let total_historico := List.length (tab_HistoricoPrecos conn) in
  executa ;;
  let datas := map DataQuotacao (tab_HistoricoPrecos conn) in
  executa ;;
  ret (mkRelatorio total_indices total_historico
                   (min_data datas, max_data datas)
                   (totais_por_indice conn)).

End Carga.

(* ================================================================= *)
(** ** src/app.py: the routes that read the store

    A route answers with a body or, when an exception is caught, with
    status 500; rendering is not represented. *)

Module Rotas.
Import App.

Inductive Resposta (A : Type) : Type :=
| R200 (corpo : A)
| R500 (e : Excecao).
Arguments R200 {A} corpo.
Arguments R500 {A} e.

(** An entry of [dados_agrupados]: [{'datas': [...], 'precos': [...]}];
    a date stands for its text. *)
Record Serie : Type := mkSerie {
  datas : list data;
  precos : list Q
}.

(** One turn of the loop of [api_grafico_segmento]. *)
Fixpoint agrupa_linha (row : Linha) (d : list (string * Serie))
  : list (string * Serie) :=
  match d with
  | [] =>
      [(row0_Ticker row,
        mkSerie [row2_DataQuotacao row] [fechamento_de (row3_Fechamento row)])]
  | (ticker, s) :: r =>
      if String.eqb ticker (row0_Ticker row) then
        (ticker, mkSerie (datas s ++ [row2_DataQuotacao row])
                         (precos s ++ [fechamento_de (row3_Fechamento row)]))
        :: r
      else (ticker, s) :: agrupa_linha row r
  end.

Definition dados_agrupados (dados : list Linha) : list (string * Serie) :=
  fold_left (fun d row => agrupa_linha row d) dados [].

(** The window of a request.  Day numbers are proleptic Gregorian
    ordinals ([date.toordinal()]): day 1 is 0001-01-01 and day 3652059
    is 9999-12-31.  [timedelta(days=dias)] exists for at most 999999999
    days, and [datetime.now() - timedelta(days=dias)] when the result is
    a [datetime]. *)
Definition janela_valida (agora : Timestamp) (dias : Z) : bool :=
  (Z.abs dias <=? 999999999)%Z
  && (1 <=? ts_dia agora - dias)%Z && (ts_dia agora - dias <=? 3652059)%Z.

(** [data_inicio = datetime.now() - timedelta(days=dias)], the first
    line of [obter_dados_segmento]: [OverflowError] outside the window. *)
Definition data_inicio (agora : Timestamp) (dias : Z) : Resultado Timestamp :=
  if janela_valida agora dias then Retorna (menos_dias agora dias)
  else Levanta OverflowError.

(** [obter_dados_segmento] as a route calls it, for the number of days
    of the request: the start of the window is computed, then the query
    is sent to the store. *)
Definition consulta_dados_segmento (agora : Timestamp) (id_segmento dias : Z)
  : M (list Linha) :=
  eleva (data_inicio agora dias) ;;
  executa ;;
  fun m => (Retorna (obter_dados_segmento (banco m) agora id_segmento dias), m).

(** [api_grafico_segmento]; [dias] is the parameter of the request, 90
    when absent. *)
Definition api_grafico_segmento (agora : Timestamp) (id_segmento dias : Z)
  : M (Resposta (list (string * Serie))) :=
  tenta
    (dados <- consulta_dados_segmento agora id_segmento dias ;;
     ret (R200 (dados_agrupados dados)))
    (fun e => ret (R500 e)).

Section Painel.
Variable raiz : Q -> Q.

(** The loop of [dashboard] over the active segments. *)
Fixpoint dados_dashboard (agora : Timestamp) (segmentos : list SegmentosInvestimento)
  : M (list (string * Metricas)) :=
  match segmentos with
  | [] => ret []
  | seg :: resto =>
      executa ;;
      metricas <- (fun m =>
                     (Retorna (calcular_metricas_segmento raiz (banco m) agora
                                                          (IdSegmento seg)), m)) ;;
      dashboard_data <- dados_dashboard agora resto ;;
      match metricas with
      | Some mt => ret ((Nome seg, mt) :: dashboard_data)
      | None => ret dashboard_data
      end
  end.

(** [dashboard]: the data passed to the template. *)
Definition dashboard (agora : Timestamp)
  : M (Resposta (list (string * Metricas))) :=
  tenta
    (executa ;;
     segmentos <- (fun m =>
                     (Retorna (filter seg_Ativo
                                      (tab_SegmentosInvestimento (banco m))), m)) ;;
     dashboard_data <- dados_dashboard agora segmentos ;;
     ret (R200 dashboard_data))
    (fun e => ret (R500 e)).

End Painel.

End Rotas.

(* ================================================================= *)
(** ** Soft deactivation *)

(** The store in which every instrument and every segment has the given
    value of [Ativo]. *)
Definition com_ativos (a : bool) (b : Banco) : Banco :=
  mkBanco
    (map (fun i => mkIndices (IdIndice i) (Ticker i) (Descricao i) (Pais i) a)
         (tab_Indices b))
    (tab_HistoricoPrecos b)
    (map (fun s => mkSegmentosInvestimento (IdSegmento s) (Nome s)
                                           (seg_Descricao s) a)
         (tab_SegmentosInvestimento b))
    (tab_IndicesSegmentos b)
    (prox_IdIndice b).


(* ================================================================= *)
(** ** What the routes are expected to answer *)

Module Esperado.
Import App Rotas.

(** The series of a ticker: the dates and the closes of its rows, in the
    order of the result set; nothing for a ticker without row. *)
Definition serie_de (ticker : string) (dados : list Linha) : option Serie :=
  match filter (fun l => String.eqb (row0_Ticker l) ticker) dados with
  | [] => None
  | linhas =>
      Some (mkSerie (map row2_DataQuotacao linhas)
                    (map (fun l => fechamento_de (row3_Fechamento l)) linhas))
  end.

(** The entry of a ticker in a grouped answer. *)
Definition entrada (ticker : string) (d : list (string * Serie)) : option Serie :=
  option_map snd (find (fun kv => String.eqb (fst kv) ticker) d).

(** The dashboard: the active segments that have metrics, with them. *)
Definition painel (raiz : Q -> Q) (b : Banco) (agora : Timestamp)
           (segmentos : list SegmentosInvestimento) : list (string * Metricas) :=
  flat_map (fun seg =>
              match calcular_metricas_segmento raiz b agora (IdSegmento seg) with
              | Some mt => [(Nome seg, mt)]
              | None => []
              end)
           segmentos.

End Esperado.


(* ================================================================= *)
(** ** Constraints of the schema, as properties of a store *)

(** Tickers and ids of [Indices] are unique, and the ids are below the
    next value of the identity column. *)
Definition indices_coerentes (b : Banco) : Prop :=
  NoDup (map Ticker (tab_Indices b))
  /\ NoDup (map IdIndice (tab_Indices b))
  /\ forall i, In i (tab_Indices b) -> (IdIndice i < prox_IdIndice b)%Z.

(** The names of the segments are unique. *)
Definition nomes_unicos (b : Banco) : Prop :=
  NoDup (map Nome (tab_SegmentosInvestimento b)).

(** At most one link between an instrument and a segment. *)
Definition links_unicos (b : Banco) : Prop :=
  NoDup (map (fun s => (is_IdIndice s, is_IdSegmento s))
             (tab_IndicesSegmentos b)).


(** The frame that the collector keeps of an answer of the provider. *)
Definition quadro (r : Resultado Collector.DataFrame) : Collector.DataFrame :=
  match r with
  | Retorna df => df
  | Levanta _ => []
  end.

(** [SELECT IdIndice FROM Indices WHERE Ticker = :ticker], [fetchone()]. *)
Definition indice_do_ticker (b : Banco) (ticker : string) : option Indices :=
  find (fun i => String.eqb (Ticker i) ticker) (tab_Indices b).


(** The four uniqueness constraints together. *)
Definition restricoes (b : Banco) : Prop :=
  unico b /\ indices_coerentes b /\ nomes_unicos b /\ links_unicos b.

(** A computation keeps a property of the committed store, whether it
    returns or raises. *)
Definition mantem {A} (P : Banco -> Prop) (c : M A) : Prop :=
  forall m, P (banco m) -> P (banco (snd (c m))).


(** The number of stored bars of an instrument. *)
Definition barras_do_indice (b : Banco) (i : Indices) : nat :=
  List.length (filter (fun hp => (IdIndice i =? hp_IdIndice hp)%Z)
                      (tab_HistoricoPrecos b)).


(* ================================================================= *)
(** ** IEEE 754 binary64: the returns with their rounding

    [pyfloat] leaves rounding out.  This module evaluates the column of
    returns and its aggregates in binary64, the arithmetic of Python and
    numpy floats (round to nearest, ties to even), through the Standard
    Library's specification of binary floats. *)

Module Binary64.
Import App.

Definition f64 : Type := spec_float.

Definition prec : Z := 53.
Definition emax : Z := 1024.

Definition add (x y : f64) : f64 := SFadd prec emax x y.
Definition sub (x y : f64) : f64 := SFsub prec emax x y.
Definition mul (x y : f64) : f64 := SFmul prec emax x y.
Definition div (x y : f64) : f64 := SFdiv prec emax x y.
Definition sqrt (x : f64) : f64 := SFsqrt prec emax x.

Definition zero : f64 := S754_zero false.
Definition nan : f64 := S754_nan.

Definition isnan (x : f64) : bool :=
  match x with S754_nan => true | _ => false end.

(** [float(z)] for an integer. *)
Definition of_Z (z : Z) : f64 := binary_normalize prec emax z 0 false.
Definition of_nat (n : nat) : f64 := of_Z (Z.of_nat n).

(** An integer as a float that is not normalised. *)
Definition inteiro (z : Z) : f64 :=
  match z with
  | Z0 => S754_zero false
  | Zpos p => S754_finite false p 0
  | Zneg p => S754_finite true p 0
  end.

(** [float(d)] for a [Decimal]: the double nearest to the rational. *)
Definition of_Q (q : Q) : f64 :=
  SFdiv prec emax (inteiro (Qnum q)) (inteiro (Zpos (Qden q))).

(** The close of a row of the frame, as the float that the frame holds. *)
Definition fechamento (l : LinhaDF) : f64 := of_Q (df_Fechamento l).

Fixpoint procura (t : string) (v : list (string * f64)) : option f64 :=
  match v with
  | [] => None
  | (k, x) :: r => if String.eqb k t then Some x else procura t r
  end.

(** [df.groupby(key)[col].pct_change()]: the value divided by the
    previous value of the same group, minus one. *)
Fixpoint pct_change_grupo (v : list (string * f64)) (linhas : list (string * f64))
  : list f64 :=
  match linhas with
  | [] => []
  | (t, x) :: r =>
      match procura t v with
      | None => nan
      | Some p => sub (div x p) (of_Z 1)
      end :: pct_change_grupo ((t, x) :: v) r
  end.

Definition groupby_pct_change (linhas : list (string * f64)) : list f64 :=
  pct_change_grupo [] linhas.

(** The column [df['Retorno']]. *)
Definition coluna_Retorno (df : list LinhaDF) : list f64 :=
  map (fun r => mul r (of_Z 100))
      (groupby_pct_change (map (fun l => (df_Ticker l, fechamento l)) df)).

(** The return of row [i] as pandas evaluates it, from the previous
    observation of the same instrument. *)
Definition retorno_calculado (df : list LinhaDF) (i : nat) : f64 :=
  match nth_error df i, observacao_anterior df i with
  | Some l, Some a =>
      mul (sub (div (fechamento l) (fechamento a)) (of_Z 1)) (of_Z 100)
  | _, _ => nan
  end.

(** The return of row [i] in the words of the design document,
    [(close[t] - close[t-1]) / close[t-1] * 100], evaluated in binary64. *)
Definition retorno_documentado (df : list LinhaDF) (i : nat) : f64 :=
  match nth_error df i, observacao_anterior df i with
  | Some l, Some a =>
      mul (div (sub (fechamento l) (fechamento a)) (fechamento a)) (of_Z 100)
  | _, _ => nan
  end.

(** Adding from left to right, from 0. *)
Definition soma_sequencial (xs : list f64) : f64 := fold_left add xs zero.

(** The aggregates in the words of the design document: the arithmetic
    mean and the sample standard deviation of the defined returns, each
    operation rounded. *)
Definition definidos (xs : list f64) : list f64 :=
  filter (fun x => negb (isnan x)) xs.

Definition media (ys : list f64) : f64 :=
  match ys with
  | [] => nan
  | _ => div (soma_sequencial ys) (of_nat (List.length ys))
  end.

Definition desvio_padrao (ys : list f64) : f64 :=
  if (List.length ys <=? 1)%nat then nan
  else
    let desvios := map (fun x => mul (sub (media ys) x) (sub (media ys) x)) ys in
    sqrt (div (soma_sequencial desvios) (of_nat (List.length ys - 1))).

(** The floats that the operations return: the exponent of a finite one
    is not below [emin], and none is [-0.0] unless an argument is. *)
Definition expoente_ok (x : f64) : Prop :=
  match x with
  | S754_finite _ _ e => (emin prec emax <= e)%Z
  | _ => True
  end.

Definition regular (x : f64) : Prop := x <> S754_zero true /\ expoente_ok x.

Section Agregados.
(** The sum of an array ([ndarray.sum], or bottleneck's loop).  The
    order in which eight numbers or more are added is the library's. *)
Variable soma : list f64 -> f64.

(** pandas puts 0 in the place of [NaN] before it sums. *)
Definition preenche (xs : list f64) : list f64 :=
  map (fun x => if isnan x then zero else x) xs.

(** The number of values that are not [NaN]. *)
Definition conta (xs : list f64) : nat :=
  List.length (filter (fun x => negb (isnan x)) xs).

(** [Series.mean()], [skipna=True]. *)
Definition mean (xs : list f64) : f64 :=
  match conta xs with
  | O => nan
  | n => div (soma (preenche xs)) (of_nat n)
  end.

(** [Series.std()], [skipna=True], [ddof=1]: two passes. *)
Definition std (xs : list f64) : f64 :=
  let n := conta xs in
  if (n <=? 1)%nat then nan
  else
    let avg := div (soma (preenche xs)) (of_nat n) in
    let sqr := map (fun x => if isnan x then zero
                             else mul (sub avg x) (sub avg x)) xs in
    sqrt (div (soma sqr) (of_nat (n - 1))).

(** [metricas['RetornoMedio']] and [metricas['VolatilidadeMedia']] of
    [calcular_metricas_segmento] for a result set. *)
Definition retorno_medio (dados : list Linha) : option f64 :=
  match dados with
  | [] => None
  | _ => Some (mean (coluna_Retorno (map linha_df dados)))
  end.

Definition volatilidade_media (dados : list Linha) : option f64 :=
  match dados with
  | [] => None
  | _ => Some (std (coluna_Retorno (map linha_df dados)))
  end.

End Agregados.

End Binary64.


(* ================================================================= *)
(** * Properties of the floats *)

Module PyFloatFacts.

Lemma pf_eq_refl (x : pyfloat) : x =f= x.
Proof. destruct x; simpl; auto. reflexivity. Qed.

Lemma pf_eq_sym (x y : pyfloat) : x =f= y -> y =f= x.
Proof. destruct x, y; simpl; auto. intro H; symmetry; exact H. Qed.

Lemma pf_eq_trans (x y z : pyfloat) : x =f= y -> y =f= z -> x =f= z.
Proof.
  destruct x, y, z; simpl; auto; try contradiction.
  intros H1 H2; rewrite H1; exact H2.
Qed.

Lemma pf_ltb_Fin (a b : Q) : (Fin a <? Fin b)%pf = true <-> a < b.
Proof.
  simpl. rewrite Qlt_alt. destruct (a ?= b); split; congruence.
Qed.

Lemma pf_leb_Fin (a b : Q) : (Fin a <=? Fin b)%pf = true <-> a <= b.
Proof.
  simpl. rewrite Qle_alt. destruct (a ?= b); split; congruence.
Qed.

Lemma pf_ltb_false_Fin (a b : Q) : (Fin a <? Fin b)%pf = false <-> b <= a.
Proof.
  split; intro H.
  - apply Qnot_lt_le. intro L. apply pf_ltb_Fin in L. congruence.
  - destruct (Fin a <? Fin b)%pf eqn:E; auto.
    apply pf_ltb_Fin in E. exfalso. apply (Qlt_not_le _ _ E H).
Qed.

(** A value below [lo] is below any larger bound. *)
Lemma pf_ltb_weaken (x : pyfloat) (lo hi : Q) :
  lo <= hi -> (x <? Fin lo)%pf = true -> (x <? Fin hi)%pf = true.
Proof.
  intros L H. destruct x; simpl in *; try congruence.
  apply pf_ltb_Fin in H. apply pf_ltb_Fin. eapply Qlt_le_trans; eauto.
Qed.

(** Below [lo] excludes above [hi] when [lo <= hi]. *)
Lemma pf_ltb_not_gtb (x : pyfloat) (lo hi : Q) :
  lo <= hi -> (x <? Fin lo)%pf = true -> (x >? Fin hi)%pf = false.
Proof.
  intros L H. unfold pf_gtb. destruct x; simpl in *; try congruence.
  apply pf_ltb_Fin in H. apply pf_ltb_false_Fin.
  apply Qlt_le_weak. eapply Qlt_le_trans; eauto.
Qed.

(** For a float that is not [NaN], [not (x < c)] is [c <= x]. *)
Lemma pf_ltb_false_leb (x : pyfloat) (c : Q) :
  (x <? Fin c)%pf = false <-> (Fin c <=? x)%pf = true \/ x = NaN.
Proof.
  destruct x; simpl.
  - change ((Fin q <? Fin c)%pf = false <-> (Fin c <=? Fin q)%pf = true \/ Fin q = NaN).
    rewrite pf_ltb_false_Fin, pf_leb_Fin. split; [auto|].
    intros [H|H]; [exact H|discriminate].
  - split; auto.
  - split; [discriminate|]. intros [H|H]; discriminate.
  - split; auto.
Qed.

Lemma pf_leb_not_nan (c : Q) (x : pyfloat) : (Fin c <=? x)%pf = true -> x <> NaN.
Proof. destruct x; simpl; congruence. Qed.

Lemma pf_ltb_not_nan (x : pyfloat) (c : Q) : (x <? Fin c)%pf = true -> x <> NaN.
Proof. destruct x; simpl; congruence. Qed.

End PyFloatFacts.

(* ================================================================= *)
(** * Signal generator *)

Module SignalFacts.
Import App PyFloatFacts.

Section Sinais.
Variable raiz : Q -> Q.

Lemma oportunidades_de_None (id : Z) : oportunidades_de id None = [].
Proof. reflexivity. Qed.

(** The record produced for given metrics, field by field. *)
Lemma oportunidades_de_Some (id : Z) (m : Metricas) :
  exists o,
    oportunidades_de id (Some m) = [o]
    /\ id_segmento o = id
    /\ metricas o = m
    /\ (tipo o = COMPRA <-> (RetornoMedio m >? Fin 2)%pf = true)
    /\ (tipo o = VENDA <-> (RetornoMedio m <? Fin (-1))%pf = true)
    /\ (tipo o = HOLD <->
        (RetornoMedio m >? Fin 2)%pf = false
        /\ (RetornoMedio m <? Fin (-1))%pf = false)
    /\ potencial_retorno o =
       match tipo o with
       | COMPRA => (RetornoMedio m * Fin (15 # 10))%pf
       | VENDA => (pf_abs (RetornoMedio m) * Fin (8 # 10))%pf
       | HOLD => RetornoMedio m
       end
    /\ (nivel_risco o = BAIXO <-> (VolatilidadeMedia m <? Fin 2)%pf = true)
    /\ (nivel_risco o = MEDIO <->
        (Fin 2 <=? VolatilidadeMedia m)%pf = true
        /\ (VolatilidadeMedia m <? Fin 5)%pf = true)
    /\ (nivel_risco o = ALTO <->
        (Fin 5 <=? VolatilidadeMedia m)%pf = true
        \/ VolatilidadeMedia m = NaN)
    /\ confianca o =
       match nivel_risco o with
       | BAIXO => Fin (85 # 100)
       | MEDIO => Fin (70 # 100)
       | ALTO => Fin (55 # 100)
       end.
Proof.
  unfold oportunidades_de.
  set (r := RetornoMedio m). set (v := VolatilidadeMedia m).
  assert (Hr : (r <? Fin (-1))%pf = true -> (r >? Fin 2)%pf = false).
  { apply pf_ltb_not_gtb. discriminate. }
  assert (Hv : (v <? Fin 2)%pf = true -> (v <? Fin 5)%pf = true).
  { apply pf_ltb_weaken. discriminate. }
  pose proof (pf_ltb_false_leb v 2) as H2.
  pose proof (pf_ltb_false_leb v 5) as H5.
  pose proof (@pf_ltb_not_nan v 2) as N2.
  pose proof (@pf_ltb_not_nan v 5) as N5.
  destruct (r >? Fin 2)%pf eqn:E1;
    [|destruct (r <? Fin (-1))%pf eqn:E2];
    (destruct (v <? Fin 2)%pf eqn:E3;
     [|destruct (v <? Fin 5)%pf eqn:E4]);
    eexists; (split; [reflexivity|]);
    cbn [id_segmento metricas tipo potencial_retorno nivel_risco confianca];
    repeat split; intros; try congruence; try tauto;
    intuition congruence.
Qed.

(** C2 (amended).  The signal generator is a function of the metrics of
    the segment: no metrics give the empty list; otherwise the list holds
    one record, whose kind is COMPRA with potential [mean * 1.5] iff the
    mean return is above 2, VENDA with potential [|mean| * 0.8] iff it is
    below -1, HOLD with the mean return itself otherwise, and whose risk
    and confidence are BAIXO and 0.85 iff the volatility is below 2,
    MEDIO and 0.70 iff it is at least 2 and below 5, ALTO and 0.55 iff it
    is at least 5 or undefined ([NaN]). *)
Theorem gerar_oportunidades_sinais (b : Banco) (agora : Timestamp) (id : Z) :
  match calcular_metricas_segmento raiz b agora id with
  | None => gerar_oportunidades raiz b agora id = []
  | Some m =>
      exists o,
        gerar_oportunidades raiz b agora id = [o]
        /\ id_segmento o = id
        /\ metricas o = m
        /\ (tipo o = COMPRA <-> (RetornoMedio m >? Fin 2)%pf = true)
        /\ (tipo o = VENDA <-> (RetornoMedio m <? Fin (-1))%pf = true)
        /\ (tipo o = HOLD <->
            (RetornoMedio m >? Fin 2)%pf = false
            /\ (RetornoMedio m <? Fin (-1))%pf = false)
        /\ potencial_retorno o =
           match tipo o with
           | COMPRA => (RetornoMedio m * Fin (15 # 10))%pf
           | VENDA => (pf_abs (RetornoMedio m) * Fin (8 # 10))%pf
           | HOLD => RetornoMedio m
           end
        /\ (nivel_risco o = BAIXO <-> (VolatilidadeMedia m <? Fin 2)%pf = true)
        /\ (nivel_risco o = MEDIO <->
            (Fin 2 <=? VolatilidadeMedia m)%pf = true
            /\ (VolatilidadeMedia m <? Fin 5)%pf = true)
        /\ (nivel_risco o = ALTO <->
            (Fin 5 <=? VolatilidadeMedia m)%pf = true
            \/ VolatilidadeMedia m = NaN)
        /\ confianca o =
           match nivel_risco o with
           | BAIXO => Fin (85 # 100)
           | MEDIO => Fin (70 # 100)
           | ALTO => Fin (55 # 100)
           end
  end.
Proof.
  unfold gerar_oportunidades.
  destruct (calcular_metricas_segmento raiz b agora id) as [m|].
  - apply oportunidades_de_Some.
  - apply oportunidades_de_None.
Qed.

End Sinais.
(** C2, counterexample.  A segment whose only instrument has a single bar
    in the window gets metrics (not NONE) with an undefined volatility;
    the record produced is ALTO with confidence 0.55 although the
    volatility is not at least 5. *)
Lemma gerar_oportunidades_volatilidade_indefinida :
  exists o,
    gerar_oportunidades Exemplos.raiz Exemplos.banco_uma_barra Exemplos.agora 1
    = [o]
    /\ VolatilidadeMedia (metricas o) = NaN
    /\ nivel_risco o = ALTO
    /\ confianca o = Fin (55 # 100)
    /\ (Fin 5 <=? VolatilidadeMedia (metricas o))%pf = false.
Proof.
  eexists. split; [vm_compute; reflexivity|].
  repeat split.
Qed.

(** The boundaries: a mean return of exactly 2 or exactly -1 is HOLD; a
    volatility of exactly 2 is MEDIO and of exactly 5 is ALTO. *)
Example sinais_nos_limites :
  map (fun o => (tipo o, nivel_risco o, confianca o))
      (oportunidades_de 1 (Some (mkMetricas (Fin 2) (Fin 5) (Fin 1) (Fin 1)
                                        (Pandas.Inteiro 0))))
  = [(HOLD, ALTO, Fin (55 # 100))]
  /\ map (fun o => (tipo o, nivel_risco o, confianca o))
         (oportunidades_de 1 (Some (mkMetricas (Fin (-1)) (Fin 2) (Fin 1) (Fin 1)
                                               (Pandas.Inteiro 0))))
     = [(HOLD, MEDIO, Fin (70 # 100))].
Proof. split; reflexivity. Qed.

End SignalFacts.

(* ================================================================= *)
(** * Metrics engine *)

Module MetricsFacts.
Import App Pandas PyFloatFacts.

Lemma procura_find (t : string) (l : list LinhaDF) :
  procura t (map (fun a => (df_Ticker a, df_Fechamento a)) l)
  = option_map df_Fechamento (find (fun a => String.eqb (df_Ticker a) t) l).
Proof.
  induction l as [|a l IH]; simpl; [reflexivity|].
  destruct (String.eqb (df_Ticker a) t); [reflexivity | exact IH].
Qed.

Lemma nth_error_meio {A} (pre : list A) (x : A) (r : list A) :
  nth_error (pre ++ x :: r) (List.length pre) = Some x.
Proof. induction pre; simpl; auto. Qed.

Lemma firstn_meio {A} (pre r : list A) :
  firstn (List.length pre) (pre ++ r) = pre.
Proof. induction pre; simpl; [destruct r; reflexivity | f_equal; auto]. Qed.

(** The grouped shift, started after the rows [pre], computes the
    return of each remaining row from its previous observation. *)
Lemma pct_change_grupo_retorno (resto pre : list LinhaDF) :
  map (fun r => (r * Fin 100)%pf)
      (pct_change_grupo
         (rev (map (fun a => (df_Ticker a, df_Fechamento a)) pre))
         (map (fun a => (df_Ticker a, df_Fechamento a)) resto))
  = map (retorno_calculado (pre ++ resto))
        (seq (List.length pre) (List.length resto)).
Proof.
  revert pre. induction resto as [|l r IH]; intro pre; [reflexivity|].
  cbn [map pct_change_grupo List.length seq]. f_equal.
  - unfold retorno_calculado, observacao_anterior.
    rewrite nth_error_meio, firstn_meio, <- map_rev, procura_find.
    destruct (find _ (rev pre)); reflexivity.
  - unfold atualiza.
    replace ((df_Ticker l, df_Fechamento l)
             :: rev (map (fun a => (df_Ticker a, df_Fechamento a)) pre))
      with (rev (map (fun a => (df_Ticker a, df_Fechamento a)) (pre ++ [l])))
      by (rewrite map_app, rev_app_distr; reflexivity).
    rewrite IH, <- app_assoc, length_app, Nat.add_comm. reflexivity.
Qed.

(** The column of returns, row by row. *)
Lemma coluna_Retorno_calculado (df : list LinhaDF) :
  coluna_Retorno df = map (retorno_calculado df) (seq 0 (List.length df)).
Proof.
  exact (pct_change_grupo_retorno df []).
Qed.

(** *** Aggregates in the presence of infinities and of [NaN] *)

Lemma pf_add_nonfinite_l (a b : pyfloat) :
  isfinite a = false -> isfinite (a + b)%pf = false.
Proof. destruct a, b; simpl; congruence. Qed.

Lemma pf_add_nonfinite_r (a b : pyfloat) :
  isfinite b = false -> isfinite (a + b)%pf = false.
Proof. destruct a, b; simpl; congruence. Qed.

Lemma fold_add_nonfinite_acc (vs : list pyfloat) (acc : pyfloat) :
  isfinite acc = false -> isfinite (fold_left pf_add vs acc) = false.
Proof.
  revert acc. induction vs as [|v vs IH]; intros acc H; simpl; auto.
  apply IH, pf_add_nonfinite_l, H.
Qed.

Lemma fold_add_nonfinite_in (vs : list pyfloat) (acc x : pyfloat) :
  In x vs -> isfinite x = false ->
  isfinite (fold_left pf_add vs acc) = false.
Proof.
  revert acc. induction vs as [|v vs IH]; intros acc Hin Hx; [destruct Hin|].
  simpl. destruct Hin as [->|Hin].
  - apply fold_add_nonfinite_acc, pf_add_nonfinite_r, Hx.
  - apply IH; assumption.
Qed.

Lemma fold_add_nan_acc (vs : list pyfloat) :
  fold_left pf_add vs NaN = NaN.
Proof. induction vs as [|v vs IH]; simpl; auto. Qed.

Lemma fold_add_nan_in (vs : list pyfloat) (acc : pyfloat) :
  In NaN vs -> fold_left pf_add vs acc = NaN.
Proof.
  revert acc. induction vs as [|v vs IH]; intros acc Hin; [destruct Hin|].
  simpl. destruct Hin as [->|Hin].
  - replace (acc + NaN)%pf with NaN by (destruct acc; reflexivity).
    apply fold_add_nan_acc.
  - apply IH, Hin.
Qed.

(** A sum that is [+inf] has a [+inf] among its terms. *)
Lemma fold_add_PInf (vs : list pyfloat) (acc : pyfloat) :
  fold_left pf_add vs acc = PInf -> acc = PInf \/ In PInf vs.
Proof.
  revert acc. induction vs as [|v vs IH]; intros acc H; simpl in *; auto.
  destruct (IH _ H) as [H1|H1]; [|auto].
  destruct acc, v; simpl in H1; try discriminate; auto.
Qed.

Lemma fold_add_NInf (vs : list pyfloat) (acc : pyfloat) :
  fold_left pf_add vs acc = NInf -> acc = NInf \/ In NInf vs.
Proof.
  revert acc. induction vs as [|v vs IH]; intros acc H; simpl in *; auto.
  destruct (IH _ H) as [H1|H1]; [|auto].
  destruct acc, v; simpl in H1; try discriminate; auto.
Qed.

Lemma pf_of_nat_pos (n : nat) : (0 < n)%nat -> (inject_Z (Z.of_nat n) ?= 0) = Gt.
Proof.
  intro H. apply Qgt_alt. change 0 with (inject_Z 0).
  rewrite <- Zlt_Qlt. lia.
Qed.

(** Dividing by a positive count keeps an infinity. *)
Lemma pf_div_nat (s : pyfloat) (n : nat) :
  (0 < n)%nat ->
  match s with
  | Fin _ => True
  | _ => (s / pf_of_nat n)%pf = s
  end.
Proof.
  intro H. destruct s; simpl; auto; rewrite (pf_of_nat_pos H); reflexivity.
Qed.

Lemma in_dropna (x : pyfloat) (xs : list pyfloat) :
  In x (dropna xs) <-> In x xs /\ x <> NaN.
Proof.
  unfold dropna. rewrite filter_In. destruct x; simpl; intuition congruence.
Qed.

(** An infinite value makes the mean non-finite. *)
Lemma mean_inf (xs : list pyfloat) (x : pyfloat) :
  In x xs -> isinf x = true -> isfinite (mean xs) = false.
Proof.
  intros Hin Hx. unfold mean.
  assert (Hd : In x (dropna xs)).
  { apply in_dropna. split; [exact Hin | destruct x; discriminate]. }
  destruct (dropna xs) as [|v vs] eqn:E; [reflexivity|].
  assert (Hs : isfinite (pf_sum (v :: vs)) = false).
  { apply fold_add_nonfinite_in with x; [exact Hd | destruct x; auto; discriminate]. }
  assert (Hn : (0 < List.length (v :: vs))%nat) by (simpl; lia).
  pose proof (pf_div_nat (pf_sum (v :: vs)) Hn) as D.
  destruct (pf_sum (v :: vs)); try discriminate; rewrite D; reflexivity.
Qed.

(** ... and the sample standard deviation undefined. *)
Lemma std_inf (raiz : Q -> Q) (xs : list pyfloat) (x : pyfloat) :
  In x xs -> isinf x = true -> std raiz xs = NaN.
Proof.
  intros Hin Hx. unfold std.
  assert (Hd : In x (dropna xs)).
  { apply in_dropna. split; [exact Hin | destruct x; discriminate]. }
  set (vs := dropna xs) in *.
  destruct (List.length vs <=? 1)%nat eqn:En; [reflexivity|].
  apply Nat.leb_gt in En.
  assert (Hn : (0 < List.length vs)%nat) by lia.
  assert (Hs : isfinite (pf_sum vs) = false).
  { apply fold_add_nonfinite_in with x; [exact Hd | destruct x; auto; discriminate]. }
  pose proof (pf_div_nat (pf_sum vs) Hn) as D.
  set (avg := (pf_sum vs / pf_of_nat (List.length vs))%pf) in *.
  assert (Hnan : In NaN (map (fun y => ((avg - y) * (avg - y))%pf) vs)).
  { apply in_map_iff.
    destruct (pf_sum vs) eqn:Es; try discriminate.
    - destruct (fold_add_PInf vs (Fin 0) Es) as [H0|H0]; [discriminate|].
      exists PInf. rewrite D. split; [reflexivity | exact H0].
    - destruct (fold_add_NInf vs (Fin 0) Es) as [H0|H0]; [discriminate|].
      exists NInf. rewrite D. split; [reflexivity | exact H0].
    - exists x. rewrite D. split; [reflexivity | exact Hd]. }
  unfold pf_sum at 1. rewrite (fold_add_nan_in _ _ Hnan). reflexivity.
Qed.

(** The aggregates only see the values that are not [NaN]. *)
Lemma dropna_idem (xs : list pyfloat) : dropna (dropna xs) = dropna xs.
Proof.
  unfold dropna. induction xs as [|x xs IH]; simpl; auto.
  destruct (isnan x) eqn:E; simpl; [exact IH|]. rewrite E. simpl. f_equal. exact IH.
Qed.

Lemma mean_dropna (xs : list pyfloat) : mean xs = mean (dropna xs).
Proof. unfold mean. rewrite dropna_idem. reflexivity. Qed.

Lemma std_dropna (raiz : Q -> Q) (xs : list pyfloat) :
  std raiz xs = std raiz (dropna xs).
Proof. unfold std. rewrite dropna_idem. reflexivity. Qed.

(** *** The order of the result set *)

Lemma ordem_leb_total (a b : Linha) :
  ordem_leb a b = true \/ ordem_leb b a = true.
Proof.
  unfold ordem_leb. rewrite (String.compare_antisym (row0_Ticker b) (row0_Ticker a)).
  destruct (String.compare (row0_Ticker a) (row0_Ticker b)); simpl; auto.
  destruct (Z.leb_spec (row2_DataQuotacao a) (row2_DataQuotacao b)); [auto|].
  right. apply Z.leb_le. lia.
Qed.

Lemma insere_ordenado_HdRel (x y : Linha) (l : list Linha) :
  ordem_leb y x = true ->
  HdRel (fun a b => ordem_leb a b = true) y l ->
  HdRel (fun a b => ordem_leb a b = true) y (insere_ordenado x l).
Proof.
  intros Hyx H. destruct l as [|z l]; simpl; [constructor; exact Hyx|].
  destruct (ordem_leb x z); constructor; [exact Hyx|].
  inversion H; assumption.
Qed.

Lemma insere_ordenado_Sorted (x : Linha) (l : list Linha) :
  Sorted (fun a b => ordem_leb a b = true) l ->
  Sorted (fun a b => ordem_leb a b = true) (insere_ordenado x l).
Proof.
  induction l as [|y l IH]; intro S; simpl.
  - constructor; constructor.
  - destruct (ordem_leb x y) eqn:E.
    + constructor; [exact S | constructor; exact E].
    + inversion S as [|? ? S' H]; subst. constructor; [exact (IH S')|].
      apply insere_ordenado_HdRel; [|exact H].
      destruct (ordem_leb_total x y); congruence.
Qed.

(** The rows come by ticker, and by date within a ticker. *)
Lemma obter_dados_segmento_Sorted (b : Banco) (agora : Timestamp) (id dias : Z) :
  Sorted (fun a c => ordem_leb a c = true) (obter_dados_segmento b agora id dias).
Proof.
  unfold obter_dados_segmento, order_by.
  match goal with
  | |- Sorted _ (fold_right _ _ ?linhas) => induction linhas as [|x r IH]
  end.
  - constructor.
  - simpl. apply insere_ordenado_Sorted, IH.
Qed.

Section Metricas.
Variable raiz : Q -> Q.

Lemma metricas_de_dados_Some (dados : list Linha) :
  dados <> [] ->
  metricas_de_dados raiz dados
  = Some {| RetornoMedio := mean (coluna_Retorno (map linha_df dados));
            VolatilidadeMedia := std raiz (coluna_Retorno (map linha_df dados));
            PrecoMaximo := max (map df_Fechamento (map linha_df dados));
            PrecoMinimo := min (map df_Fechamento (map linha_df dados));
            VolumeTotal := sum (map df_Volume (map linha_df dados)) |}.
Proof. destruct dados; [congruence | reflexivity]. Qed.

Lemma metricas_de_dados_None (dados : list Linha) :
  metricas_de_dados raiz dados = None <-> dados = [].
Proof. destruct dados; simpl; split; congruence. Qed.

Lemma nth_coluna_Retorno (df : list LinhaDF) (i : nat) :
  (i < List.length df)%nat ->
  nth i (coluna_Retorno df) NaN = retorno_calculado df i.
Proof.
  intro H. rewrite coluna_Retorno_calculado.
  rewrite (nth_indep _ NaN (retorno_calculado df 0)) by (rewrite length_map, length_seq; exact H).
  rewrite map_nth, seq_nth by exact H. reflexivity.
Qed.

(** C1 (amended).  The metrics are computed for every non-empty result
    set, whatever its closes; a null close and a zero close both enter
    the frame as 0; when the previous close of an instrument is zero, the
    return of the day is [NaN] (undefined, and dropped from the
    aggregates) only if the close of the day is zero as well, and is
    [+inf] or [-inf] otherwise; an infinite return is not dropped: it
    makes the mean return non-finite and the volatility [NaN]. *)
Theorem fechamento_anterior_zero :
  (forall dados, metricas_de_dados raiz dados = None <-> dados = [])
  /\ (forall c,
         c = None \/ (exists q, c = Some q /\ q == 0) -> fechamento_de c = 0)
  /\ (forall df i l a,
         nth_error df i = Some l ->
         observacao_anterior df i = Some a ->
         df_Fechamento a == 0 ->
         nth i (coluna_Retorno df) NaN = inf_com_sinal (df_Fechamento l ?= 0))
  /\ (forall dados m x,
         metricas_de_dados raiz dados = Some m ->
         In x (coluna_Retorno (map linha_df dados)) ->
         isinf x = true ->
         isfinite (RetornoMedio m) = false /\ VolatilidadeMedia m = NaN).
Proof.
  split; [exact metricas_de_dados_None|].
  split.
  { intros c [->|[q [-> Hq]]]; [reflexivity|].
    unfold fechamento_de. apply Qeq_bool_iff in Hq. rewrite Hq. reflexivity. }
  split.
  { intros df i l a Hl Ha Hz.
    assert (L : (i < List.length df)%nat).
    { apply nth_error_Some. congruence. }
    rewrite nth_coluna_Retorno by exact L.
    unfold retorno_calculado. rewrite Hl, Ha.
    unfold pf_sub. cbn [pf_div pf_neg].
    apply Qeq_bool_iff in Hz. rewrite Hz.
    destruct (df_Fechamento l ?= 0); reflexivity. }
  intros dados m x H Hin Hx.
  assert (Hd : dados <> []) by (intro E; subst; discriminate).
  rewrite (metricas_de_dados_Some Hd) in H. injection H as <-. simpl.
  split; [eapply mean_inf | eapply std_inf]; eassumption.
Qed.

End Metricas.

(** C1, counterexample.  A null close followed by a close of 110: the
    return of the second day is [+inf], it is not dropped, and the mean
    return of the segment is [+inf]. *)
Lemma fechamento_nulo_retorno_infinito :
  map row3_Fechamento
      (obter_dados_segmento Exemplos.banco_fechamento_nulo Exemplos.agora 1 365)
  = [None; Some 110]
  /\ coluna_Retorno
       (map linha_df
            (obter_dados_segmento Exemplos.banco_fechamento_nulo
                                  Exemplos.agora 1 365))
     = [NaN; PInf]
  /\ exists m,
       calcular_metricas_segmento Exemplos.raiz Exemplos.banco_fechamento_nulo
                                  Exemplos.agora 1 = Some m
       /\ RetornoMedio m = PInf.
Proof.
  split; [vm_compute; reflexivity|].
  split; [vm_compute; reflexivity|].
  eexists. split; vm_compute; reflexivity.
Qed.

(** C1, instance: in the frame of closes 0 and 110 the previous close
    of the second row is zero and its return is [+inf]. *)
Lemma fechamento_anterior_zero_exemplo :
  nth 1 (coluna_Retorno [mkLinhaDF "AAA" 900 0 None; mkLinhaDF "AAA" 901 110 None])
      NaN
  = PInf.
Proof.
  destruct (fechamento_anterior_zero Exemplos.raiz) as (_ & _ & H & _).
  exact (H [mkLinhaDF "AAA" 900 0 None; mkLinhaDF "AAA" 901 110 None] 1%nat
           (mkLinhaDF "AAA" 901 110 None) (mkLinhaDF "AAA" 900 0 None)
           eq_refl eq_refl (Qeq_refl 0)).
Defined.

End MetricsFacts.

(* ================================================================= *)
(** * The store as seen by a client *)

Module StoreFacts.

Lemma bind_Retorna {A B} (c : M A) (k : A -> M B) (m m' : Mundo) (a : A) :
  c m = (Retorna a, m') -> bind c k m = k a m'.
Proof. unfold bind. intros ->. reflexivity. Qed.

Lemma bind_Levanta {A B} (c : M A) (k : A -> M B) (m m' : Mundo) (e : Excecao) :
  c m = (Levanta e, m') -> bind c k m = (Levanta e, m').
Proof. unfold bind. intros ->. reflexivity. Qed.

Lemma tenta_Retorna {A} (c : M A) (h : Excecao -> M A) (m m' : Mundo) (a : A) :
  c m = (Retorna a, m') -> tenta c h m = (Retorna a, m').
Proof. unfold tenta. intros ->. reflexivity. Qed.

Lemma tenta_Levanta {A} (c : M A) (h : Excecao -> M A) (m m' : Mundo) (e : Excecao) :
  c m = (Levanta e, m') -> tenta c h m = h e m'.
Proof. unfold tenta. intros ->. reflexivity. Qed.

Arguments bind_Retorna {A B} c k {m m' a} _.
Arguments bind_Levanta {A B} c k {m m' e} _.
Arguments tenta_Retorna {A} c h {m m' a} _.
Arguments tenta_Levanta {A} c h {m m' e} _.

Lemma registra_eq (r : Registro) (m : Mundo) :
  registra r m = (Retorna tt, mkMundo (banco m) (falhas m) (log m ++ [r])).
Proof. reflexivity. Qed.

Lemma ida_ao_banco_sem_falhas (m : Mundo) :
  falhas m = [] -> ida_ao_banco m = (Retorna tt, m).
Proof. unfold ida_ao_banco. intros ->. reflexivity. Qed.

(** A round trip succeeds or raises a connectivity error; it changes
    neither the committed store nor the log. *)
Lemma ida_ao_banco_casos (m : Mundo) :
  exists r m',
    ida_ao_banco m = (r, m')
    /\ (r = Retorna tt \/ r = Levanta OperationalError)
    /\ banco m' = banco m /\ log m' = log m.
Proof.
  unfold ida_ao_banco. destruct (falhas m) as [|[|] f].
  - exists (Retorna tt), m. auto.
  - eexists _, _. split; [reflexivity|]. simpl. auto.
  - eexists _, _. split; [reflexivity|]. simpl. auto.
Qed.

Lemma ida_ao_banco_falha (m : Mundo) (f : list bool) :
  falhas m = true :: f ->
  ida_ao_banco m = (Levanta OperationalError, mkMundo (banco m) f (log m)).
Proof. unfold ida_ao_banco. intros ->. reflexivity. Qed.

Lemma conta_historico_zero (b : Banco) (id : Z) (d : data) :
  conta_historico b id d = 0%nat ->
  ~ In (id, d) (map chave (tab_HistoricoPrecos b)).
Proof.
  unfold conta_historico. intros H Hin.
  apply in_map_iff in Hin. destruct Hin as [h [Hk Hin]].
  apply length_zero_iff_nil in H.
  assert (Hf : In h (filter (fun h => (hp_IdIndice h =? id)%Z && (DataQuotacao h =? d)%Z)
                            (tab_HistoricoPrecos b))).
  { apply filter_In. split; [exact Hin|].
    unfold chave in Hk. injection Hk as -> ->. rewrite !Z.eqb_refl. reflexivity. }
  rewrite H in Hf. destruct Hf.
Qed.

Lemma conta_historico_pos (b : Banco) (id : Z) (d : data) :
  (0 < conta_historico b id d)%nat <->
  In (id, d) (map chave (tab_HistoricoPrecos b)).
Proof.
  split.
  - unfold conta_historico. intro H.
    destruct (filter _ (tab_HistoricoPrecos b)) as [|h l] eqn:E; [simpl in H; lia|].
    assert (Hf : In h (h :: l)) by (left; reflexivity).
    rewrite <- E in Hf. apply filter_In in Hf. destruct Hf as [Hin Hk].
    apply andb_true_iff in Hk. destruct Hk as [H1 H2].
    apply Z.eqb_eq in H1, H2. apply in_map_iff. exists h. split; [|exact Hin].
    unfold chave. congruence.
  - intro Hin. destruct (conta_historico b id d) eqn:E; [|lia].
    exfalso. exact (conta_historico_zero _ _ _ E Hin).
Qed.

(** Appending a bar whose key is not stored keeps the keys unique. *)
Lemma unico_insere (b : Banco) (h : HistoricoPrecos) :
  unico b ->
  conta_historico b (hp_IdIndice h) (DataQuotacao h) = 0%nat ->
  unico (com_HistoricoPrecos b (tab_HistoricoPrecos b ++ [h])).
Proof.
  unfold unico. simpl. intros U Z0.
  rewrite map_app. simpl.
  apply NoDup_rev in U. rewrite <- (rev_involutive (_ ++ _)).
  apply NoDup_rev. rewrite rev_app_distr. simpl. constructor; [|exact U].
  rewrite <- in_rev. apply conta_historico_zero, Z0.
Qed.

Lemma linha_inserida_chave (p : Parametros) (h : HistoricoPrecos) :
  linha_inserida p = Retorna h ->
  hp_IdIndice h = p_id_indice p /\ DataQuotacao h = p_data_quotacao p.
Proof.
  unfold linha_inserida, liga. intro H.
  repeat match type of H with
         | match ?x with _ => _ end = _ => destruct x; try discriminate
         end.
  injection H as <-. auto.
Qed.

End StoreFacts.

(* ================================================================= *)
(** * Collector *)

Module CollectorFacts.
Import Collector StoreFacts.

Ltac desfaz_resultado H :=
  repeat match type of H with
         | match ?x with _ => _ end = _ => destruct x eqn:?; try discriminate
         end.

Lemma parametros_insert_chave (id : Z) (row : LinhaYF) (p : Parametros) :
  parametros_insert id row = Retorna p ->
  p_id_indice p = id /\ p_data_quotacao p = date (yf_Date row)
  /\ p_fechamento_ajustado p = p_fechamento p
  /\ ((notna (yf_Volume row) = false /\ p_volume p = CInt 0)
      \/ (notna (yf_Volume row) = true
          /\ exists z, py_int (yf_Volume row) = Retorna z /\ p_volume p = CInt z)).
Proof.
  unfold parametros_insert, liga. intro H.
  destruct (float_ou_None (yf_Open row)); try discriminate.
  destruct (float_ou_None (yf_High row)); try discriminate.
  destruct (float_ou_None (yf_Low row)); try discriminate.
  destruct (float_ou_None (yf_Close row)); try discriminate.
  destruct (int_ou_zero (yf_Volume row)) eqn:V; try discriminate.
  injection H as <-. simpl. repeat split.
  unfold int_ou_zero, liga in V.
  destruct (notna (yf_Volume row)).
  - destruct (py_int (yf_Volume row)); try discriminate.
    injection V as <-. right. eauto.
  - injection V as <-. left. auto.
Qed.

(** The bar stored for a row carries the instrument and the date of the
    row, the close as adjusted close, and an integer volume, 0 for a
    missing one. *)
Lemma linha_convertida_campos (id : Z) (row : LinhaYF) (h : HistoricoPrecos) :
  linha_convertida id row = Retorna h ->
  hp_IdIndice h = id /\ DataQuotacao h = date (yf_Date row)
  /\ FechamentoAjustado h = Fechamento h
  /\ ((notna (yf_Volume row) = false /\ Volume h = Some 0%Z)
      \/ (notna (yf_Volume row) = true
          /\ exists z, py_int (yf_Volume row) = Retorna z /\ Volume h = Some z)).
Proof.
  unfold linha_convertida, liga. intro H.
  destruct (parametros_insert id row) as [p|] eqn:P; [|discriminate].
  destruct (parametros_insert_chave _ _ P) as (Hi & Hd & Ha & Hv).
  destruct (linha_inserida_chave _ H) as [K1 K2].
  split; [congruence|]. split; [congruence|].
  unfold linha_inserida, liga in H.
  rewrite Ha in H.
  destruct (param_numeric (p_abertura p)); try discriminate.
  destruct (param_numeric (p_alta p)); try discriminate.
  destruct (param_numeric (p_baixa p)); try discriminate.
  destruct (param_numeric (p_fechamento p)); try discriminate.
  destruct (param_bigint (p_volume p)) eqn:B; try discriminate.
  injection H as <-. simpl. split; [reflexivity|].
  destruct Hv as [[N V]|[T [z [N V]]]]; rewrite V in B; simpl in B; injection B as <-.
  - left. auto.
  - right. eauto.
Qed.

Ltac fecha_volta :=
  eexists _, _; split; [reflexivity|]; cbn [banco];
  split; [congruence | auto].

(** One turn of the loop never raises and leaves the committed store
    alone; its effect on the loop state is that of [passo], or none when
    a round trip fails. *)
Lemma volta_do_laco (id : Z) (row : LinhaYF) (st : Laco) (m : Mundo) :
  exists st' m',
    tenta (corpo_linha id row st)
          (fun e => registra (ErroInserirRegistro e) ;; ret st) m
    = (Retorna st', m')
    /\ banco m' = banco m
    /\ (st' = st \/ st' = passo id st row).
Proof.
  unfold tenta, corpo_linha, executa, bind, eleva, registra, ret.
  unfold passo, presente, linha_convertida.
  destruct (ida_ao_banco_casos m) as (r1 & m1 & E1 & [->| ->] & B1 & _);
    rewrite E1; [|fecha_volta].
  destruct (0 <? conta_historico (tx st) id (date (yf_Date row)))%nat;
    [fecha_volta|].
  destruct (parametros_insert id row) as [p|e] eqn:P; simpl; [|fecha_volta].
  destruct (ida_ao_banco_casos m1) as (r2 & m2 & E2 & [->| ->] & B2 & _);
    rewrite E2; [|fecha_volta].
  destruct (linha_inserida p) as [h|e] eqn:L; simpl; fecha_volta.
Qed.

(** Any property of the loop state kept by [passo] on the rows of the
    batch holds after the loop, which always runs to its end. *)
Lemma para_cada_linha_inv (P : Laco -> Prop) (id : Z) (df : DataFrame) :
  (forall st row, In row df -> P st -> P (passo id st row)) ->
  forall st m,
    P st ->
    exists st' m',
      para_cada_linha id df st m = (Retorna st', m')
      /\ banco m' = banco m /\ P st'.
Proof.
  induction df as [|row df IH]; intros HP st m H0.
  - exists st, m. auto.
  - cbn [para_cada_linha]. unfold bind at 1.
    destruct (volta_do_laco id row st m) as (st1 & m1 & E1 & B1 & S1).
    rewrite E1.
    assert (H1 : P st1).
    { destruct S1 as [->| ->]; [exact H0|]. apply HP; [left; reflexivity|exact H0]. }
    destruct (IH (fun st row Hin => HP st row (or_intror Hin)) st1 m1 H1)
      as (st' & m' & E & B & H).
    exists st', m'. split; [exact E|]. split; [congruence|exact H].
Qed.

(** *** Runs in which no round trip fails *)

Lemma volta_sem_falhas (id : Z) (row : LinhaYF) (st : Laco) (m : Mundo) :
  falhas m = [] ->
  tenta (corpo_linha id row st)
        (fun e => registra (ErroInserirRegistro e) ;; ret st) m
  = (Retorna (passo id st row),
     mkMundo (banco m) []
             (log m ++ erros id [row] st)).
Proof.
  intro F. destruct m as [b f l]. simpl in F. subst f.
  unfold tenta, corpo_linha, executa, bind, eleva, registra, ret.
  unfold passo, presente, linha_convertida. cbn [erros].
  unfold presente, linha_convertida. simpl.
  destruct (0 <? conta_historico (tx st) id (date (yf_Date row)))%nat; simpl.
  { rewrite app_nil_r. reflexivity. }
  destruct (parametros_insert id row) as [p|e]; simpl; [|reflexivity].
  destruct (linha_inserida p) as [h|e]; simpl; [|reflexivity].
  rewrite app_nil_r. reflexivity.
Qed.

Lemma para_cada_linha_sem_falhas (id : Z) (df : DataFrame) (st : Laco) (m : Mundo) :
  falhas m = [] ->
  para_cada_linha id df st m
  = (Retorna (laco id df st),
     mkMundo (banco m) [] (log m ++ erros id df st)).
Proof.
  revert st m. induction df as [|row df IH]; intros st m F.
  - destruct m as [b f l]. simpl in *. subst f. rewrite app_nil_r. reflexivity.
  - cbn [para_cada_linha]. unfold bind at 1.
    rewrite (volta_sem_falhas id row st m F).
    rewrite IH by reflexivity. cbn [banco log laco fold_left erros].
    rewrite app_nil_r, <- app_assoc. reflexivity.
Qed.

(** [salvar_historico_precos] on a non-empty batch when no round trip
    fails: the rows are processed by [laco], the result is committed and
    the summary closes the log. *)
Lemma salvar_sem_falhas (id : Z) (ticker : string) (df : DataFrame) (m : Mundo) :
  falhas m = [] ->
  df <> [] ->
  salvar_historico_precos id ticker df m
  = (Retorna (registros_inseridos (laco id df (mkLaco (banco m) 0 0)),
              registros_duplicados (laco id df (mkLaco (banco m) 0 0))),
     mkMundo (tx (laco id df (mkLaco (banco m) 0 0))) []
             (log m ++ erros id df (mkLaco (banco m) 0 0)
                    ++ linhas_resumo ticker
                         (registros_inseridos (laco id df (mkLaco (banco m) 0 0)))
                         (registros_duplicados (laco id df (mkLaco (banco m) 0 0))))).
Proof.
  intros F Hd. unfold salvar_historico_precos.
  destruct df as [|row df]; [congruence|]. cbn [empty].
  unfold tenta, bind at 1. unfold conecta, bind at 1.
  rewrite (ida_ao_banco_sem_falhas m F).
  unfold bind at 1.
  rewrite (para_cada_linha_sem_falhas id (row :: df) (mkLaco (banco m) 0 0) m F).
  set (st := laco id (row :: df) (mkLaco (banco m) 0 0)).
  unfold bind at 1. unfold commit, bind at 1.
  rewrite ida_ao_banco_sem_falhas by reflexivity. cbn [banco falhas log].
  unfold resumo, linhas_resumo, bind, registra, ret. cbn [banco falhas log].
  destruct (0 <? registros_duplicados st)%nat; cbn [banco falhas log];
    rewrite <- ?app_assoc; reflexivity.
Qed.

Lemma salvar_vazio (id : Z) (ticker : string) (m : Mundo) :
  salvar_historico_precos id ticker [] m
  = (Retorna (0, 0)%nat,
     mkMundo (banco m) (falhas m) (log m ++ [NenhumDadoParaSalvar ticker])).
Proof. reflexivity. Qed.

(** *** The loop as a function of the rows *)

Lemma conta_historico_insere (b : Banco) (h : HistoricoPrecos) (id : Z) (d : data) :
  conta_historico (com_HistoricoPrecos b (tab_HistoricoPrecos b ++ [h])) id d
  = (conta_historico b id d
     + if (hp_IdIndice h =? id)%Z && (DataQuotacao h =? d)%Z then 1 else 0)%nat.
Proof.
  unfold conta_historico. simpl. rewrite filter_app, length_app. simpl.
  destruct ((hp_IdIndice h =? id)%Z && (DataQuotacao h =? d)%Z); reflexivity.
Qed.

Lemma passo_mantem_presente (id : Z) (st : Laco) (row r : LinhaYF) :
  presente (tx st) id r = true -> presente (tx (passo id st row)) id r = true.
Proof.
  unfold passo. intro H.
  destruct (presente (tx st) id row); [exact H|].
  destruct (linha_convertida id row); [|exact H].
  unfold presente in *. cbn [tx]. rewrite conta_historico_insere.
  apply Nat.ltb_lt in H. apply Nat.ltb_lt. lia.
Qed.

Lemma laco_mantem_presente (id : Z) (df : DataFrame) (st : Laco) (r : LinhaYF) :
  presente (tx st) id r = true -> presente (tx (laco id df st)) id r = true.
Proof.
  revert st. induction df as [|row df IH]; intros st H; [exact H|].
  apply IH, passo_mantem_presente, H.
Qed.

(** After its turn, a row is stored or it is malformed. *)
Lemma passo_processada (id : Z) (st : Laco) (row : LinhaYF) :
  presente (tx (passo id st row)) id row = true \/ malformada id row.
Proof.
  unfold passo. destruct (presente (tx st) id row) eqn:P; [left; exact P|].
  destruct (linha_convertida id row) as [h|e] eqn:L; [left | right; exists e; exact L].
  destruct (linha_convertida_campos _ _ L) as (Hi & Hd & _).
  unfold presente. cbn [tx]. rewrite conta_historico_insere, Hi, Hd, !Z.eqb_refl.
  apply Nat.ltb_lt. simpl. lia.
Qed.

Lemma laco_processadas (id : Z) (df : DataFrame) (st : Laco) (row : LinhaYF) :
  In row df ->
  presente (tx (laco id df st)) id row = true \/ malformada id row.
Proof.
  revert st. induction df as [|r df IH]; intros st Hin; [destruct Hin|].
  cbn [laco fold_left]. destruct Hin as [->|Hin].
  - destruct (passo_processada id st row) as [H|H]; [left | right; exact H].
    apply (laco_mantem_presente id df), H.
  - apply (IH _ Hin).
Qed.

(** On a store in which every row of the batch is stored or malformed,
    the loop inserts nothing and counts the stored rows as duplicates. *)
Lemma laco_estavel (id : Z) (df : DataFrame) (b : Banco) (i d : nat) :
  (forall row, In row df -> presente b id row = true \/ malformada id row) ->
  laco id df (mkLaco b i d)
  = mkLaco b i (d + List.length (filter (presente b id) df)).
Proof.
  revert d. induction df as [|row df IH]; intros d H.
  - simpl. rewrite Nat.add_0_r. reflexivity.
  - cbn [laco fold_left filter]. unfold passo at 2. cbn [tx registros_inseridos registros_duplicados].
    destruct (presente b id row) eqn:P.
    + change (fold_left (passo id) df ?s) with (laco id df s).
      rewrite IH by (intros; apply H; right; assumption).
      simpl. f_equal. lia.
    + destruct (H row (or_introl eq_refl)) as [C|[e C]]; [congruence|].
      rewrite C. apply (IH d). intros; apply H; right; assumption.
Qed.

(** Every row increments one counter or fails. *)
Lemma laco_contadores (id : Z) (df : DataFrame) (st : Laco) :
  (registros_inseridos (laco id df st) + registros_duplicados (laco id df st)
   + falhadas id df st
   = registros_inseridos st + registros_duplicados st + List.length df)%nat.
Proof.
  unfold falhadas. revert st. induction df as [|row df IH]; intro st.
  - simpl. lia.
  - cbn [laco fold_left erros]. change (fold_left (passo id) df ?s) with (laco id df s).
    rewrite length_app. specialize (IH (passo id st row)).
    assert (Hp : (registros_inseridos (passo id st row)
                  + registros_duplicados (passo id st row)
                  + List.length (if presente (tx st) id row then []
                                 else match linha_convertida id row with
                                      | Retorna _ => []
                                      | Levanta e => [ErroInserirRegistro e]
                                      end)
                  = registros_inseridos st + registros_duplicados st + 1)%nat).
    { unfold passo. destruct (presente (tx st) id row); [simpl; lia|].
      destruct (linha_convertida id row); simpl; lia. }
    simpl List.length. lia.
Qed.

Lemma erros_bem_formadas (id : Z) (df : DataFrame) (st : Laco) :
  Forall (bem_formada id) df -> erros id df st = [].
Proof.
  revert st. induction df as [|row df IH]; intros st H; [reflexivity|].
  inversion H as [|? ? [h Hh] Hr]; subst. cbn [erros].
  rewrite Hh, IH by exact Hr. destruct (presente (tx st) id row); reflexivity.
Qed.

(** The rows counted by the loop are stored at its end. *)
Lemma laco_contados (id : Z) (df : DataFrame) (st : Laco) (bf : Banco) :
  (forall r, presente (tx (laco id df st)) id r = true -> presente bf id r = true) ->
  (registros_inseridos (laco id df st) + registros_duplicados (laco id df st)
   <= registros_inseridos st + registros_duplicados st
      + List.length (filter (presente bf id) df))%nat.
Proof.
  revert st. induction df as [|row df IH]; intros st H.
  - simpl. lia.
  - cbn [laco fold_left filter] in *.
    change (fold_left (passo id) df ?s) with (laco id df s) in *.
    specialize (IH (passo id st row) H).
    destruct (presente bf id row) eqn:P.
    + assert (Hp : (registros_inseridos (passo id st row)
                    + registros_duplicados (passo id st row)
                    <= registros_inseridos st + registros_duplicados st + 1)%nat).
      { unfold passo. destruct (presente (tx st) id row); [simpl; lia|].
        destruct (linha_convertida id row); simpl; lia. }
      simpl List.length. lia.
    + assert (Hp : passo id st row = st).
      { unfold passo.
        destruct (presente (tx st) id row) eqn:P0.
        - exfalso. rewrite H in P; [discriminate|].
          apply laco_mantem_presente.
          unfold passo. rewrite P0. exact P0.
        - destruct (linha_convertida id row) as [h|e] eqn:L; [|reflexivity].
          exfalso. rewrite H in P; [discriminate|].
          apply laco_mantem_presente.
          destruct (passo_processada id st row) as [Q|[e Q]]; [exact Q|congruence]. }
      rewrite Hp in IH |- *. exact IH.
Qed.

(** *** [salvar_historico_precos] in any run *)

(** The method either commits the state reached by the loop and returns,
    or raises a connectivity error and leaves the committed store as it
    was, the error logged. *)
Lemma salvar_inv (P : Laco -> Prop) (id : Z) (ticker : string)
      (df : DataFrame) (m : Mundo) :
  (forall st row, In row df -> P st -> P (passo id st row)) ->
  P (mkLaco (banco m) 0 0) ->
  exists r m',
    salvar_historico_precos id ticker df m = (r, m')
    /\ ((exists st',
            P st' /\ banco m' = tx st'
            /\ r = Retorna (registros_inseridos st', registros_duplicados st'))
        \/ (banco m' = banco m /\ r = Levanta OperationalError
            /\ In (ErroSalvarHistorico ticker OperationalError) (log m'))).
Proof.
  intros HP H0. unfold salvar_historico_precos.
  destruct df as [|row0 df0]; cbn [empty].
  { eexists _, _. split; [reflexivity|]. left.
    exists (mkLaco (banco m) 0 0). auto. }
  set (df := row0 :: df0) in *.
  unfold tenta, bind at 1. unfold conecta, bind at 1.
  destruct (ida_ao_banco_casos m) as (r1 & m1 & E1 & [->| ->] & B1 & _); rewrite E1.
  2:{ eexists _, _. split; [reflexivity|]. right. cbn.
      split; [exact B1|]. split; [reflexivity|]. apply in_or_app. right. left. reflexivity. }
  rewrite <- B1 in H0.
  destruct (para_cada_linha_inv P id df HP (mkLaco (banco m1) 0 0) m1 H0)
    as (st' & m2 & E2 & B2 & H2).
  unfold bind at 1. rewrite E2.
  unfold bind at 1. unfold commit, bind at 1.
  destruct (ida_ao_banco_casos m2) as (r3 & m3 & E3 & [->| ->] & B3 & _); rewrite E3.
  2:{ eexists _, _. split; [reflexivity|]. right. cbn.
      split; [congruence|]. split; [reflexivity|]. apply in_or_app. right. left. reflexivity. }
  unfold resumo, bind, registra, ret. cbn [banco falhas log].
  destruct (0 <? registros_duplicados st')%nat;
    (eexists _, _; split; [reflexivity|]; left; exists st'; cbn [banco]; auto).
Qed.

(** [passo] keeps the keys unique. *)
Lemma passo_unico (id : Z) (st : Laco) (row : LinhaYF) :
  unico (tx st) -> unico (tx (passo id st row)).
Proof.
  intro U. unfold passo. destruct (presente (tx st) id row) eqn:P; [exact U|].
  destruct (linha_convertida id row) as [h|e] eqn:L; [|exact U].
  cbn [tx]. apply unico_insere; [exact U|].
  destruct (linha_convertida_campos _ _ L) as (Hi & Hd & _). rewrite Hi, Hd.
  unfold presente in P. apply Nat.ltb_ge in P. lia.
Qed.

(** [passo] on a stored date does not touch the table. *)
Lemma passo_presente (id : Z) (st : Laco) (row : LinhaYF) :
  presente (tx st) id row = true ->
  passo id st row
  = mkLaco (tx st) (registros_inseridos st) (registros_duplicados st + 1).
Proof. unfold passo. intros ->. reflexivity. Qed.

Lemma passo_acrescenta (id : Z) (df : DataFrame) (b : Banco) (st : Laco)
      (row : LinhaYF) :
  In row df -> acrescenta id df b st -> acrescenta id df b (passo id st row).
Proof.
  intros Hin [novos [E F]]. unfold passo.
  destruct (presente (tx st) id row); [exists novos; auto|].
  destruct (linha_convertida id row) as [h|e] eqn:L; [|exists novos; auto].
  exists (novos ++ [h]). cbn [tx]. rewrite E. simpl. split.
  - unfold com_HistoricoPrecos. simpl. rewrite <- app_assoc. reflexivity.
  - apply Forall_app. split; [exact F|]. constructor; [|constructor].
    exists row. auto.
Qed.

Lemma com_HistoricoPrecos_mesmo (b : Banco) :
  com_HistoricoPrecos b (tab_HistoricoPrecos b ++ []) = b.
Proof. destruct b. unfold com_HistoricoPrecos. simpl. rewrite app_nil_r. reflexivity. Qed.

(** Whatever the run, the bars that a call adds to the committed store
    are conversions of rows of its batch; the other tables are kept. *)
Lemma salvar_novos (id : Z) (ticker : string) (df : DataFrame) (m : Mundo) :
  exists novos,
    banco (snd (salvar_historico_precos id ticker df m))
    = com_HistoricoPrecos (banco m) (tab_HistoricoPrecos (banco m) ++ novos)
    /\ Forall (fun h => exists row, In row df /\ linha_convertida id row = Retorna h)
              novos.
Proof.
  destruct (salvar_inv (acrescenta id df (banco m)) id ticker df m)
    as (r & m' & E & [(st' & [novos [T F]] & B & _)|(B & _)]).
  - intros st row Hin. apply passo_acrescenta, Hin.
  - exists []. split; [symmetry; apply com_HistoricoPrecos_mesmo | constructor].
  - exists novos. rewrite E. simpl. split; [congruence|exact F].
  - exists []. rewrite E. simpl. rewrite com_HistoricoPrecos_mesmo. auto.
Qed.

Lemma salvar_unico (id : Z) (ticker : string) (df : DataFrame) (m : Mundo) :
  unico (banco m) -> unico (banco (snd (salvar_historico_precos id ticker df m))).
Proof.
  intro U.
  destruct (salvar_inv (fun st => unico (tx st)) id ticker df m)
    as (r & m' & E & [(st' & U' & B & _)|(B & _)]).
  - intros st row _. apply passo_unico.
  - exact U.
  - rewrite E. simpl. rewrite B. exact U'.
  - rewrite E. simpl. rewrite B. exact U.
Qed.

(** *** Idempotence of the ingestion *)

Lemma filter_todos {A} (f : A -> bool) (l : list A) :
  (forall x, In x l -> f x = true) -> filter f l = l.
Proof.
  induction l as [|a l IH]; intro H; simpl; [reflexivity|].
  rewrite (H a (or_introl eq_refl)). f_equal. apply IH. intros; apply H; right; assumption.
Qed.

Lemma bem_formada_nao_malformada (id : Z) (row : LinhaYF) :
  bem_formada id row -> malformada id row -> False.
Proof. intros [h H] [e E]. congruence. Qed.

(** *** Rows with a date of their own *)

(** The turn of a row does not change whether another date is stored. *)
Lemma passo_presente_outra (id : Z) (st : Laco) (row r : LinhaYF) :
  date (yf_Date row) <> date (yf_Date r) ->
  presente (tx (passo id st row)) id r = presente (tx st) id r.
Proof.
  intro D. unfold passo.
  destruct (presente (tx st) id row); [reflexivity|].
  destruct (linha_convertida id row) as [h|e] eqn:L; [|reflexivity].
  destruct (linha_convertida_campos _ _ L) as (Hi & Hd & _).
  unfold presente. cbn [tx]. rewrite conta_historico_insere, Hi, Hd.
  replace (date (yf_Date row) =? date (yf_Date r))%Z with false
    by (symmetry; apply Z.eqb_neq, D).
  rewrite andb_false_r, Nat.add_0_r. reflexivity.
Qed.

Lemma laco_presente_outra (id : Z) (df : DataFrame) (st : Laco) (r : LinhaYF) :
  (forall row, In row df -> date (yf_Date row) <> date (yf_Date r)) ->
  presente (tx (laco id df st)) id r = presente (tx st) id r.
Proof.
  revert st. induction df as [|row df IH]; intros st H; [reflexivity|].
  cbn [laco fold_left]. change (fold_left (passo id) df ?s) with (laco id df s).
  rewrite IH by (intros; apply H; right; assumption).
  apply passo_presente_outra, H. left. reflexivity.
Qed.

(** The loop only appends. *)
Lemma passo_mantem_barras (id : Z) (st : Laco) (row : LinhaYF) (h : HistoricoPrecos) :
  In h (tab_HistoricoPrecos (tx st)) ->
  In h (tab_HistoricoPrecos (tx (passo id st row))).
Proof.
  intro H. unfold passo. destruct (presente (tx st) id row); [exact H|].
  destruct (linha_convertida id row); [|exact H].
  cbn. apply in_or_app. left. exact H.
Qed.

Lemma laco_mantem_barras (id : Z) (df : DataFrame) (st : Laco) (h : HistoricoPrecos) :
  In h (tab_HistoricoPrecos (tx st)) ->
  In h (tab_HistoricoPrecos (tx (laco id df st))).
Proof.
  revert st. induction df as [|row df IH]; intros st H; [exact H|].
  apply IH, passo_mantem_barras, H.
Qed.

(** A well-formed row whose date is neither stored nor carried by an
    earlier row of the batch is stored as its conversion. *)
Lemma laco_insere (id : Z) (pre post : DataFrame) (r : LinhaYF)
      (h : HistoricoPrecos) (st : Laco) :
  (forall row, In row pre -> date (yf_Date row) <> date (yf_Date r)) ->
  presente (tx st) id r = false ->
  linha_convertida id r = Retorna h ->
  In h (tab_HistoricoPrecos (tx (laco id (pre ++ r :: post) st))).
Proof.
  intros D P L. unfold laco. rewrite fold_left_app. cbn [fold_left].
  change (fold_left (passo id) ?l ?s) with (laco id l s).
  apply laco_mantem_barras.
  pose proof (laco_presente_outra id pre st r D) as Q. rewrite P in Q.
  change (fold_left (passo id) pre st) with (laco id pre st).
  unfold passo. rewrite Q, L.
  cbn. apply in_or_app. right. left. reflexivity.
Qed.

(** On a batch of distinct dates, none of them stored, no row is counted
    as duplicate, and the rows stored at the end are the inserted ones. *)
Lemma laco_distintas (id : Z) (df : DataFrame) (st : Laco) :
  NoDup (map (fun row => date (yf_Date row)) df) ->
  (forall row, In row df -> presente (tx st) id row = false) ->
  registros_duplicados (laco id df st) = registros_duplicados st
  /\ (List.length (filter (presente (tx (laco id df st)) id) df)
      + registros_inseridos st
      = registros_inseridos (laco id df st))%nat.
Proof.
  revert st. induction df as [|row df IH]; intros st N H.
  - simpl. auto.
  - cbn [map] in N. apply NoDup_cons_iff in N. destruct N as [Nin N].
    assert (D : forall r, In r df -> date (yf_Date r) <> date (yf_Date row)).
    { intros r Hr E. apply Nin. rewrite <- E.
      apply (in_map (fun row => date (yf_Date row))), Hr. }
    cbn [laco fold_left filter].
    change (fold_left (passo id) df ?s) with (laco id df s).
    assert (H1 : forall r, In r df -> presente (tx (passo id st row)) id r = false).
    { intros r Hr. rewrite passo_presente_outra.
      - apply H. right. exact Hr.
      - intro E. apply (D r Hr). symmetry. exact E. }
    destruct (IH (passo id st row) N H1) as [Hd Hc].
    pose proof (H row (or_introl eq_refl)) as P.
    destruct (linha_convertida id row) as [h|e] eqn:L.
    + assert (Pr : presente (tx (passo id st row)) id row = true).
      { destruct (passo_processada id st row) as [Pr|[e M]]; [exact Pr|congruence]. }
      rewrite (laco_mantem_presente id df _ row Pr). cbn [List.length].
      assert (E : passo id st row
                  = mkLaco (com_HistoricoPrecos (tx st)
                              (tab_HistoricoPrecos (tx st) ++ [h]))
                           (registros_inseridos st + 1) (registros_duplicados st)).
      { unfold passo. rewrite P, L. reflexivity. }
      rewrite E in *. cbn [registros_inseridos registros_duplicados] in Hd, Hc.
      split; [exact Hd|]. lia.
    + assert (E : passo id st row = st).
      { unfold passo. rewrite P, L. reflexivity. }
      rewrite E in *.
      rewrite (laco_presente_outra id df st row D), P.
      split; [exact Hd|exact Hc].
Qed.

(** When no round trip fails, a well-formed row whose date is neither
    stored nor carried by an earlier row of the batch is in the store
    after the call, as its conversion. *)
Lemma salvar_insere (id : Z) (ticker : string) (pre post : DataFrame)
      (r : LinhaYF) (h : HistoricoPrecos) (m : Mundo) :
  falhas m = [] ->
  (forall row, In row pre -> date (yf_Date row) <> date (yf_Date r)) ->
  presente (banco m) id r = false ->
  linha_convertida id r = Retorna h ->
  In h (tab_HistoricoPrecos
          (banco (snd (salvar_historico_precos id ticker (pre ++ r :: post) m)))).
Proof.
  intros F D P L.
  rewrite salvar_sem_falhas by (exact F || (destruct pre; discriminate)).
  cbn [snd banco]. apply laco_insere; assumption.
Qed.

(** The close and the adjusted close of the bar stored for a row are
    both the close of the row: null when it is missing, and otherwise
    its value, which is finite. *)
Lemma linha_convertida_fechamento (id : Z) (row : LinhaYF) (h : HistoricoPrecos) :
  linha_convertida id row = Retorna h ->
  (notna (yf_Close row) = false
   /\ Fechamento h = None /\ FechamentoAjustado h = None)
  \/ (notna (yf_Close row) = true
      /\ exists q, py_float (yf_Close row) = Retorna (Fin q)
                   /\ Fechamento h = Some q /\ FechamentoAjustado h = Some q).
Proof.
  unfold linha_convertida, parametros_insert, liga. intro H.
  destruct (float_ou_None (yf_Open row)) as [a|]; [|discriminate].
  destruct (float_ou_None (yf_High row)) as [a0|]; [|discriminate].
  destruct (float_ou_None (yf_Low row)) as [a1|]; [|discriminate].
  destruct (float_ou_None (yf_Close row)) as [c|] eqn:C; [|discriminate].
  destruct (int_ou_zero (yf_Volume row)) as [v|]; [|discriminate].
  unfold linha_inserida, liga in H.
  cbn [p_abertura p_alta p_baixa p_fechamento p_fechamento_ajustado p_volume] in H.
  destruct (param_numeric a); try discriminate.
  destruct (param_numeric a0); try discriminate.
  destruct (param_numeric a1); try discriminate.
  destruct (param_numeric c) as [fc|] eqn:Pc; try discriminate.
  destruct (param_bigint v); try discriminate.
  injection H as <-. cbn [Fechamento FechamentoAjustado].
  unfold float_ou_None in C. destruct (notna (yf_Close row)).
  - right. split; [reflexivity|]. unfold liga in C.
    destruct (py_float (yf_Close row)) as [x|]; [|discriminate].
    injection C as <-. destruct x; cbn in Pc; try discriminate.
    injection Pc as <-. eauto.
  - left. injection C as <-. cbn in Pc. injection Pc as <-. auto.
Qed.

(** C3 (amended).  When no round trip to the store fails, a second run
    of [salvar_historico_precos] on the state left by a first run with
    the same input inserts nothing and leaves the store unchanged; its
    duplicate count is at least the inserted count plus the duplicate
    count of the first run, and equal to that sum when no row is
    malformed.  It is the inserted count of the first run when no date of
    the batch is stored before the first run or repeated in the batch,
    whether rows are malformed or not: the first run then meets no
    duplicate. *)
Theorem salvar_historico_precos_duas_vezes
        (id : Z) (ticker : string) (df : DataFrame) (m : Mundo) :
  falhas m = [] ->
  exists i1 d1 m1 d2 m2,
    salvar_historico_precos id ticker df m = (Retorna (i1, d1), m1)
    /\ salvar_historico_precos id ticker df m1 = (Retorna (0%nat, d2), m2)
    /\ banco m2 = banco m1
    /\ (i1 + d1 <= d2)%nat
    /\ (Forall (bem_formada id) df -> d2 = (i1 + d1)%nat)
    /\ (Forall (bem_formada id) df -> d1 = 0%nat -> d2 = i1)
    /\ (NoDup (map (fun row => date (yf_Date row)) df) ->
        (forall row, In row df -> presente (banco m) id row = false) ->
        d1 = 0%nat /\ d2 = i1).
Proof.
  intro F. destruct df as [|row0 df0].
  { rewrite salvar_vazio. eexists _, _, _, _, _. split; [reflexivity|].
    rewrite salvar_vazio. split; [reflexivity|]. simpl. auto 10. }
  set (df := row0 :: df0).
  assert (Hd : df <> []) by discriminate.
  rewrite (salvar_sem_falhas id ticker m F Hd).
  set (st1 := laco id df (mkLaco (banco m) 0 0)).
  eexists _, _, _, _, _. split; [reflexivity|].
  rewrite salvar_sem_falhas by (reflexivity || exact Hd). cbn [banco].
  assert (E : laco id df (mkLaco (tx st1) 0 0)
              = mkLaco (tx st1) 0
                       (0 + List.length (filter (presente (tx st1) id) df))).
  { apply laco_estavel. intros row Hin. apply laco_processadas, Hin. }
  rewrite E. cbn [tx registros_inseridos registros_duplicados].
  split; [reflexivity|]. split; [reflexivity|].
  pose proof (laco_contados id df (mkLaco (banco m) 0 0) (tx st1) (fun r H => H)) as L.
  cbn [registros_inseridos registros_duplicados] in L. fold st1 in L.
  assert (Q : Forall (bem_formada id) df ->
              (0 + List.length (filter (presente (tx st1) id) df)
               = registros_inseridos st1 + registros_duplicados st1)%nat).
  { intro W.
    rewrite filter_todos.
    - pose proof (laco_contadores id df (mkLaco (banco m) 0 0)) as C.
      unfold falhadas in C. rewrite (erros_bem_formadas _ W) in C.
      cbn [registros_inseridos registros_duplicados List.length] in C.
      fold st1 in C. lia.
    - intros row Hin.
      destruct (laco_processadas id df (mkLaco (banco m) 0 0) row Hin) as [H|H];
        [exact H|].
      exfalso. rewrite Forall_forall in W.
      exact (bem_formada_nao_malformada (W row Hin) H). }
  split; [lia|]. split; [exact Q|].
  split; [intros W Z0; rewrite (Q W), Z0; lia|].
  intros N P.
  destruct (laco_distintas id df (mkLaco (banco m) 0 0) N P) as [Hz Hc].
  fold st1 in Hz, Hc. cbn [registros_inseridos registros_duplicados] in Hz, Hc.
  split; [exact Hz|]. lia.
Qed.

Lemma erros_app (id : Z) (a b : DataFrame) (st : Laco) :
  erros id (a ++ b) st = erros id a st ++ erros id b (laco id a st).
Proof.
  revert st. induction a as [|row a IH]; intro st; [reflexivity|].
  cbn [app erros laco fold_left]. rewrite IH, <- app_assoc. reflexivity.
Qed.

Lemma laco_app (id : Z) (a b : DataFrame) (st : Laco) :
  laco id (a ++ b) st = laco id b (laco id a st).
Proof. apply fold_left_app. Qed.

(** C5 (amended).  When no round trip to the store fails, a malformed
    row whose date is not stored when its turn comes is skipped and the
    rest of the batch is processed: the call returns, with the counters
    and the store that the batch without the row would give.  The row is
    counted neither as inserted nor as duplicate; it leaves one error
    line in the log, before the summary, which reports the inserted and
    duplicate counters only. *)
Theorem linha_malformada_ignorada
        (id : Z) (ticker : string) (pre : DataFrame) (bad : LinhaYF)
        (post : DataFrame) (m : Mundo) (e : Excecao) :
  falhas m = [] ->
  linha_convertida id bad = Levanta e ->
  presente (tx (laco id pre (mkLaco (banco m) 0 0))) id bad = false ->
  exists c m1 m2 linhas_erro,
    salvar_historico_precos id ticker (pre ++ bad :: post) m = (Retorna c, m1)
    /\ salvar_historico_precos id ticker (pre ++ post) m = (Retorna c, m2)
    /\ banco m1 = banco m2
    /\ log m1 = log m ++ linhas_erro ++ linhas_resumo ticker (fst c) (snd c)
    /\ In (ErroInserirRegistro e) linhas_erro
    /\ List.length linhas_erro
       = S (falhadas id (pre ++ post) (mkLaco (banco m) 0 0)).
Proof.
  intros F L P.
  set (st0 := mkLaco (banco m) 0 0) in *.
  assert (Hb : passo id (laco id pre st0) bad = laco id pre st0).
  { unfold passo. rewrite P, L. reflexivity. }
  assert (El : laco id (pre ++ bad :: post) st0 = laco id (pre ++ post) st0).
  { rewrite !laco_app. cbn [laco fold_left]. rewrite Hb. reflexivity. }
  assert (Ee : erros id (pre ++ bad :: post) st0
               = erros id pre st0 ++ [ErroInserirRegistro e]
                       ++ erros id post (laco id pre st0)).
  { rewrite erros_app. cbn [erros]. rewrite P, L, Hb. reflexivity. }
  assert (Hd : pre ++ bad :: post <> []) by (destruct pre; discriminate).
  assert (Hin : In (ErroInserirRegistro e) (erros id (pre ++ bad :: post) st0)).
  { rewrite Ee. apply in_or_app. right. left. reflexivity. }
  assert (Hlen : List.length (erros id (pre ++ bad :: post) st0)
                 = S (falhadas id (pre ++ post) st0)).
  { unfold falhadas. rewrite Ee, erros_app, !length_app. simpl. lia. }
  rewrite (salvar_sem_falhas id ticker m F Hd). fold st0. rewrite El.
  clear El Ee Hb.
  destruct (pre ++ post) as [|r0 l0] eqn:Epp.
  - rewrite salvar_vazio.
    eexists _, _, _, (erros id (pre ++ bad :: post) st0).
    repeat split; try reflexivity; assumption.
  - rewrite salvar_sem_falhas by (exact F || discriminate). fold st0.
    eexists _, _, _, (erros id (pre ++ bad :: post) st0).
    repeat split; try reflexivity; assumption.
Qed.

(** C3, instance: a batch of a malformed row and a bar, on a store
    without bars, in a world whose round trips all succeed. *)
Lemma salvar_historico_precos_duas_vezes_exemplo :
  falhas (Exemplos.mundo (Exemplos.banco_AAA [])) = []
  /\ exists i1 d1 m1 d2 m2,
       salvar_historico_precos 1 "AAA"
         [Exemplos.linha_malformada 901; Exemplos.linha_yf 900 100 (CInt 7)]
         (Exemplos.mundo (Exemplos.banco_AAA []))
       = (Retorna (i1, d1), m1)
       /\ salvar_historico_precos 1 "AAA"
            [Exemplos.linha_malformada 901; Exemplos.linha_yf 900 100 (CInt 7)]
            m1
          = (Retorna (0%nat, d2), m2)
       /\ banco m2 = banco m1
       /\ (i1 + d1 <= d2)%nat
       /\ (Forall (bem_formada 1)
                  [Exemplos.linha_malformada 901;
                   Exemplos.linha_yf 900 100 (CInt 7)] ->
           d2 = (i1 + d1)%nat)
       /\ (Forall (bem_formada 1)
                  [Exemplos.linha_malformada 901;
                   Exemplos.linha_yf 900 100 (CInt 7)] ->
           d1 = 0%nat -> d2 = i1)
       /\ (NoDup (map (fun row => date (yf_Date row))
                      [Exemplos.linha_malformada 901;
                       Exemplos.linha_yf 900 100 (CInt 7)]) ->
           (forall row,
               In row [Exemplos.linha_malformada 901;
                       Exemplos.linha_yf 900 100 (CInt 7)] ->
               presente (banco (Exemplos.mundo (Exemplos.banco_AAA []))) 1 row
               = false) ->
           d1 = 0%nat /\ d2 = i1).
Proof.
  split; [reflexivity|].
  exact (salvar_historico_precos_duas_vezes 1 "AAA"
           [Exemplos.linha_malformada 901; Exemplos.linha_yf 900 100 (CInt 7)]
           (Exemplos.mundo (Exemplos.banco_AAA [])) eq_refl).
Defined.

(** The same batch, run: the malformed row of day 901 is skipped by both
    runs and the bar of day 900 is inserted by the first run and met by
    the second; the counts are (1, 0) and then (0, 1). *)
Example salvar_historico_precos_malformada_e_nova :
  let df := [Exemplos.linha_malformada 901; Exemplos.linha_yf 900 100 (CInt 7)] in
  let m := Exemplos.mundo (Exemplos.banco_AAA []) in
  NoDup (map (fun row => date (yf_Date row)) df)
  /\ (forall row, In row df -> presente (banco m) 1 row = false)
  /\ ~ Forall (bem_formada 1) df
  /\ exists m1 m2,
       salvar_historico_precos 1 "AAA" df m = (Retorna (1%nat, 0%nat), m1)
       /\ salvar_historico_precos 1 "AAA" df m1 = (Retorna (0%nat, 1%nat), m2)
       /\ banco m2 = banco m1.
Proof.
  cbv zeta. split.
  { repeat constructor; simpl; intuition discriminate. }
  split.
  { intros row [<-|[<-|[]]]; reflexivity. }
  split.
  { intro F. inversion F as [|? ? B _]; subst.
    unfold bem_formada in B. vm_compute in B. 
    repeat match type of B with
           | _ /\ _ => destruct B as [? B]
           | exists _, _ => destruct B as [? B]
           end; try discriminate; try contradiction. }
  eexists _, _. split; [vm_compute; reflexivity|].
  split; vm_compute; reflexivity.
Qed.

(** C3, counterexample.  The bar of day 900 is already stored.  A first
    run on the batch holding that day inserts 0 rows and counts 1
    duplicate; the second run counts 1 duplicate, which is not the
    inserted count of the first run. *)
Lemma salvar_historico_precos_duplicados_anteriores :
  exists i1 d1 m1 i2 d2 m2,
    salvar_historico_precos 1 "AAA" [Exemplos.linha_yf 900 100 (CInt 7)]
                            (Exemplos.mundo Exemplos.banco_uma_barra)
    = (Retorna (i1, d1), m1)
    /\ salvar_historico_precos 1 "AAA" [Exemplos.linha_yf 900 100 (CInt 7)] m1
       = (Retorna (i2, d2), m2)
    /\ i1 = 0%nat /\ d2 = 1%nat /\ d2 <> i1.
Proof.
  eexists _, _, _, _, _, _.
  split; [vm_compute; reflexivity|].
  split; [vm_compute; reflexivity|].
  repeat split. discriminate.
Qed.

(** C5, instance: a batch of three rows whose second row has text for
    its opening price, on a store without bars. *)
Lemma linha_malformada_ignorada_exemplo :
  falhas (Exemplos.mundo (Exemplos.banco_AAA [])) = []
  /\ linha_convertida 1 (Exemplos.linha_malformada 901) = Levanta ValueError
  /\ presente (tx (laco 1 [Exemplos.linha_yf 900 100 (CInt 7)]
                        (mkLaco (banco (Exemplos.mundo (Exemplos.banco_AAA []))) 0 0)))
              1 (Exemplos.linha_malformada 901) = false
  /\ exists c m1 m2 linhas_erro,
       salvar_historico_precos 1 "AAA"
         ([Exemplos.linha_yf 900 100 (CInt 7)]
            ++ Exemplos.linha_malformada 901 :: [Exemplos.linha_yf 902 101 (CInt 9)])
         (Exemplos.mundo (Exemplos.banco_AAA []))
       = (Retorna c, m1)
       /\ salvar_historico_precos 1 "AAA"
            ([Exemplos.linha_yf 900 100 (CInt 7)] ++ [Exemplos.linha_yf 902 101 (CInt 9)])
            (Exemplos.mundo (Exemplos.banco_AAA []))
          = (Retorna c, m2)
       /\ banco m1 = banco m2
       /\ log m1 = log (Exemplos.mundo (Exemplos.banco_AAA []))
                       ++ linhas_erro ++ linhas_resumo "AAA" (fst c) (snd c)
       /\ In (ErroInserirRegistro ValueError) linhas_erro
       /\ List.length linhas_erro
          = S (falhadas 1 ([Exemplos.linha_yf 900 100 (CInt 7)]
                             ++ [Exemplos.linha_yf 902 101 (CInt 9)])
                        (mkLaco (banco (Exemplos.mundo (Exemplos.banco_AAA []))) 0 0)).
Proof.
  split; [reflexivity|]. split; [reflexivity|]. split; [reflexivity|].
  exact (linha_malformada_ignorada 1 "AAA" [Exemplos.linha_yf 900 100 (CInt 7)]
           (Exemplos.linha_malformada 901) [Exemplos.linha_yf 902 101 (CInt 9)]
           (Exemplos.mundo (Exemplos.banco_AAA [])) (e := ValueError)
           eq_refl eq_refl eq_refl).
Defined.

(** C5, counterexample.  A batch of one good row and the same batch
    followed by a malformed row return the same counters and close with
    the same summary lines, although no row fails in the first and one
    fails in the second: the summary carries no count of failed rows. *)
Lemma resumo_sem_contagem_de_falhas :
  exists c m1 m2,
    salvar_historico_precos 1 "AAA" [Exemplos.linha_yf 900 100 (CInt 7)]
                            (Exemplos.mundo (Exemplos.banco_AAA []))
    = (Retorna c, m1)
    /\ salvar_historico_precos 1 "AAA"
         [Exemplos.linha_yf 900 100 (CInt 7); Exemplos.linha_malformada 901]
         (Exemplos.mundo (Exemplos.banco_AAA []))
       = (Retorna c, m2)
    /\ falhadas 1 [Exemplos.linha_yf 900 100 (CInt 7)]
                (mkLaco (Exemplos.banco_AAA []) 0 0) = 0%nat
    /\ falhadas 1 [Exemplos.linha_yf 900 100 (CInt 7); Exemplos.linha_malformada 901]
                (mkLaco (Exemplos.banco_AAA []) 0 0) = 1%nat
    /\ log m1 = linhas_resumo "AAA" 1 0
    /\ log m2 = ErroInserirRegistro ValueError :: linhas_resumo "AAA" 1 0.
Proof.
  eexists _, _, _.
  split; [vm_compute; reflexivity|].
  split; [vm_compute; reflexivity|].
  repeat split.
Qed.

(** *** Failures of the store *)

Lemma coletar_indice_completo_retorna
      (history : string -> string -> Resultado DataFrame)
      (ticker descricao pais periodo : string) (m : Mundo) :
  exists m',
    coletar_indice_completo history ticker descricao pais periodo m
    = (Retorna tt, m').
Proof.
  unfold coletar_indice_completo, tenta.
  match goal with
  | |- context [match ?c m with _ => _ end] => destruct (c m) as [[[]|e] m1]
  end.
  - eexists. reflexivity.
  - eexists. reflexivity.
Qed.

(** C6 (amended).  A connectivity failure met by
    [salvar_historico_precos] when it opens its connection, or when it
    commits after the loop, is logged and raised to its caller with
    nothing of the batch committed; whenever the method raises, the
    exception is a connectivity error, it is logged and nothing of the
    batch is committed.  The failure of the round trip of a single row
    does not leave the loop, which always runs to its end.  The
    full-collection entry point [coletar_indice_completo] returns
    normally in every run: it catches what the saving of the bars
    raises. *)
Theorem falha_do_banco_ao_salvar :
  (forall id ticker df m f,
      df <> [] -> falhas m = true :: f ->
      exists m',
        salvar_historico_precos id ticker df m = (Levanta OperationalError, m')
        /\ banco m' = banco m
        /\ In (ErroSalvarHistorico ticker OperationalError) (log m'))
  /\ (forall id ticker df m m1 st m2 f,
         df <> [] ->
         conecta m = (Retorna (banco m), m1) ->
         para_cada_linha id df (mkLaco (banco m) 0 0) m1 = (Retorna st, m2) ->
         falhas m2 = true :: f ->
         exists m',
           salvar_historico_precos id ticker df m = (Levanta OperationalError, m')
           /\ banco m' = banco m
           /\ In (ErroSalvarHistorico ticker OperationalError) (log m'))
  /\ (forall id ticker df m e m',
         salvar_historico_precos id ticker df m = (Levanta e, m') ->
         e = OperationalError /\ banco m' = banco m
         /\ In (ErroSalvarHistorico ticker e) (log m'))
  /\ (forall id df st m,
         exists st' m',
           para_cada_linha id df st m = (Retorna st', m') /\ banco m' = banco m)
  /\ (forall history ticker descricao pais periodo m,
         exists m',
           coletar_indice_completo history ticker descricao pais periodo m
           = (Retorna tt, m')).
Proof.
  assert (K : forall id ticker df m e m',
             salvar_historico_precos id ticker df m = (Levanta e, m') ->
             e = OperationalError /\ banco m' = banco m
             /\ In (ErroSalvarHistorico ticker e) (log m')).
  { intros id ticker df m e m' H.
    destruct (salvar_inv (fun _ => True) id ticker df m (fun _ _ _ _ => I) I)
      as (r & m1 & E & C).
    rewrite E in H. injection H as Hr Hm. subst r m1.
    destruct C as [(st' & _ & _ & R)|(B & R & L)]; [discriminate|].
    injection R as ->. auto. }
  split.
  { intros id ticker df m f Hd F.
    assert (E : exists m', salvar_historico_precos id ticker df m
                           = (Levanta OperationalError, m')).
    { unfold salvar_historico_precos.
      destruct df; [congruence|]. cbn [empty].
      unfold tenta, bind at 1. unfold conecta, bind at 1.
      rewrite (ida_ao_banco_falha m F). eexists. reflexivity. }
    destruct E as [m' E]. exists m'. split; [exact E|].
    destruct (K _ _ _ _ _ _ E) as (_ & B & L). auto. }
  split.
  { intros id ticker df m m1 st m2 f Hd C L F.
    assert (E : exists m', salvar_historico_precos id ticker df m
                           = (Levanta OperationalError, m')).
    { unfold salvar_historico_precos.
      destruct df; [congruence|]. cbn [empty].
      eexists. erewrite tenta_Levanta; [reflexivity|].
      rewrite (bind_Retorna _ _ C). rewrite (bind_Retorna _ _ L).
      apply bind_Levanta. unfold commit. apply bind_Levanta.
      apply (ida_ao_banco_falha m2 F). }
    destruct E as [m' E]. exists m'. split; [exact E|].
    destruct (K _ _ _ _ _ _ E) as (_ & B & Lg). auto. }
  split; [exact K|].
  split.
  { intros id df st m.
    destruct (para_cada_linha_inv (fun _ => True) id df (fun _ _ _ _ => I) st m I)
      as (st' & m' & E & B & _).
    exists st', m'. auto. }
  intros. apply coletar_indice_completo_retorna.
Qed.

(** C6, instance: the batch holds one bar; the connection, the check and
    the insert succeed and the commit fails. *)
Lemma falha_do_banco_ao_salvar_exemplo :
  exists m',
    salvar_historico_precos 1 "AAA" [Exemplos.linha_yf 900 100 (CInt 7)]
                            (mkMundo (Exemplos.banco_AAA [])
                                     [false; false; false; true] [])
    = (Levanta OperationalError, m')
    /\ banco m' = Exemplos.banco_AAA []
    /\ In (ErroSalvarHistorico "AAA" OperationalError) (log m').
Proof.
  exact (proj1 (proj2 falha_do_banco_ao_salvar)
           1%Z "AAA"%string [Exemplos.linha_yf 900 100 (CInt 7)]
           (mkMundo (Exemplos.banco_AAA []) [false; false; false; true] [])
           (mkMundo (Exemplos.banco_AAA []) [false; false; true] [])
           _
           (mkMundo (Exemplos.banco_AAA []) [true] [])
           []
           ltac:(discriminate) eq_refl eq_refl eq_refl).
Defined.

(** C6, counterexample.  The instrument exists and the provider answers
    with one bar; the third round trip, which opens the connection of
    [salvar_historico_precos], fails.  The saving raises, and
    [coletar_indice_completo] returns normally with the two errors in
    its log and no bar stored. *)
Lemma coletar_indice_completo_engole_erro :
  exists m1 m2,
    salvar_historico_precos 1 "AAA" [Exemplos.linha_yf 900 100 (CInt 7)]
                            (mkMundo (Exemplos.banco_AAA []) [true] [])
    = (Levanta OperationalError, m1)
    /\ coletar_indice_completo Exemplos.history_uma_barra
                               "AAA" "Indice AAA" "Brasil" "2y"
                               (mkMundo (Exemplos.banco_AAA []) [false; false; true] [])
       = (Retorna tt, m2)
    /\ log m2 = [IniciandoColeta "AAA" "Indice AAA";
                 IndiceJaExiste "AAA" 1;
                 BaixandoDados "AAA" "2y";
                 RegistrosBaixados 1 "AAA";
                 ErroSalvarHistorico "AAA" OperationalError;
                 ErroNaColeta "AAA" OperationalError]
    /\ tab_HistoricoPrecos (banco m2) = [].
Proof.
  eexists _, _.
  split; [vm_compute; reflexivity|].
  split; [vm_compute; reflexivity|].
  split; reflexivity.
Qed.

(** *** Instruments *)

(** C9.  When no round trip to the store fails, [adicionar_indice] on a
    ticker that the table holds returns the id of a record with that
    ticker and leaves the store as it is, whatever the description and
    the country passed; on a ticker that the table does not hold it
    appends a record with the ticker, the description and the country,
    and returns its id, the next value of the identity column. *)
Theorem adicionar_indice_primeiro_vence
        (ticker descricao pais : string) (m : Mundo) :
  falhas m = [] ->
  ((exists i, In i (tab_Indices (banco m)) /\ Ticker i = ticker) ->
   exists i m',
     In i (tab_Indices (banco m)) /\ Ticker i = ticker
     /\ adicionar_indice ticker descricao pais m = (Retorna (IdIndice i), m')
     /\ banco m' = banco m)
  /\ ((forall i, In i (tab_Indices (banco m)) -> Ticker i <> ticker) ->
      exists m',
        adicionar_indice ticker descricao pais m
        = (Retorna (prox_IdIndice (banco m)), m')
        /\ tab_Indices (banco m')
           = tab_Indices (banco m)
               ++ [mkIndices (prox_IdIndice (banco m)) ticker descricao pais true]
        /\ tab_HistoricoPrecos (banco m') = tab_HistoricoPrecos (banco m)
        /\ tab_SegmentosInvestimento (banco m') = tab_SegmentosInvestimento (banco m)
        /\ tab_IndicesSegmentos (banco m') = tab_IndicesSegmentos (banco m)).
Proof.
  intro F. destruct m as [b f l]. simpl in F. subst f. cbn [banco].
  unfold adicionar_indice, tenta, conecta, executa, bind, ida_ao_banco.
  cbn [falhas banco].
  destruct (find (fun i => String.eqb (Ticker i) ticker) (tab_Indices b))
    as [i0|] eqn:E.
  - split.
    + intros _. apply find_some in E. destruct E as [Hin He].
      apply String.eqb_eq in He.
      exists i0. eexists. split; [exact Hin|]. split; [exact He|].
      split; reflexivity.
    + intro H. apply find_some in E. destruct E as [Hin He].
      apply String.eqb_eq in He. exfalso. exact (H i0 Hin He).
  - split.
    + intros [i [Hin He]]. exfalso.
      pose proof (find_none _ _ E i Hin) as N. simpl in N.
      apply String.eqb_neq in N. congruence.
    + intros _. eexists. split; [reflexivity|]. cbn. auto.
Qed.

(** C9, instance: the ticker AAA is stored and the round trips all
    succeed; another description and another country are passed. *)
Lemma adicionar_indice_primeiro_vence_exemplo :
  falhas (Exemplos.mundo (Exemplos.banco_AAA [])) = []
  /\ exists i m',
       In i (tab_Indices (banco (Exemplos.mundo (Exemplos.banco_AAA []))))
       /\ Ticker i = "AAA"%string
       /\ adicionar_indice "AAA" "Outra descricao" "Outro pais"
                           (Exemplos.mundo (Exemplos.banco_AAA []))
          = (Retorna (IdIndice i), m')
       /\ banco m' = banco (Exemplos.mundo (Exemplos.banco_AAA [])).
Proof.
  split; [reflexivity|].
  apply (adicionar_indice_primeiro_vence "AAA" "Outra descricao" "Outro pais"
           (Exemplos.mundo (Exemplos.banco_AAA [])) eq_refl).
  eexists. split; [left; reflexivity | reflexivity].
Defined.

End CollectorFacts.

(* ================================================================= *)
(** * Loader *)

Module LoaderFacts.
Import Loader StoreFacts.

Ltac fecha_carga :=
  eexists _, _; split; [reflexivity|]; cbn [banco];
  split; [congruence | auto].

(** One turn of the loop of [insere_historico_precos] never raises,
    leaves the committed store alone and keeps the keys unique. *)
Lemma volta_da_carga (mapa : list (string * Z)) (row : LinhaCarga)
      (st : Laco) (m : Mundo) :
  exists st' m',
    tenta (corpo_linha mapa row st)
          (fun e => registra (ErroInserirPreco e) ;; ret st) m
    = (Retorna st', m')
    /\ banco m' = banco m
    /\ (unico (tx st) -> unico (tx st')).
Proof.
  unfold tenta, corpo_linha, executa, bind, eleva, registra, ret.
  destruct (dict_get (ld_Ticker row) mapa) as [id|]; [|fecha_carga].
  destruct (id =? 0)%Z; [fecha_carga|].
  destruct (py_int (ld_Volume row)) as [volume|e]; [|fecha_carga].
  destruct (ida_ao_banco_casos m) as (r1 & m1 & E1 & [->| ->] & B1 & _);
    rewrite E1; [|fecha_carga].
  match goal with
  | |- context [linha_inserida ?p] =>
      destruct (linha_inserida p) as [h|e] eqn:L; [|fecha_carga]
  end.
  destruct (linha_inserida_chave _ L) as [K1 K2]. cbn in K1, K2.
  destruct (0 <? conta_historico (tx st) id (date (ld_DataQuotacao row)))%nat eqn:C;
    [fecha_carga|].
  eexists _, _. split; [reflexivity|]. cbn [banco tx]. split; [congruence|].
  intro U. apply unico_insere; [exact U|].
  rewrite K1, K2. apply Nat.ltb_ge in C. lia.
Qed.

Lemma para_cada_linha_unico (mapa : list (string * Z)) (df : list LinhaCarga)
      (st : Laco) (m : Mundo) :
  unico (tx st) ->
  exists st' m',
    para_cada_linha mapa df st m = (Retorna st', m')
    /\ banco m' = banco m /\ unico (tx st').
Proof.
  revert st m. induction df as [|row df IH]; intros st m U.
  - exists st, m. auto.
  - cbn [para_cada_linha]. unfold bind at 1.
    destruct (volta_da_carga mapa row st m) as (st1 & m1 & E1 & B1 & U1).
    rewrite E1.
    destruct (IH st1 m1 (U1 U)) as (st' & m' & E & B & U').
    exists st', m'. split; [exact E|]. split; [congruence|exact U'].
Qed.

Lemma get_connection_casos (m : Mundo) :
  exists r m',
    get_connection m = (r, m')
    /\ banco m' = banco m
    /\ (r = Retorna (banco m) \/ r = Levanta OperationalError).
Proof.
  unfold get_connection, conecta.
  destruct (ida_ao_banco_casos m) as (r1 & m1 & E1 & [->| ->] & B1 & _).
  - eexists _, _. split.
    + apply tenta_Retorna.
      rewrite (bind_Retorna _ _ (eq_trans (bind_Retorna _ _ E1) eq_refl)).
      rewrite (bind_Retorna _ _ (registra_eq _ _)). reflexivity.
    + cbn. split; [exact B1 | left; congruence].
  - eexists _, _. split.
    + erewrite tenta_Levanta;
        [|apply bind_Levanta, bind_Levanta; exact E1].
      rewrite (bind_Retorna _ _ (registra_eq _ _)). reflexivity.
    + cbn. split; [exact B1 | right; reflexivity].
Qed.

(** [insere_historico_precos] keeps the keys of the committed store
    unique, whether it returns or raises. *)
Lemma insere_unico (df : list LinhaCarga) (m : Mundo) :
  unico (banco m) -> unico (banco (snd (insere_historico_precos df m))).
Proof.
  intro U. unfold insere_historico_precos.
  destruct (get_connection_casos m) as (r & m1 & E1 & B1 & [->| ->]).
  2:{ rewrite (bind_Levanta _ _ E1). cbn. congruence. }
  rewrite (bind_Retorna _ _ E1).
  rewrite (bind_Retorna _ _ (registra_eq _ _)).
  set (m2 := mkMundo _ _ _).
  unfold executa.
  destruct (ida_ao_banco_casos m2) as (r3 & m3 & E3 & [->| ->] & B3 & _).
  2:{ rewrite (bind_Levanta _ _ E3). cbn. subst m2. cbn in B3. congruence. }
  rewrite (bind_Retorna _ _ E3).
  assert (U1 : unico (tx (mkLaco (banco m) 0 0))) by exact U.
  destruct (para_cada_linha_unico (indices_map (banco m)) df _ m3 U1)
    as (st' & m4 & E4 & B4 & U4).
  rewrite (bind_Retorna _ _ E4).
  unfold commit.
  destruct (ida_ao_banco_casos m4) as (r5 & m5 & E5 & [->| ->] & B5 & _).
  2:{ rewrite (bind_Levanta _ _ (bind_Levanta _ _ E5)). cbn.
      subst m2. cbn in B3. congruence. }
  rewrite (bind_Retorna _ _ (eq_trans (bind_Retorna _ _ E5) eq_refl)).
  cbn. exact U4.
Qed.

(** *** The label of the adjusted close *)

Lemma existsb_ausente (r : string) (cols : list string) :
  ~ In r cols -> existsb (String.eqb r) cols = false.
Proof.
  intro H. destruct (existsb (String.eqb r) cols) eqn:E; [|reflexivity].
  apply existsb_exists in E. destruct E as [c [Hin He]].
  apply String.eqb_eq in He. subst. contradiction.
Qed.

Lemma renomear_adj_close_ausente (df : Frame) :
  ~ In "Adj Close"%string (columns df) ->
  renomear_adj_close df
  = match find rotulo_ajustado (columns df) with
    | Some col => rename1 col "Adj Close" df
    | None => df
    end.
Proof.
  intro H. unfold renomear_adj_close. rewrite (existsb_ausente _ _ H). reflexivity.
Qed.

Lemma posicao_ausente (r : string) (cols : list string) :
  ~ In r cols -> posicao r cols = None.
Proof.
  induction cols as [|c cols IH]; intro H; simpl; [reflexivity|].
  destruct (String.eqb c r) eqn:E.
  - apply String.eqb_eq in E. exfalso. apply H. left. exact E.
  - rewrite IH; [reflexivity|]. intro Hin. apply H. right. exact Hin.
Qed.

Lemma posicoes_falta (r : string) (rotulos cols : list string) :
  In r rotulos -> posicao r cols = None -> posicoes rotulos cols = Levanta KeyError.
Proof.
  induction rotulos as [|x rotulos IH]; intros Hin Hp; [destruct Hin|].
  simpl. destruct Hin as [->|Hin].
  - rewrite Hp. reflexivity.
  - destruct (posicao x cols); [|reflexivity].
    rewrite (IH Hin Hp). reflexivity.
Qed.

Lemma columns_atribui (r : string) (v : celula) (df : Frame) :
  forall c, In c (columns (atribui r v df)) -> In c (columns df) \/ c = r.
Proof.
  intros c. unfold atribui. destruct (posicao r (columns df)); cbn [columns].
  - auto.
  - intro H. apply in_app_or in H. destruct H as [H|[H|[]]]; auto.
Qed.

(** The only labels that the renaming turns into 'FechamentoAjustado'. *)
Lemma rename_FechamentoAjustado (c : string) :
  match find (fun kv => String.eqb (fst kv) c)
             [("Date", "DataQuotacao"); ("Open", "Abertura");
              ("High", "Alta"); ("Low", "Baixa"); ("Close", "Fechamento");
              ("Adj Close", "FechamentoAjustado"); ("Volume", "Volume")]%string with
  | Some kv => snd kv
  | None => c
  end = "FechamentoAjustado"%string ->
  c = "Adj Close"%string \/ c = "FechamentoAjustado"%string.
Proof.
  cbn [find fst snd].
  destruct (String.eqb "Date" c); [discriminate|].
  destruct (String.eqb "Open" c); [discriminate|].
  destruct (String.eqb "High" c); [discriminate|].
  destruct (String.eqb "Low" c); [discriminate|].
  destruct (String.eqb "Close" c); [discriminate|].
  destruct (String.eqb "Adj Close" c) eqn:E.
  - apply String.eqb_eq in E. auto.
  - destruct (String.eqb "Volume" c); [discriminate|]. auto.
Qed.

(** Without a column for the adjusted close the frame of the ticker is
    rejected: the selection of the kept columns raises [KeyError]. *)
Lemma baixar_dados_indices_ticker_sem_ajustado
      (ticker descricao pais : string) (df : Frame) :
  frame_empty df = false ->
  (forall c, In c (columns df) ->
             rotulo_ajustado c = false /\ c <> "FechamentoAjustado"%string) ->
  baixar_dados_indices_ticker ticker descricao pais df = Levanta KeyError.
Proof.
  intros Hne Hc. unfold baixar_dados_indices_ticker. rewrite Hne. cbn [negb].
  assert (Hadj : ~ In "Adj Close"%string (columns df)).
  { intro H. destruct (Hc _ H) as [R _]. vm_compute in R. discriminate. }
  assert (Hr : renomear_adj_close df = df).
  { rewrite (renomear_adj_close_ausente _ Hadj).
    destruct (find rotulo_ajustado (columns df)) as [col|] eqn:F; [|reflexivity].
    apply find_some in F. destruct F as [Hin R].
    destruct (Hc _ Hin) as [R' _]. congruence. }
  rewrite Hr.
  unfold seleciona, liga.
  erewrite posicoes_falta with (r := "FechamentoAjustado"%string);
    [reflexivity | vm_compute; tauto |].
  apply posicao_ausente. unfold rename. cbn [columns]. intro H.
  apply in_map_iff in H. destruct H as [c [Hren Hin]].
  apply rename_FechamentoAjustado in Hren.
  apply columns_atribui in Hin. destruct Hin as [Hin| ->];
    [|destruct Hren; discriminate].
  apply columns_atribui in Hin. destruct Hin as [Hin| ->];
    [|destruct Hren; discriminate].
  apply columns_atribui in Hin. destruct Hin as [Hin| ->];
    [|destruct Hren; discriminate].
  destruct Hren as [->| ->]; [exact (Hadj Hin)|].
  destruct (Hc _ Hin) as [_ N]. exact (N eq_refl).
Qed.

(** *** The column stored as adjusted close *)

Lemma posicao_limite (x : string) (cols : list string) (n : nat) :
  posicao x cols = Some n -> (n < List.length cols)%nat /\ nth_error cols n = Some x.
Proof.
  revert n. induction cols as [|c cols IH]; intros n H; simpl in H; [discriminate|].
  destruct (String.eqb c x) eqn:E.
  - injection H as <-. apply String.eqb_eq in E. subst. simpl. split; [lia|reflexivity].
  - destruct (posicao x cols) as [k|]; [|discriminate]. injection H as <-.
    destruct (IH k eq_refl) as [L N]. simpl. split; [lia|exact N].
Qed.

Lemma posicao_app (x : string) (cols l : list string) (n : nat) :
  posicao x cols = Some n -> posicao x (cols ++ l) = Some n.
Proof.
  revert n. induction cols as [|c cols IH]; intros n H; simpl in *; [discriminate|].
  destruct (String.eqb c x); [exact H|].
  destruct (posicao x cols) as [k|]; [|discriminate].
  rewrite (IH k eq_refl). exact H.
Qed.

(** A label that is the image of exactly one label of the frame keeps
    the position of that label through a renaming. *)
Lemma posicao_map (g : string -> string) (s t : string) (cols : list string) :
  (forall c, In c cols -> String.eqb (g c) t = String.eqb c s) ->
  posicao t (map g cols) = posicao s cols.
Proof.
  induction cols as [|c cols IH]; intro H; simpl; [reflexivity|].
  rewrite (H c (or_introl eq_refl)).
  rewrite IH; [reflexivity|]. intros; apply H; right; assumption.
Qed.

Lemma nth_substitui {A} (k n : nat) (x d : A) (l : list A) :
  n <> k -> nth n (substitui k x l) d = nth n l d.
Proof.
  revert k n. induction l as [|y l IH]; intros k n H.
  - destruct k; reflexivity.
  - destruct k, n; simpl; try congruence; auto.
Qed.

Lemma length_substitui {A} (k : nat) (x : A) (l : list A) :
  List.length (substitui k x l) = List.length l.
Proof.
  revert k. induction l as [|y l IH]; intro k; destruct k; simpl; auto.
Qed.

Lemma coluna_posicao (x : string) (df : Frame) (n : nat) :
  posicao x (columns df) = Some n -> coluna x df = Some (celulas n df).
Proof. unfold coluna. intros ->. reflexivity. Qed.

(** Assigning a column keeps the frame well formed and leaves the other
    columns where they are, with their cells. *)
Lemma atribui_outra (r : string) (v : celula) (df : Frame) (x : string) (n : nat) :
  bem_formado df -> x <> r -> posicao x (columns df) = Some n ->
  bem_formado (atribui r v df)
  /\ posicao x (columns (atribui r v df)) = Some n
  /\ celulas n (atribui r v df) = celulas n df.
Proof.
  intros W Hx Hp. unfold atribui, bem_formado, celulas in *.
  destruct (posicao_limite _ _ Hp) as [Hn Hnth].
  destruct (posicao r (columns df)) as [k|] eqn:Hr; cbn [columns linhas].
  - split.
    { apply Forall_forall. intros l Hl. apply in_map_iff in Hl.
      destruct Hl as [l0 [<- Hl0]]. rewrite length_substitui.
      rewrite Forall_forall in W. exact (W l0 Hl0). }
    split; [exact Hp|].
    rewrite map_map. apply map_ext. intro l. apply nth_substitui.
    intro E. subst k. destruct (posicao_limite _ _ Hr) as [_ N]. congruence.
  - split.
    { apply Forall_forall. intros l Hl. apply in_map_iff in Hl.
      destruct Hl as [l0 [<- Hl0]]. rewrite !length_app.
      rewrite Forall_forall in W. rewrite (W l0 Hl0). reflexivity. }
    split; [apply posicao_app, Hp|].
    rewrite map_map. apply map_ext_in. intros l Hl. apply app_nth1.
    rewrite Forall_forall in W. rewrite (W l Hl). exact Hn.
Qed.

Lemma posicao_rename1 (de para : string) (cols : list string) :
  ~ In para cols ->
  posicao para (map (fun c => if String.eqb c de then para else c) cols)
  = posicao de cols.
Proof.
  intro H. apply posicao_map. intros c Hin.
  destruct (String.eqb c de) eqn:E; [apply String.eqb_refl|].
  apply String.eqb_neq. intro; subst. contradiction.
Qed.

(** After the first step the adjusted close is under 'Adj Close', at the
    position of its original label. *)
Lemma renomear_adj_close_origem (df : Frame) (src : string) :
  origem_ajustado df = Some src ->
  posicao "Adj Close" (columns (renomear_adj_close df)) = posicao src (columns df)
  /\ linhas (renomear_adj_close df) = linhas df
  /\ (forall c, In c (columns (renomear_adj_close df)) ->
                In c (columns df) \/ c = "Adj Close"%string).
Proof.
  unfold origem_ajustado, renomear_adj_close.
  destruct (existsb (String.eqb "Adj Close") (columns df)) eqn:E.
  - intro H. injection H as <-. auto.
  - intro H. rewrite H. cbn [columns linhas rename1].
    split; [|split; [reflexivity|]].
    + apply posicao_rename1. intro Hin.
      assert (T : existsb (String.eqb "Adj Close") (columns df) = true).
      { apply existsb_exists. exists "Adj Close"%string. split; [exact Hin|reflexivity]. }
      congruence.
    + intros c Hin. apply in_map_iff in Hin. destruct Hin as [c0 [<- Hin]].
      destruct (String.eqb c0 src); auto.
Qed.

Lemma rename_eqb_FechamentoAjustado (c : string) :
  c <> "FechamentoAjustado"%string ->
  String.eqb
    match find (fun kv => String.eqb (fst kv) c)
               [("Date", "DataQuotacao"); ("Open", "Abertura");
                ("High", "Alta"); ("Low", "Baixa"); ("Close", "Fechamento");
                ("Adj Close", "FechamentoAjustado"); ("Volume", "Volume")]%string with
    | Some kv => snd kv
    | None => c
    end "FechamentoAjustado"
  = String.eqb c "Adj Close".
Proof.
  intro N. cbn [find fst snd].
  destruct (String.eqb "Date" c) eqn:E1; [apply String.eqb_eq in E1; subst; reflexivity|].
  destruct (String.eqb "Open" c) eqn:E2; [apply String.eqb_eq in E2; subst; reflexivity|].
  destruct (String.eqb "High" c) eqn:E3; [apply String.eqb_eq in E3; subst; reflexivity|].
  destruct (String.eqb "Low" c) eqn:E4; [apply String.eqb_eq in E4; subst; reflexivity|].
  destruct (String.eqb "Close" c) eqn:E5; [apply String.eqb_eq in E5; subst; reflexivity|].
  destruct (String.eqb "Adj Close" c) eqn:E6; [apply String.eqb_eq in E6; subst; reflexivity|].
  destruct (String.eqb "Volume" c) eqn:E7; [apply String.eqb_eq in E7; subst; reflexivity|].
  apply String.eqb_neq in N. rewrite N. symmetry.
  rewrite String.eqb_sym. exact E6.
Qed.

Lemma posicoes_nth (x : string) (rotulos cols : list string) (ns : list nat)
      (j n : nat) :
  posicoes rotulos cols = Retorna ns ->
  posicao x rotulos = Some j -> posicao x cols = Some n ->
  nth_error ns j = Some n.
Proof.
  revert ns j. induction rotulos as [|r rotulos IH]; intros ns j Hp Hj Hn;
    simpl in *; [discriminate|].
  destruct (posicao r cols) as [k|] eqn:Hk; [|discriminate].
  destruct (posicoes rotulos cols) as [ms|] eqn:Hm; [|discriminate].
  simpl in Hp. injection Hp as <-.
  destruct (String.eqb r x) eqn:E.
  - injection Hj as <-. apply String.eqb_eq in E. subst. simpl. congruence.
  - destruct (posicao x rotulos) as [i|]; [|discriminate].
    injection Hj as <-. simpl. apply (IH ms i eq_refl eq_refl Hn).
Qed.

Lemma seleciona_coluna (x : string) (rotulos : list string) (df f : Frame)
      (j n : nat) :
  seleciona rotulos df = Retorna f ->
  posicao x rotulos = Some j -> posicao x (columns df) = Some n ->
  coluna x f = Some (celulas n df).
Proof.
  unfold seleciona, liga. intros H Hj Hn.
  destruct (posicoes rotulos (columns df)) as [ns|] eqn:Hp; [|discriminate].
  injection H as <-. unfold coluna, celulas. cbn [columns linhas]. rewrite Hj.
  cbn [option_map]. f_equal. rewrite map_map. apply map_ext. intro l.
  pose proof (posicoes_nth _ _ _ Hp Hj Hn) as N.
  apply nth_error_nth.
  rewrite nth_error_map, N. reflexivity.
Qed.

(** When the frame of a ticker is accepted, the column stored as
    adjusted close is the column of the download labelled 'Adj Close',
    or else the first one whose label spells it. *)
Lemma baixar_dados_indices_ticker_ajustado
      (ticker descricao pais : string) (df f : Frame) (src : string) :
  bem_formado df ->
  ~ In "FechamentoAjustado"%string (columns df) ->
  origem_ajustado df = Some src ->
  baixar_dados_indices_ticker ticker descricao pais df = Retorna (Some f) ->
  In src (columns df)
  /\ coluna "FechamentoAjustado" f = coluna src df.
Proof.
  intros W NFA Ho H. unfold baixar_dados_indices_ticker in H.
  destruct (negb (frame_empty df)); [|discriminate].
  destruct (renomear_adj_close_origem df Ho) as (P1 & L1 & C1).
  assert (Hsrc : exists n, posicao src (columns df) = Some n).
  { unfold origem_ajustado in Ho.
    destruct (existsb (String.eqb "Adj Close") (columns df)) eqn:E.
    - injection Ho as <-. apply existsb_exists in E. destruct E as [c [Hin He]].
      apply String.eqb_eq in He. subst c.
      destruct (posicao "Adj Close" (columns df)) as [n|] eqn:Pn; [eauto|].
      exfalso. revert Pn Hin. clear. induction (columns df) as [|c l IH]; simpl; [tauto|].
      destruct (String.eqb c "Adj Close") eqn:E; [discriminate|].
      apply String.eqb_neq in E.
      destruct (posicao "Adj Close" l); [discriminate|].
      intros _ [Hc|Hl]; [congruence|]. exact (IH eq_refl Hl).
    - apply find_some in Ho. destruct Ho as [Hin _].
      destruct (posicao src (columns df)) as [n|] eqn:Pn; [eauto|].
      exfalso. revert Pn Hin. clear. induction (columns df) as [|c l IH]; simpl; [tauto|].
      destruct (String.eqb c src) eqn:E; [discriminate|].
      apply String.eqb_neq in E.
      destruct (posicao src l); [discriminate|].
      intros _ [Hc|Hl]; [congruence|]. exact (IH eq_refl Hl). }
  destruct Hsrc as [n Hn]. rewrite Hn in P1.
  split.
  { destruct (posicao_limite _ _ Hn) as [_ N]. eapply nth_error_In, N. }
  set (df1 := renomear_adj_close df) in *.
  assert (W1 : bem_formado df1).
  { unfold bem_formado in *. rewrite L1. eapply Forall_impl; [|exact W].
    intros l Hl. rewrite Hl.
    unfold df1, renomear_adj_close.
    destruct (existsb _ _); [reflexivity|].
    destruct (find _ _); [|reflexivity]. cbn. rewrite length_map. reflexivity. }
  assert (K1 : celulas n df1 = celulas n df) by (unfold celulas; rewrite L1; reflexivity).
  assert (N1 : ~ In "FechamentoAjustado"%string (columns df1)).
  { intro Hin. destruct (C1 _ Hin) as [Hc|Hc]; [exact (NFA Hc)|discriminate]. }
  destruct (@atribui_outra "Ticker" (CTexto ticker) df1 "Adj Close" n W1
                           ltac:(discriminate) P1) as (W2 & P2 & K2).
  set (df2 := atribui "Ticker" (CTexto ticker) df1) in *.
  destruct (@atribui_outra "Descricao" (CTexto descricao) df2 "Adj Close" n W2
                           ltac:(discriminate) P2) as (W3 & P3 & K3).
  set (df3 := atribui "Descricao" (CTexto descricao) df2) in *.
  destruct (@atribui_outra "Pais" (CTexto pais) df3 "Adj Close" n W3
                           ltac:(discriminate) P3) as (W4 & P4 & K4).
  set (df4 := atribui "Pais" (CTexto pais) df3) in *.
  assert (N4 : ~ In "FechamentoAjustado"%string (columns df4)).
  { intro Hin.
    apply columns_atribui in Hin. destruct Hin as [Hin|Hin]; [|discriminate].
    apply columns_atribui in Hin. destruct Hin as [Hin|Hin]; [|discriminate].
    apply columns_atribui in Hin. destruct Hin as [Hin|Hin]; [|discriminate].
    exact (N1 Hin). }
  match type of H with
  | liga (seleciona _ ?d) _ = _ => set (df5 := d) in *
  end.
  assert (P5 : posicao "FechamentoAjustado" (columns df5) = Some n).
  { unfold df5, rename. cbn [columns]. rewrite <- P4.
    apply posicao_map. intros c Hin. apply rename_eqb_FechamentoAjustado.
    intro; subst. exact (N4 Hin). }
  unfold liga in H.
  destruct (seleciona colunas_mantidas df5) as [f5|] eqn:S5; [|discriminate].
  injection H as <-.
  rewrite (@seleciona_coluna "FechamentoAjustado" colunas_mantidas df5 f5 8 n S5
                             eq_refl P5).
  rewrite (coluna_posicao _ _ Hn). f_equal.
  change (celulas n df5) with (celulas n df4). congruence.
Qed.

Lemma baixar_dados_indices_ticker_sem_origem
      (ticker descricao pais : string) (df : Frame) :
  frame_empty df = false ->
  ~ In "FechamentoAjustado"%string (columns df) ->
  origem_ajustado df = None ->
  baixar_dados_indices_ticker ticker descricao pais df = Levanta KeyError.
Proof.
  intros Hne NFA Ho. apply baixar_dados_indices_ticker_sem_ajustado; [exact Hne|].
  intros c Hin. unfold origem_ajustado in Ho.
  destruct (existsb (String.eqb "Adj Close") (columns df)); [discriminate|].
  split; [exact (find_none _ _ Ho c Hin)|].
  intro; subst. exact (NFA Hin).
Qed.

End LoaderFacts.

(* ================================================================= *)
(** * Stored bars: uniqueness, adjusted close and volume *)

Module IngestaoFacts.
Import App Collector StoreFacts CollectorFacts.

(** C4.  From a store in which no two bars of an instrument share a
    date, any sequence of calls of [salvar_historico_precos] and of
    [insere_historico_precos], in any run (round trips may fail, calls
    may raise), leaves a store with the same property; and the turn of
    the loop for a row whose date is stored for the instrument leaves
    the table as it is. *)
Theorem historico_precos_unico (ops : list Operacao) (m : Mundo) :
  unico (banco m) ->
  unico (banco (executa_operacoes ops m))
  /\ (forall id row st w,
         presente (tx st) id row = true ->
         exists st' w',
           tenta (corpo_linha id row st)
                 (fun e => registra (ErroInserirRegistro e) ;; ret st) w
           = (Retorna st', w')
           /\ tx st' = tx st).
Proof.
  intro U. split.
  - revert m U. induction ops as [|op ops IH]; intros m U; [exact U|].
    cbn [executa_operacoes fold_left]. apply IH.
    destruct op as [id ticker df|df]; cbn [executa_operacao].
    + apply salvar_unico, U.
    + apply LoaderFacts.insere_unico, U.
  - intros id row st w P.
    destruct (volta_do_laco id row st w) as (st' & w' & E & _ & S).
    exists st', w'. split; [exact E|].
    destruct S as [->| ->]; [reflexivity|].
    rewrite (passo_presente _ _ _ P). reflexivity.
Qed.

(** C4, instance: the store with one bar has unique keys; the sequence
    ingests stored dates again through both paths. *)
Lemma historico_precos_unico_exemplo :
  unico (banco (Exemplos.mundo Exemplos.banco_uma_barra))
  /\ unico (banco (executa_operacoes
                     [OpSalvar 1 "AAA" [Exemplos.linha_yf 900 100 (CInt 7);
                                        Exemplos.linha_yf 901 110 (CInt 7)];
                      OpInsere [Exemplos.linha_carga 901 110;
                                Exemplos.linha_carga 902 99]]
                     (Exemplos.mundo Exemplos.banco_uma_barra))).
Proof.
  assert (U : unico (banco (Exemplos.mundo Exemplos.banco_uma_barra))).
  { unfold unico. cbn. constructor; [intros []|constructor]. }
  split; [exact U|].
  exact (proj1 (historico_precos_unico
                  [OpSalvar 1 "AAA" [Exemplos.linha_yf 900 100 (CInt 7);
                                     Exemplos.linha_yf 901 110 (CInt 7)];
                   OpInsere [Exemplos.linha_carga 901 110;
                             Exemplos.linha_carga 902 99]]
                  (Exemplos.mundo Exemplos.banco_uma_barra) U)).
Defined.

(** C7 (amended).  In every bar that it writes, the collector stores
    the close of the row both as close and as adjusted close: null when
    the close is missing, its value otherwise; it reads no other column
    of the frame, and when no round trip fails a row with a date of its
    own is stored in this way.  The loader stores as adjusted close the
    column of the download labelled 'Adj Close' when there is one, and
    otherwise the first column whose lower-cased label contains both
    'adj' and 'close'; a frame without such a column is rejected with
    [KeyError], the close is not used in its place. *)
Theorem fechamento_ajustado_armazenado :
  (forall id row h,
      linha_convertida id row = Retorna h ->
      FechamentoAjustado h = Fechamento h
      /\ (notna (yf_Close row) = false -> FechamentoAjustado h = None)
      /\ (notna (yf_Close row) = true ->
          exists q, py_float (yf_Close row) = Retorna (Fin q)
                    /\ FechamentoAjustado h = Some q))
  /\ (forall id d o hi lo c v outras outras',
         linha_convertida id (mkLinhaYF d o hi lo c v outras)
         = linha_convertida id (mkLinhaYF d o hi lo c v outras'))
  /\ (forall id ticker df m,
         exists novos,
           tab_HistoricoPrecos (banco (snd (salvar_historico_precos id ticker df m)))
           = tab_HistoricoPrecos (banco m) ++ novos
           /\ Forall (fun h =>
                        FechamentoAjustado h = Fechamento h
                        /\ exists row,
                            In row df
                            /\ DataQuotacao h = date (yf_Date row)
                            /\ (notna (yf_Close row) = false ->
                                FechamentoAjustado h = None)
                            /\ (notna (yf_Close row) = true ->
                                exists q,
                                  py_float (yf_Close row) = Retorna (Fin q)
                                  /\ FechamentoAjustado h = Some q))
                     novos)
  /\ (forall id ticker pre r post m q,
         falhas m = [] ->
         (forall row, In row pre -> date (yf_Date row) <> date (yf_Date r)) ->
         presente (banco m) id r = false ->
         bem_formada id r ->
         py_float (yf_Close r) = Retorna (Fin q) ->
         exists h,
           In h (tab_HistoricoPrecos
                   (banco (snd (salvar_historico_precos
                                  id ticker (pre ++ r :: post) m))))
           /\ hp_IdIndice h = id /\ DataQuotacao h = date (yf_Date r)
           /\ Fechamento h = Some q /\ FechamentoAjustado h = Some q)
  /\ (forall ticker descricao pais df f src,
         Loader.bem_formado df ->
         ~ In "FechamentoAjustado"%string (Loader.columns df) ->
         Loader.origem_ajustado df = Some src ->
         Loader.baixar_dados_indices_ticker ticker descricao pais df
         = Retorna (Some f) ->
         In src (Loader.columns df)
         /\ Loader.coluna "FechamentoAjustado" f = Loader.coluna src df)
  /\ (forall ticker descricao pais df,
         Loader.frame_empty df = false ->
         ~ In "FechamentoAjustado"%string (Loader.columns df) ->
         Loader.origem_ajustado df = None ->
         Loader.baixar_dados_indices_ticker ticker descricao pais df
         = Levanta KeyError)
  /\ (exists f,
         Loader.baixar_dados_indices_ticker "AAA" "Indice AAA" "Brasil"
                                            Exemplos.frame_adj_close
         = Retorna (Some f)
         /\ Loader.coluna "FechamentoAjustado" f = Some [CFloat (Fin 95)])
  /\ (exists f,
         Loader.baixar_dados_indices_ticker "AAA" "Indice AAA" "Brasil"
                                            Exemplos.frame_adjclose
         = Retorna (Some f)
         /\ Loader.coluna "FechamentoAjustado" f = Some [CFloat (Fin 95)]).
Proof.
  assert (K : forall id row h,
             linha_convertida id row = Retorna h ->
             FechamentoAjustado h = Fechamento h
             /\ (notna (yf_Close row) = false -> FechamentoAjustado h = None)
             /\ (notna (yf_Close row) = true ->
                 exists q, py_float (yf_Close row) = Retorna (Fin q)
                           /\ FechamentoAjustado h = Some q)).
  { intros id row h H.
    destruct (linha_convertida_fechamento _ _ H)
      as [(N & Fc & Fa)|(N & q & P & Fc & Fa)].
    - split; [congruence|]. split; [auto|]. intro T. congruence.
    - split; [congruence|]. split; [intro T; congruence|]. intros _. eauto. }
  split; [exact K|].
  split; [reflexivity|].
  split.
  { intros id ticker df m.
    destruct (salvar_novos id ticker df m) as [novos [E F]].
    exists novos. rewrite E. split; [reflexivity|].
    eapply Forall_impl; [|exact F].
    intros h [row [Hin H]]. destruct (K _ _ _ H) as (A & B & C).
    split; [exact A|]. exists row. split; [exact Hin|].
    split; [apply (linha_convertida_campos _ _ H)|]. auto. }
  split.
  { intros id ticker pre r post m q F D P [h L] C.
    exists h. split; [apply salvar_insere; assumption|].
    destruct (linha_convertida_campos _ _ L) as (Hi & Hd & _).
    split; [exact Hi|]. split; [exact Hd|].
    destruct (linha_convertida_fechamento _ _ L)
      as [(N & _)|(_ & q' & P' & Fc & Fa)].
    - exfalso. destruct (yf_Close r) as [[]| | |]; cbn in N, C; discriminate.
    - rewrite C in P'. injection P' as <-. auto. }
  split; [exact LoaderFacts.baixar_dados_indices_ticker_ajustado|].
  split; [exact LoaderFacts.baixar_dados_indices_ticker_sem_origem|].
  split; (eexists; split; vm_compute; reflexivity).
Qed.

(** C7, counterexample.  A row of the collector whose frame carries an
    adjusted close of 95 under 'Adj Close' and a close of 100 is stored
    with an adjusted close of 100; and the loader, given a frame without
    a column for the adjusted close, raises instead of falling back on
    the close. *)
Lemma fechamento_ajustado_ignorado :
  yf_outras (Exemplos.linha_ajustada 900) = [("Adj Close"%string, CFloat (Fin 95))]
  /\ (exists c m',
         salvar_historico_precos 1 "AAA" [Exemplos.linha_ajustada 900]
                                 (Exemplos.mundo (Exemplos.banco_AAA []))
         = (Retorna c, m')
         /\ map FechamentoAjustado (tab_HistoricoPrecos (banco m')) = [Some 100])
  /\ Loader.baixar_dados_indices_ticker "AAA" "Indice AAA" "Brasil"
                                        Exemplos.frame_sem_ajustado
     = Levanta KeyError.
Proof.
  split; [reflexivity|].
  split; [eexists _, _; split; vm_compute; reflexivity|].
  vm_compute. reflexivity.
Qed.

(** *** Volume *)

Lemma insere_ordenado_In (x y : Linha) (l : list Linha) :
  In y (insere_ordenado x l) -> y = x \/ In y l.
Proof.
  induction l as [|z l IH]; simpl.
  - intros [H|[]]; auto.
  - destruct (ordem_leb x z); simpl.
    + intros [H|[H|H]]; auto.
    + intros [H|H]; auto. destruct (IH H); auto.
Qed.

Lemma order_by_In (y : Linha) (l : list Linha) :
  In y (order_by l) -> In y l.
Proof.
  induction l as [|x l IH]; simpl; [auto|].
  intro H. apply insere_ordenado_In in H. destruct H; auto.
Qed.

(** A row of the result set carries the volume of a stored bar. *)
Lemma obter_dados_segmento_volume (b : Banco) (agora : Timestamp)
      (id dias : Z) (l : Linha) :
  In l (obter_dados_segmento b agora id dias) ->
  exists hp, In hp (tab_HistoricoPrecos b) /\ row5_Volume l = Volume hp.
Proof.
  unfold obter_dados_segmento. intro H. apply order_by_In in H.
  apply in_flat_map in H. destruct H as [hp [Hhp H]].
  exists hp. split; [exact Hhp|].
  apply in_flat_map in H. destruct H as [i [_ H]].
  destruct (hp_IdIndice hp =? IdIndice i)%Z; [|destruct H].
  apply in_flat_map in H. destruct H as [seg [_ H]].
  match type of H with
  | In _ (if ?c then _ else _) => destruct c; [|destruct H]
  end.
  destruct H as [<-|[]]. reflexivity.
Qed.

Lemma fold_left_add (l : list Z) (acc : Z) :
  fold_left Z.add l acc = (acc + fold_right Z.add 0 l)%Z.
Proof.
  revert acc. induction l as [|z l IH]; intro acc; simpl; [lia|].
  rewrite IH. lia.
Qed.

(** A column without [None] has an integer total, the sum of its values
    on 64 bits. *)
Lemma sum_sem_nulos (xs : list (option Z)) :
  (forall v, In v xs -> v <> None) ->
  Pandas.sum xs
  = Pandas.Inteiro
      (Pandas.wrap64
         (fold_right Z.add 0%Z
            (map (fun v => match v with Some z => z | None => 0%Z end) xs))).
Proof.
  intro H. unfold Pandas.sum.
  assert (A : forallb (fun v : option Z =>
                         match v with Some _ => true | None => false end) xs
              = true).
  { apply forallb_forall. intros v Hv. destruct v; [reflexivity|].
    exfalso. exact (H None Hv eq_refl). }
  rewrite A, fold_left_add. do 2 f_equal. simpl.
  clear A. induction xs as [|v xs IH]; [reflexivity|].
  destruct v as [z|].
  - cbn. f_equal. apply IH. intros w Hw. apply H. right. exact Hw.
  - exfalso. exact (H None (or_introl eq_refl) eq_refl).
Qed.

(** A column that mixes [None] and integers has a float64 total. *)
Lemma sum_misto (xs : list (option Z)) (z : Z) :
  In None xs -> In (Some z) xs -> Pandas.sum xs = Pandas.Float64.
Proof.
  intros N S. unfold Pandas.sum.
  assert (A : forallb (fun v : option Z =>
                         match v with Some _ => true | None => false end) xs
              = false).
  { apply not_true_is_false. intro A.
    rewrite forallb_forall in A. specialize (A None N). discriminate. }
  assert (B : forallb (fun v : option Z =>
                         match v with Some _ => false | None => true end) xs
              = false).
  { apply not_true_is_false. intro B.
    rewrite forallb_forall in B. specialize (B (Some z) S). discriminate. }
  rewrite A, B. reflexivity.
Qed.

Lemma wrap64_pequeno (z : Z) :
  (- 2 ^ 63 <= z < 2 ^ 63)%Z -> Pandas.wrap64 z = z.
Proof.
  intro H. unfold Pandas.wrap64. rewrite Z.mod_small; lia.
Qed.

(** C10.  The bar that the collector stores for a row has an
    integer volume, 0 when the volume of the row is missing, and when
    no round trip fails a well-formed row with a missing volume and a
    date of its own is stored with the volume 0; a store whose bars all
    have a volume keeps that property through
    [salvar_historico_precos], so that the rows read by the metrics
    engine all carry a volume.  The total volume of a segment is then
    the sum of these integers on 64 bits, the zeros of the missing
    volumes included: it is the sum itself when the sum fits in an
    int64, and wraps around otherwise.  Only a store that holds a null
    volume beside an integer, which the collector never writes, makes the
    total a float64. *)
Theorem volume_ausente_zero :
  (forall id row h,
      linha_convertida id row = Retorna h ->
      (exists z, Volume h = Some z)
      /\ (notna (yf_Volume row) = false -> Volume h = Some 0%Z))
  /\ (forall id ticker pre r post m,
         falhas m = [] ->
         (forall row, In row pre -> date (yf_Date row) <> date (yf_Date r)) ->
         presente (banco m) id r = false ->
         bem_formada id r ->
         notna (yf_Volume r) = false ->
         exists h,
           In h (tab_HistoricoPrecos
                   (banco (snd (salvar_historico_precos
                                  id ticker (pre ++ r :: post) m))))
           /\ hp_IdIndice h = id /\ DataQuotacao h = date (yf_Date r)
           /\ Volume h = Some 0%Z)
  /\ (forall id ticker df m,
         (forall h, In h (tab_HistoricoPrecos (banco m)) -> Volume h <> None) ->
         forall h,
           In h (tab_HistoricoPrecos
                   (banco (snd (salvar_historico_precos id ticker df m)))) ->
           Volume h <> None)
  /\ (forall b agora id dias,
         (forall h, In h (tab_HistoricoPrecos b) -> Volume h <> None) ->
         forall l, In l (obter_dados_segmento b agora id dias) ->
                   row5_Volume l <> None)
  /\ (forall raiz b agora id m,
         (forall h, In h (tab_HistoricoPrecos b) -> Volume h <> None) ->
         calcular_metricas_segmento raiz b agora id = Some m ->
         VolumeTotal m
         = Pandas.Inteiro
             (Pandas.wrap64
                (fold_right Z.add 0%Z
                   (map (fun l => match row5_Volume l with
                                  | Some z => z
                                  | None => 0%Z
                                  end)
                        (obter_dados_segmento b agora id 365))))
         /\ ((- 2 ^ 63
              <= fold_right Z.add 0%Z
                   (map (fun l => match row5_Volume l with
                                  | Some z => z
                                  | None => 0%Z
                                  end)
                        (obter_dados_segmento b agora id 365))
              < 2 ^ 63)%Z ->
             VolumeTotal m
             = Pandas.Inteiro
                 (fold_right Z.add 0%Z
                    (map (fun l => match row5_Volume l with
                                   | Some z => z
                                   | None => 0%Z
                                   end)
                         (obter_dados_segmento b agora id 365)))))
  /\ (forall raiz b agora id m l1 l2 z,
         calcular_metricas_segmento raiz b agora id = Some m ->
         In l1 (obter_dados_segmento b agora id 365) -> row5_Volume l1 = None ->
         In l2 (obter_dados_segmento b agora id 365) -> row5_Volume l2 = Some z ->
         VolumeTotal m = Pandas.Float64).
Proof.
  assert (K3 : forall b agora id dias,
             (forall h, In h (tab_HistoricoPrecos b) -> Volume h <> None) ->
             forall l, In l (obter_dados_segmento b agora id dias) ->
                       row5_Volume l <> None).
  { intros b agora id dias Hb l Hin.
    destruct (obter_dados_segmento_volume _ _ _ _ _ Hin) as [hp [Hhp ->]].
    exact (Hb hp Hhp). }
  split.
  { intros id row h H.
    destruct (linha_convertida_campos _ _ H) as (_ & _ & _ & [[N V]|[T [z [_ V]]]]).
    - split; [eauto | auto].
    - split; [eauto | congruence]. }
  split.
  { intros id ticker pre r post m F D P [h L] N.
    exists h. split; [apply salvar_insere; assumption|].
    destruct (linha_convertida_campos _ _ L)
      as (Hi & Hd & _ & [[_ V]|[T _]]); [auto|congruence]. }
  split.
  { intros id ticker df m Hm h Hin.
    destruct (salvar_novos id ticker df m) as [novos [E F]].
    rewrite E in Hin. cbn in Hin. apply in_app_or in Hin.
    destruct Hin as [Hin|Hin]; [exact (Hm h Hin)|].
    rewrite Forall_forall in F. destruct (F h Hin) as [row [_ L]].
    destruct (linha_convertida_campos _ _ L) as (_ & _ & _ & [[_ V]|[_ [z [_ V]]]]);
      congruence. }
  split; [exact K3|].
  split; cycle 1.
  { intros raiz b agora id m l1 l2 z H I1 V1 I2 V2.
    unfold calcular_metricas_segmento in H.
    assert (Hd : obter_dados_segmento b agora id 365 <> []).
    { intro E. rewrite E in H. discriminate. }
    rewrite (MetricsFacts.metricas_de_dados_Some raiz Hd) in H.
    injection H as <-. cbn [VolumeTotal].
    apply sum_misto with z; rewrite map_map; apply in_map_iff.
    - exists l1. split; [exact V1 | exact I1].
    - exists l2. split; [exact V2 | exact I2]. }
  intros raiz b agora id m Hb H. unfold calcular_metricas_segmento in H.
  assert (Hd : obter_dados_segmento b agora id 365 <> []).
  { intro E. rewrite E in H. discriminate. }
  rewrite (MetricsFacts.metricas_de_dados_Some raiz Hd) in H.
  injection H as <-. cbn [VolumeTotal].
  assert (E : Pandas.sum (map df_Volume
                              (map linha_df (obter_dados_segmento b agora id 365)))
              = Pandas.Inteiro
                  (Pandas.wrap64
                     (fold_right Z.add 0%Z
                        (map (fun l => match row5_Volume l with
                                       | Some z => z
                                       | None => 0%Z
                                       end)
                             (obter_dados_segmento b agora id 365))))).
  { rewrite sum_sem_nulos.
    - rewrite !map_map. reflexivity.
    - intros v Hv. rewrite map_map in Hv. apply in_map_iff in Hv.
      destruct Hv as (l & <- & Hl). cbn [linha_df df_Volume].
      exact (K3 b agora id 365%Z Hb l Hl). }
  rewrite E. split; [reflexivity|].
  intro R. rewrite wrap64_pequeno by exact R. reflexivity.
Qed.

(** C10, instance: two bars of an instrument, one of them stored for a
    row without volume; the total of the segment is the volume of the
    other bar. *)
Example volume_ausente_zero_exemplo :
  exists c m' mt,
    salvar_historico_precos 1 "AAA"
      [Exemplos.linha_yf 900 100 (CInt 7); Exemplos.linha_yf 901 110 (CFloat NaN)]
      (Exemplos.mundo (Exemplos.banco_AAA []))
    = (Retorna c, m')
    /\ map Volume (tab_HistoricoPrecos (banco m')) = [Some 7%Z; Some 0%Z]
    /\ calcular_metricas_segmento Exemplos.raiz (banco m') Exemplos.agora 1 = Some mt
    /\ VolumeTotal mt = Pandas.Inteiro 7.
Proof.
  eexists _, _, _. split; [vm_compute; reflexivity|].
  split; [reflexivity|]. split; [vm_compute; reflexivity|]. reflexivity.
Qed.

(** An int64 total wraps around, and a [NULL] volume beside an integer
    makes the total a float64. *)
Example volume_total_casos :
  Pandas.sum [Some (2 ^ 62)%Z; Some (2 ^ 62)%Z] = Pandas.Inteiro (- 2 ^ 63)
  /\ Pandas.sum [Some 100%Z; None] = Pandas.Float64
  /\ Pandas.sum [None; None] = Pandas.Inteiro 0.
Proof. repeat split. Qed.

End IngestaoFacts.

(* ================================================================= *)
(** * Reading the store: result sets, metrics, signals and routes *)

Module LeituraFacts.
Import App Pandas PyFloatFacts StoreFacts.

(** *** The result set of a segment *)

Lemma insere_ordenado_Permutation (x : Linha) (l : list Linha) :
  Permutation (insere_ordenado x l) (x :: l).
Proof.
  induction l as [|y l IH]; simpl; [reflexivity|].
  destruct (ordem_leb x y); [reflexivity|].
  rewrite IH. apply perm_swap.
Qed.

Lemma order_by_Permutation (l : list Linha) : Permutation (order_by l) l.
Proof.
  induction l as [|x l IH]; simpl; [reflexivity|].
  rewrite insere_ordenado_Permutation, IH. reflexivity.
Qed.

Lemma ts_leb_janela (agora : Timestamp) (dias : Z) (d : data) :
  ts_leb (menos_dias agora dias) (mkTimestamp d 0) = true
  <-> (ts_dia agora - dias < d)%Z
      \/ (ts_dia agora - dias = d /\ ts_seg agora <= 0)%Z.
Proof.
  unfold ts_leb, menos_dias. cbn [ts_dia ts_seg].
  rewrite orb_true_iff, andb_true_iff, Z.ltb_lt, Z.eqb_eq, Z.leb_le. tauto.
Qed.

(** The rows of the query are exactly the bars of the instruments linked
    to the segment that are dated after [agora - dias], each with the
    ticker and the description of its instrument; a bar dated exactly
    [dias] days before today is left out unless [agora] is midnight.
    The ordering neither drops nor repeats a row of the join. *)
Lemma obter_dados_segmento_In
      (b : Banco) (agora : Timestamp) (id dias : Z) (l : Linha) :
  In l (obter_dados_segmento b agora id dias)
  <-> exists hp i seg,
      In hp (tab_HistoricoPrecos b) /\ In i (tab_Indices b)
      /\ In seg (tab_IndicesSegmentos b)
      /\ hp_IdIndice hp = IdIndice i
      /\ IdIndice i = is_IdIndice seg
      /\ is_IdSegmento seg = id
      /\ ((ts_dia agora - dias < DataQuotacao hp)%Z
          \/ (ts_dia agora - dias = DataQuotacao hp /\ ts_seg agora <= 0)%Z)
      /\ l = mkLinha (Ticker i) (Descricao i) (DataQuotacao hp)
                     (Fechamento hp) (FechamentoAjustado hp) (Volume hp)
                     (Alta hp) (Baixa hp).
Proof.
  unfold obter_dados_segmento.
  rewrite (Permutation_in' (eq_refl l) (order_by_Permutation _)).
  rewrite in_flat_map. split.
  - intros [hp [Hhp H]]. apply in_flat_map in H. destruct H as [i [Hi H]].
    destruct (hp_IdIndice hp =? IdIndice i)%Z eqn:E1; [|destruct H].
    apply in_flat_map in H. destruct H as [seg [Hs H]].
    match type of H with
    | In _ (if ?c then _ else _) => destruct c eqn:E2; [|destruct H]
    end.
    destruct H as [<-|[]].
    apply andb_true_iff in E2. destruct E2 as [E2 E4].
    apply andb_true_iff in E2. destruct E2 as [E2 E3].
    apply Z.eqb_eq in E1, E2, E3. apply ts_leb_janela in E4.
    exists hp, i, seg. repeat split; assumption.
  - intros (hp & i & seg & Hhp & Hi & Hs & E1 & E2 & E3 & E4 & ->).
    exists hp. split; [exact Hhp|].
    apply in_flat_map. exists i. split; [exact Hi|].
    apply Z.eqb_eq in E1. rewrite E1.
    apply in_flat_map. exists seg. split; [exact Hs|].
    apply Z.eqb_eq in E2, E3. apply ts_leb_janela in E4.
    rewrite E2, E3, E4. left. reflexivity.
Qed.

Lemma flat_map_map {A B C} (g : A -> B) (f : B -> list C) (l : list A) :
  flat_map f (map g l) = flat_map (fun x => f (g x)) l.
Proof. induction l as [|x l IH]; simpl; [reflexivity|]. rewrite IH. reflexivity. Qed.

Lemma obter_dados_segmento_com_ativos
      (a : bool) (b : Banco) (agora : Timestamp) (id dias : Z) :
  obter_dados_segmento (com_ativos a b) agora id dias
  = obter_dados_segmento b agora id dias.
Proof.
  unfold obter_dados_segmento, com_ativos.
  cbn [tab_HistoricoPrecos tab_Indices tab_IndicesSegmentos].
  f_equal. apply flat_map_ext. intro hp.
  rewrite flat_map_map. reflexivity.
Qed.

(** *** Extremes of the closes *)

Lemma qmax_casos (a b : Q) : (qmax a b = a /\ b <= a) \/ (qmax a b = b /\ a <= b).
Proof.
  unfold qmax. destruct (Qle_bool a b) eqn:E.
  - right. split; [reflexivity|]. apply Qle_bool_iff, E.
  - left. split; [reflexivity|].
    apply Qlt_le_weak, Qnot_le_lt. intro H. apply Qle_bool_iff in H. congruence.
Qed.

Lemma qmin_casos (a b : Q) : (qmin a b = a /\ a <= b) \/ (qmin a b = b /\ b <= a).
Proof.
  unfold qmin. destruct (Qle_bool a b) eqn:E.
  - left. split; [reflexivity|]. apply Qle_bool_iff, E.
  - right. split; [reflexivity|].
    apply Qlt_le_weak, Qnot_le_lt. intro H. apply Qle_bool_iff in H. congruence.
Qed.

Lemma fold_qmax (r : list Q) (x : Q) :
  In (fold_left qmax r x) (x :: r)
  /\ forall y, In y (x :: r) -> y <= fold_left qmax r x.
Proof.
  revert x. induction r as [|z r IH]; intro x; simpl.
  - split; [auto|]. intros y [<-|[]]. apply Qle_refl.
  - destruct (IH (qmax x z)) as [Hin Hle]. split.
    + destruct Hin as [H|H]; [|simpl; auto].
      destruct (qmax_casos x z) as [[E _]|[E _]]; rewrite E in *; simpl; auto.
    + intros y Hy.
      assert (Hq : x <= qmax x z /\ z <= qmax x z).
      { destruct (qmax_casos x z) as [[E L]|[E L]]; rewrite E;
          split; (apply Qle_refl || exact L). }
      destruct Hy as [<-|[<-|Hy]].
      * eapply Qle_trans; [apply Hq|]. apply Hle. left. reflexivity.
      * eapply Qle_trans; [apply Hq|]. apply Hle. left. reflexivity.
      * apply Hle. right. exact Hy.
Qed.

Lemma fold_qmin (r : list Q) (x : Q) :
  In (fold_left qmin r x) (x :: r)
  /\ forall y, In y (x :: r) -> fold_left qmin r x <= y.
Proof.
  revert x. induction r as [|z r IH]; intro x; simpl.
  - split; [auto|]. intros y [<-|[]]. apply Qle_refl.
  - destruct (IH (qmin x z)) as [Hin Hle]. split.
    + destruct Hin as [H|H]; [|simpl; auto].
      destruct (qmin_casos x z) as [[E _]|[E _]]; rewrite E in *; simpl; auto.
    + intros y Hy.
      assert (Hq : qmin x z <= x /\ qmin x z <= z).
      { destruct (qmin_casos x z) as [[E L]|[E L]]; rewrite E;
          split; (apply Qle_refl || exact L). }
      destruct Hy as [<-|[<-|Hy]].
      * eapply Qle_trans; [|apply Hq]. apply Hle. left. reflexivity.
      * eapply Qle_trans; [|apply Hq]. apply Hle. left. reflexivity.
      * apply Hle. right. exact Hy.
Qed.

Section Leitura.
Variable raiz : Q -> Q.

(** X2.  The query reads no [Ativo] flag: deactivating (or
    reactivating) instruments and segments changes neither the result
    set, nor the metrics, nor the opportunities of a segment. *)
Theorem desativar_nao_altera_analise
        (a : bool) (b : Banco) (agora : Timestamp) (id dias : Z) :
  obter_dados_segmento (com_ativos a b) agora id dias
  = obter_dados_segmento b agora id dias
  /\ calcular_metricas_segmento raiz (com_ativos a b) agora id
     = calcular_metricas_segmento raiz b agora id
  /\ gerar_oportunidades raiz (com_ativos a b) agora id
     = gerar_oportunidades raiz b agora id.
Proof.
  split; [apply obter_dados_segmento_com_ativos|].
  unfold gerar_oportunidades, calcular_metricas_segmento.
  rewrite !obter_dados_segmento_com_ativos. split; reflexivity.
Qed.

(** X3.  When a segment has metrics, its minimum and maximum price are
    closes of rows of its result set (a null close counting as 0) and
    every close lies between them; a row with a null close therefore
    brings the minimum price down to 0 or below. *)
Theorem precos_extremos (b : Banco) (agora : Timestamp) (id : Z) :
  match calcular_metricas_segmento raiz b agora id with
  | None => obter_dados_segmento b agora id 365 = []
  | Some m =>
      exists lo hi,
        PrecoMinimo m = Fin lo /\ PrecoMaximo m = Fin hi
        /\ (exists l, In l (obter_dados_segmento b agora id 365)
                      /\ fechamento_de (row3_Fechamento l) = lo)
        /\ (exists l, In l (obter_dados_segmento b agora id 365)
                      /\ fechamento_de (row3_Fechamento l) = hi)
        /\ (forall l, In l (obter_dados_segmento b agora id 365) ->
                      lo <= fechamento_de (row3_Fechamento l)
                      /\ fechamento_de (row3_Fechamento l) <= hi)
        /\ (forall l, In l (obter_dados_segmento b agora id 365) ->
                      row3_Fechamento l = None -> lo <= 0)
  end.
Proof.
  unfold calcular_metricas_segmento.
  destruct (obter_dados_segmento b agora id 365) as [|l0 dados] eqn:E;
    [reflexivity|].
  rewrite MetricsFacts.metricas_de_dados_Some by discriminate.
  cbn [PrecoMinimo PrecoMaximo]. rewrite map_map.
  set (f := fun l => df_Fechamento (linha_df l)).
  assert (Hf : forall l, f l = fechamento_de (row3_Fechamento l)) by reflexivity.
  cbn [map max min].
  destruct (fold_qmax (map f dados) (f l0)) as [Imax Lmax].
  destruct (fold_qmin (map f dados) (f l0)) as [Imin Lmin].
  change (f l0 :: map f dados) with (map f (l0 :: dados)) in *.
  eexists _, _. split; [reflexivity|]. split; [reflexivity|].
  apply in_map_iff in Imax, Imin.
  destruct Imax as [lx [Ex Hx]]. destruct Imin as [ln [En Hn]].
  split; [exists ln; auto|]. split; [exists lx; auto|].
  assert (B : forall l, In l (l0 :: dados) ->
                        fold_left qmin (map f dados) (f l0)
                        <= fechamento_de (row3_Fechamento l)
                        /\ fechamento_de (row3_Fechamento l)
                           <= fold_left qmax (map f dados) (f l0)).
  { intros l Hl. rewrite <- Hf. split; [apply Lmin | apply Lmax];
      apply in_map; exact Hl. }
  split; [exact B|].
  intros l Hl N. destruct (B l Hl) as [H _]. rewrite N in H. exact H.
Qed.

(** *** Ranges of the signal *)

Lemma compra_acima_de_3 (r : pyfloat) :
  (r >? Fin 2)%pf = true -> (r * Fin (15 # 10) >? Fin 3)%pf = true.
Proof.
  unfold pf_gtb. destruct r as [q| | |]; simpl; try discriminate; auto.
  intro H. change ((Fin 2 <? Fin q)%pf = true) in H. apply pf_ltb_Fin in H.
  change ((Fin 3 <? Fin (q * (15 # 10)))%pf = true). apply pf_ltb_Fin. lra.
Qed.

Lemma venda_acima_de_0_8 (r : pyfloat) :
  (r <? Fin (-1))%pf = true ->
  (pf_abs r * Fin (8 # 10) >? Fin (8 # 10))%pf = true.
Proof.
  unfold pf_gtb. destruct r as [q| | |]; simpl; try discriminate; auto.
  intro H. change ((Fin q <? Fin (-1))%pf = true) in H. apply pf_ltb_Fin in H.
  change ((Fin (8 # 10) <? Fin (Qabs q * (8 # 10)))%pf = true). apply pf_ltb_Fin.
  assert (A : Qabs q == - q) by (apply Qabs_neg; lra).
  rewrite A. lra.
Qed.

Lemma hold_entre_limites (r : pyfloat) :
  (r >? Fin 2)%pf = false -> (r <? Fin (-1))%pf = false ->
  r = NaN \/ ((Fin (-1) <=? r)%pf = true /\ (r <=? Fin 2)%pf = true).
Proof.
  unfold pf_gtb. intros H1 H2.
  apply pf_ltb_false_leb in H2. destruct H2 as [H2|H2]; [|auto].
  right. split; [exact H2|].
  destruct r as [q| | |]; simpl in *; try discriminate.
  change ((Fin 2 <? Fin q)%pf = false) in H1. apply pf_ltb_false_Fin in H1.
  change ((Fin q <=? Fin 2)%pf = true). apply pf_leb_Fin. exact H1.
Qed.

(** X4.  In every record that [gerar_oportunidades] produces, a COMPRA
    carries a potential return above 3 and a VENDA a potential return
    above 0.8, positive although the mean return is negative; a HOLD
    carries the mean return itself, between -1 and 2 or undefined; the
    confidence is one of 0.55, 0.70 and 0.85, hence within [0, 1]. *)
Theorem gerar_oportunidades_intervalos (b : Banco) (agora : Timestamp) (id : Z) :
  Forall
    (fun o =>
       (tipo o = COMPRA -> (potencial_retorno o >? Fin 3)%pf = true)
       /\ (tipo o = VENDA -> (potencial_retorno o >? Fin (8 # 10))%pf = true)
       /\ (tipo o = HOLD ->
           potencial_retorno o = NaN
           \/ ((Fin (-1) <=? potencial_retorno o)%pf = true
               /\ (potencial_retorno o <=? Fin 2)%pf = true))
       /\ (confianca o = Fin (55 # 100) \/ confianca o = Fin (70 # 100)
           \/ confianca o = Fin (85 # 100))
       /\ (Fin 0 <=? confianca o)%pf = true
       /\ (confianca o <=? Fin 1)%pf = true)
    (gerar_oportunidades raiz b agora id).
Proof.
  unfold gerar_oportunidades.
  destruct (calcular_metricas_segmento raiz b agora id) as [m|]; [|constructor].
  destruct (SignalFacts.oportunidades_de_Some id m)
    as (o & E & _ & _ & Hc & Hv & Hh & Hp & _ & _ & _ & Hk).
  rewrite E. constructor; [|constructor].
  split.
  { intro T. rewrite Hp, T. apply compra_acima_de_3, Hc, T. }
  split.
  { intro T. rewrite Hp, T. apply venda_acima_de_0_8, Hv, T. }
  split.
  { intro T. rewrite Hp, T. destruct (proj1 Hh T) as [H1 H2].
    apply hold_entre_limites; assumption. }
  rewrite Hk. destruct (nivel_risco o); repeat split; auto.
Qed.

End Leitura.

(** *** Routes *)

Import Rotas Esperado.

Lemma filter_app_um {A} (f : A -> bool) (l : list A) (x : A) :
  filter f (l ++ [x]) = filter f l ++ (if f x then [x] else []).
Proof. rewrite filter_app. reflexivity. Qed.

(** The entry of a ticker after one more row. *)
Lemma entrada_agrupa_linha (row : Linha) (d : list (string * Serie)) (t : string) :
  entrada t (agrupa_linha row d)
  = if String.eqb (row0_Ticker row) t then
      Some (match entrada t d with
            | Some s => mkSerie (datas s ++ [row2_DataQuotacao row])
                                (precos s ++ [fechamento_de (row3_Fechamento row)])
            | None => mkSerie [row2_DataQuotacao row]
                              [fechamento_de (row3_Fechamento row)]
            end)
    else entrada t d.
Proof.
  unfold entrada. induction d as [|[k s] r IH]; cbn [agrupa_linha].
  - cbn [find fst]. destruct (String.eqb (row0_Ticker row) t); reflexivity.
  - destruct (String.eqb k (row0_Ticker row)) eqn:E1.
    + apply String.eqb_eq in E1. subst k. cbn [find fst].
      destruct (String.eqb (row0_Ticker row) t); reflexivity.
    + cbn [find fst]. destruct (String.eqb k t) eqn:E2; [|exact IH].
      apply String.eqb_eq in E2. subst k.
      rewrite String.eqb_sym, E1. reflexivity.
Qed.

Lemma serie_de_app_um (t : string) (pre : list Linha) (row : Linha) :
  serie_de t (pre ++ [row])
  = if String.eqb (row0_Ticker row) t then
      Some (match serie_de t pre with
            | Some s => mkSerie (datas s ++ [row2_DataQuotacao row])
                                (precos s ++ [fechamento_de (row3_Fechamento row)])
            | None => mkSerie [row2_DataQuotacao row]
                              [fechamento_de (row3_Fechamento row)]
            end)
    else serie_de t pre.
Proof.
  unfold serie_de. rewrite filter_app_um.
  destruct (String.eqb (row0_Ticker row) t).
  - destruct (filter _ pre) as [|l0 ls]; [reflexivity|].
    cbn [app map datas precos]. rewrite !map_app. reflexivity.
  - rewrite app_nil_r. reflexivity.
Qed.

Lemma chaves_agrupa_linha (row : Linha) (d : list (string * Serie)) :
  NoDup (map fst d) -> NoDup (map fst (agrupa_linha row d)).
Proof.
  intro N.
  assert (K : map fst (agrupa_linha row d) = map fst d
              \/ (~ In (row0_Ticker row) (map fst d)
                  /\ map fst (agrupa_linha row d) = map fst d ++ [row0_Ticker row])).
  { clear N. induction d as [|[k s] r IH]; cbn [agrupa_linha].
    - right. split; [intros []|reflexivity].
    - destruct (String.eqb k (row0_Ticker row)) eqn:E; [left; reflexivity|].
      apply String.eqb_neq in E. cbn [map fst].
      destruct IH as [IH|[IH1 IH2]].
      + left. rewrite IH. reflexivity.
      + right. split; [|rewrite IH2; reflexivity].
        intros [H|H]; [exact (E H)|exact (IH1 H)]. }
  destruct K as [->|[Hn ->]]; [exact N|].
  apply NoDup_rev in N. rewrite <- (rev_involutive (_ ++ _)).
  apply NoDup_rev. rewrite rev_app_distr. simpl. constructor; [|exact N].
  rewrite <- in_rev. exact Hn.
Qed.

Lemma dados_agrupados_inv (resto pre : list Linha) (d : list (string * Serie)) :
  NoDup (map fst d) ->
  (forall t, entrada t d = serie_de t pre) ->
  NoDup (map fst (fold_left (fun d row => agrupa_linha row d) resto d))
  /\ forall t, entrada t (fold_left (fun d row => agrupa_linha row d) resto d)
               = serie_de t (pre ++ resto).
Proof.
  revert pre d. induction resto as [|row resto IH]; intros pre d N H.
  - rewrite app_nil_r. auto.
  - cbn [fold_left].
    replace (pre ++ row :: resto) with ((pre ++ [row]) ++ resto)
      by (rewrite <- app_assoc; reflexivity).
    apply IH; [apply chaves_agrupa_linha, N|].
    intro t. rewrite entrada_agrupa_linha, serie_de_app_um, H. reflexivity.
Qed.

(** [obter_dados_segmento] with its two errors. *)
Lemma consulta_dados_segmento_casos (agora : Timestamp) (id dias : Z) (m : Mundo) :
  exists r m',
    consulta_dados_segmento agora id dias m = (r, m')
    /\ banco m' = banco m
    /\ ((janela_valida agora dias = false
         /\ r = Levanta OverflowError /\ m' = m)
        \/ (janela_valida agora dias = true
            /\ r = Levanta OperationalError /\ falhas m <> [])
        \/ (janela_valida agora dias = true
            /\ r = Retorna (obter_dados_segmento (banco m) agora id dias))).
Proof.
  unfold consulta_dados_segmento, data_inicio, executa, eleva.
  destruct (janela_valida agora dias).
  2:{ exists (Levanta OverflowError), m. split; [reflexivity|]. auto. }
  unfold bind at 1.
  destruct (ida_ao_banco_casos m) as (r1 & m1 & E1 & [->| ->] & B1 & _).
  - eexists _, _. split; [rewrite (bind_Retorna _ _ E1); reflexivity|].
    split; [exact B1|]. right. right. rewrite B1. auto.
  - eexists _, _. split; [apply (bind_Levanta _ _ E1)|].
    split; [exact B1|]. right. left. split; [reflexivity|].
    split; [reflexivity|].
    intro F. rewrite (ida_ao_banco_sem_falhas m F) in E1. discriminate.
Qed.

(** X1.  [obter_dados_segmento] raises [OverflowError], before it
    reaches the store, exactly when the start of the window is not a
    date of the calendar (more than 999999999 days, or a start before
    year 1 or after year 9999).  Otherwise it raises only when the store
    fails, and the rows that it returns are exactly the bars of the
    instruments linked to the segment that are dated after [agora -
    dias], each with the ticker and the description of its instrument; a
    bar dated exactly [dias] days before today is left out unless
    [agora] is midnight. *)
Theorem obter_dados_segmento_linhas
        (agora : Timestamp) (id dias : Z) (m : Mundo) :
  exists r m',
    consulta_dados_segmento agora id dias m = (r, m')
    /\ banco m' = banco m
    /\ (r = Levanta OverflowError
        <-> ~ ((Z.abs dias <= 999999999)%Z
               /\ (1 <= ts_dia agora - dias <= 3652059)%Z))
    /\ (r = Levanta OverflowError -> m' = m)
    /\ (forall e, r = Levanta e -> e = OverflowError \/ e = OperationalError)
    /\ (falhas m = [] -> r <> Levanta OperationalError)
    /\ (forall rows,
           r = Retorna rows ->
           forall l,
             In l rows
             <-> exists hp i seg,
                 In hp (tab_HistoricoPrecos (banco m))
                 /\ In i (tab_Indices (banco m))
                 /\ In seg (tab_IndicesSegmentos (banco m))
                 /\ hp_IdIndice hp = IdIndice i
                 /\ IdIndice i = is_IdIndice seg
                 /\ is_IdSegmento seg = id
                 /\ ((ts_dia agora - dias < DataQuotacao hp)%Z
                     \/ (ts_dia agora - dias = DataQuotacao hp
                         /\ ts_seg agora <= 0)%Z)
                 /\ l = mkLinha (Ticker i) (Descricao i) (DataQuotacao hp)
                                (Fechamento hp) (FechamentoAjustado hp)
                                (Volume hp) (Alta hp) (Baixa hp)).
Proof.
  assert (J : janela_valida agora dias = true
              <-> ((Z.abs dias <= 999999999)%Z
                   /\ (1 <= ts_dia agora - dias <= 3652059)%Z)).
  { unfold janela_valida. rewrite !andb_true_iff, !Z.leb_le. tauto. }
  destruct (consulta_dados_segmento_casos agora id dias m)
    as (r & m' & E & B & [(V & -> & ->)|[(V & -> & F)|(V & ->)]]);
    eexists _, _; (split; [exact E|]); (split; [exact B|]).
  - split.
    { split; [intros _ H; apply J in H; congruence | reflexivity]. }
    split; [reflexivity|]. split; [intros e H; injection H as <-; auto|].
    split; [discriminate|]. discriminate.
  - split.
    { split; [discriminate | intro H; exfalso; apply H, J, V]. }
    split; [discriminate|]. split; [intros e H; injection H as <-; auto|].
    split; [intros F' _; exact (F F')|]. discriminate.
  - split.
    { split; [discriminate | intro H; exfalso; apply H, J, V]. }
    split; [discriminate|]. split; [discriminate|]. split; [discriminate|].
    intros rows H. injection H as <-. intro l. apply obter_dados_segmento_In.
Qed.

(** X5.  [api_grafico_segmento] never raises and does not write.  It
    answers 500 when the number of days of the request puts the start of
    the window outside the calendar, whatever the state of the store,
    and when its query fails; otherwise it answers one entry for each
    ticker of the result set, holding the dates and the closes of the
    rows of that ticker in the order of the result set, a null close
    appearing as 0. *)
Theorem api_grafico_segmento_series
        (agora : Timestamp) (id dias : Z) (m : Mundo) :
  exists r m',
    api_grafico_segmento agora id dias m = (Retorna r, m')
    /\ banco m' = banco m
    /\ (r = R500 OverflowError
        <-> ~ ((Z.abs dias <= 999999999)%Z
               /\ (1 <= ts_dia agora - dias <= 3652059)%Z))
    /\ (r = R500 OverflowError
        \/ r = R500 OperationalError
        \/ exists d,
          r = R200 d
          /\ NoDup (map fst d)
          /\ forall t,
              entrada t d
              = serie_de t (obter_dados_segmento (banco m) agora id dias))
    /\ (falhas m = [] -> r <> R500 OperationalError).
Proof.
  assert (J : janela_valida agora dias = true
              <-> ((Z.abs dias <= 999999999)%Z
                   /\ (1 <= ts_dia agora - dias <= 3652059)%Z)).
  { unfold janela_valida. rewrite !andb_true_iff, !Z.leb_le. tauto. }
  unfold api_grafico_segmento.
  destruct (consulta_dados_segmento_casos agora id dias m)
    as (r & m' & E & B & [(V & -> & ->)|[(V & -> & F)|(V & ->)]]).
  - eexists _, _. split.
    { rewrite (tenta_Levanta _ _ (bind_Levanta _ _ E)). reflexivity. }
    split; [reflexivity|]. split.
    { split; [intros _ H; apply J in H; congruence | reflexivity]. }
    split; [left; reflexivity | discriminate].
  - eexists _, _. split.
    { rewrite (tenta_Levanta _ _ (bind_Levanta _ _ E)). reflexivity. }
    split; [exact B|]. split.
    { split; [discriminate | intro H; exfalso; apply H, J, V]. }
    split; [right; left; reflexivity|]. intros F' _. exact (F F').
  - eexists _, _. split.
    { apply tenta_Retorna. rewrite (bind_Retorna _ _ E). reflexivity. }
    split; [exact B|]. split.
    { split; [discriminate | intro H; exfalso; apply H, J, V]. }
    split; [|discriminate].
    right. right. eexists. split; [reflexivity|].
    apply (dados_agrupados_inv _ [] []); [constructor|reflexivity].
Qed.

(** X5, instance: a working store and a request for 800000 days. *)
Example api_grafico_segmento_fora_do_calendario :
  api_grafico_segmento Exemplos.agora 1 800000
                       (Exemplos.mundo Exemplos.banco_tres_barras)
  = (Retorna (R500 OverflowError), Exemplos.mundo Exemplos.banco_tres_barras)
  /\ exists d,
      api_grafico_segmento Exemplos.agora 1 90
                           (Exemplos.mundo Exemplos.banco_tres_barras)
      = (Retorna (R200 d), Exemplos.mundo Exemplos.banco_tres_barras).
Proof. split; [reflexivity|]. eexists. reflexivity. Qed.

Section Painel.
Variable raiz : Q -> Q.

(** The loop of the dashboard reads the committed store at each turn and
    stops at the first failing round trip. *)
Lemma dados_dashboard_casos (agora : Timestamp)
      (segmentos : list SegmentosInvestimento) (m : Mundo) :
  exists r m',
    dados_dashboard raiz agora segmentos m = (r, m')
    /\ banco m' = banco m
    /\ (r = Retorna (painel raiz (banco m) agora segmentos)
        \/ r = Levanta OperationalError)
    /\ (falhas m = [] ->
        r = Retorna (painel raiz (banco m) agora segmentos) /\ falhas m' = []).
Proof.
  revert m. induction segmentos as [|seg resto IH]; intro m.
  - exists (Retorna []), m. cbn. auto.
  - cbn [dados_dashboard]. unfold executa.
    destruct (ida_ao_banco_casos m) as (r1 & m1 & E1 & [->| ->] & B1 & _).
    2:{ eexists _, _. split; [apply (bind_Levanta _ _ E1)|].
        split; [exact B1|]. split; [right; reflexivity|].
        intro F. rewrite (ida_ao_banco_sem_falhas m F) in E1. discriminate. }
    rewrite (bind_Retorna _ _ E1). unfold bind at 1.
    destruct (IH m1) as (r2 & m2 & E2 & B2 & C2 & F2).
    unfold bind at 1. rewrite E2.
    assert (F1 : falhas m = [] -> falhas m1 = []).
    { intro F. rewrite (ida_ao_banco_sem_falhas m F) in E1. congruence. }
    destruct C2 as [->| ->].
    + assert (Hp : forall l,
                 l = match calcular_metricas_segmento raiz (banco m1) agora
                                                      (IdSegmento seg) with
                     | Some mt => (Nome seg, mt) :: painel raiz (banco m1) agora resto
                     | None => painel raiz (banco m1) agora resto
                     end ->
                 Retorna l = Retorna (painel raiz (banco m) agora (seg :: resto))).
      { intros l ->. unfold painel. cbn [flat_map]. rewrite <- B1.
        destruct (calcular_metricas_segmento raiz (banco m1) agora (IdSegmento seg));
          reflexivity. }
      destruct (calcular_metricas_segmento raiz (banco m1) agora (IdSegmento seg))
        as [mt|] eqn:C;
        (eexists _, _; split; [reflexivity|]; split; [congruence|];
         split; [left; apply Hp; reflexivity|];
         intro F; destruct (F2 (F1 F)) as [_ F3];
         split; [apply Hp; reflexivity | exact F3]).
    + eexists _, _. split; [reflexivity|]. split; [congruence|].
      split; [right; reflexivity|].
      intro F. destruct (F2 (F1 F)) as [C _]. discriminate.
Qed.

(** X6.  [dashboard] never raises and does not write.  It answers 500
    when one of its queries fails, and otherwise the list, in the order
    of the table, of the active segments whose result set over the last
    365 days is not empty, each with its metrics; an inactive segment and
    a segment without rows are not listed. *)
Theorem dashboard_segmentos_ativos (agora : Timestamp) (m : Mundo) :
  exists r m',
    dashboard raiz agora m = (Retorna r, m')
    /\ banco m' = banco m
    /\ (r = R500 OperationalError
        \/ r = R200 (painel raiz (banco m) agora
                            (filter seg_Ativo (tab_SegmentosInvestimento (banco m)))))
    /\ (falhas m = [] -> r <> R500 OperationalError)
    /\ forall nome mt,
        In (nome, mt)
           (painel raiz (banco m) agora
                   (filter seg_Ativo (tab_SegmentosInvestimento (banco m))))
        <-> exists seg,
            In seg (tab_SegmentosInvestimento (banco m))
            /\ seg_Ativo seg = true /\ Nome seg = nome
            /\ obter_dados_segmento (banco m) agora (IdSegmento seg) 365 <> []
            /\ calcular_metricas_segmento raiz (banco m) agora (IdSegmento seg)
               = Some mt.
Proof.
  assert (P : forall nome mt,
             In (nome, mt)
                (painel raiz (banco m) agora
                        (filter seg_Ativo (tab_SegmentosInvestimento (banco m))))
             <-> exists seg,
                 In seg (tab_SegmentosInvestimento (banco m))
                 /\ seg_Ativo seg = true /\ Nome seg = nome
                 /\ obter_dados_segmento (banco m) agora (IdSegmento seg) 365 <> []
                 /\ calcular_metricas_segmento raiz (banco m) agora (IdSegmento seg)
                    = Some mt).
  { intros nome mt. unfold painel. rewrite in_flat_map. split.
    - intros [seg [Hs H]]. apply filter_In in Hs. destruct Hs as [Hs Ha].
      destruct (calcular_metricas_segmento raiz (banco m) agora (IdSegmento seg))
        as [mt'|] eqn:C; [|destruct H].
      destruct H as [H|[]]. injection H as <- <-.
      exists seg. repeat split; auto.
      intro E. unfold calcular_metricas_segmento in C. rewrite E in C. discriminate.
    - intros (seg & Hs & Ha & <- & _ & C). exists seg.
      split; [apply filter_In; auto|]. rewrite C. left. reflexivity. }
  unfold dashboard, executa.
  destruct (ida_ao_banco_casos m) as (r1 & m1 & E1 & [->| ->] & B1 & _).
  2:{ eexists _, _. split.
      { rewrite (tenta_Levanta _ _ (bind_Levanta _ _ E1)). reflexivity. }
      split; [exact B1|]. split; [left; reflexivity|]. split; [|exact P].
      intro F. rewrite (ida_ao_banco_sem_falhas m F) in E1. discriminate. }
  assert (F1 : falhas m = [] -> falhas m1 = []).
  { intro F. rewrite (ida_ao_banco_sem_falhas m F) in E1. congruence. }
  destruct (dados_dashboard_casos agora
              (filter seg_Ativo (tab_SegmentosInvestimento (banco m1))) m1)
    as (r2 & m2 & E2 & B2 & C2 & F2).
  destruct C2 as [->| ->].
  - eexists _, _. split.
    { apply tenta_Retorna. rewrite (bind_Retorna _ _ E1). unfold bind at 1.
      unfold bind at 1. rewrite E2. reflexivity. }
    split; [congruence|]. rewrite <- B1.
    split; [right; reflexivity|]. split; [discriminate|]. rewrite B1. exact P.
  - eexists _, _. split.
    { erewrite tenta_Levanta; [reflexivity|].
      rewrite (bind_Retorna _ _ E1). unfold bind at 1.
      unfold bind at 1. rewrite E2. reflexivity. }
    split; [cbn; congruence|]. split; [left; reflexivity|]. split; [|exact P].
    intro F. destruct (F2 (F1 F)) as [C _]. discriminate.
Qed.

End Painel.

End LeituraFacts.

(* ================================================================= *)
(** * Collector: instruments, bars and the provider *)

Module ColetaFacts.
Import Collector StoreFacts CollectorFacts.

(** X7.  In any run, [salvar_historico_precos] only appends bars to the
    table: no stored bar is changed or removed and the other tables are
    kept.  When it returns, the inserted counter that it reports is the
    number of bars that it added; when it raises, it added none. *)
Theorem salvar_historico_precos_acrescenta
        (id : Z) (ticker : string) (df : DataFrame) (m : Mundo) :
  exists r m' novos,
    salvar_historico_precos id ticker df m = (r, m')
    /\ banco m' = com_HistoricoPrecos (banco m)
                                      (tab_HistoricoPrecos (banco m) ++ novos)
    /\ (forall i d, r = Retorna (i, d) -> List.length novos = i)
    /\ (forall e, r = Levanta e -> novos = []).
Proof.
  destruct (salvar_inv
              (fun st => exists novos,
                   tx st = com_HistoricoPrecos (banco m)
                             (tab_HistoricoPrecos (banco m) ++ novos)
                   /\ List.length novos = registros_inseridos st)
              id ticker df m)
    as (r & m' & E & [(st' & [novos [T L]] & B & R)|(B & R & _)]).
  - intros st row _ [novos [T L]]. unfold passo.
    destruct (presente (tx st) id row); [exists novos; auto|].
    destruct (linha_convertida id row) as [h|e]; [|exists novos; auto].
    exists (novos ++ [h]). cbn [tx registros_inseridos]. rewrite T. split.
    + unfold com_HistoricoPrecos. cbn. rewrite <- app_assoc. reflexivity.
    + rewrite length_app. simpl. lia.
  - exists []. split; [symmetry; apply com_HistoricoPrecos_mesmo | reflexivity].
  - exists r, m', novos. split; [exact E|]. split; [congruence|].
    split; [|intros e H; congruence].
    intros i d H. rewrite R in H. injection H as <- _. exact L.
  - exists r, m', []. split; [exact E|].
    split; [rewrite B; symmetry; apply com_HistoricoPrecos_mesmo|].
    split; [intros i d H; congruence | reflexivity].
Qed.

(** *** [adicionar_indice] in any run *)

Lemma adicionar_indice_casos (ticker descricao pais : string) (m : Mundo) :
  exists r m',
    adicionar_indice ticker descricao pais m = (r, m')
    /\ ((r = Levanta OperationalError /\ banco m' = banco m)
        \/ (exists i,
               find (fun i => String.eqb (Ticker i) ticker) (tab_Indices (banco m))
               = Some i
               /\ r = Retorna (IdIndice i) /\ banco m' = banco m)
        \/ (find (fun i => String.eqb (Ticker i) ticker) (tab_Indices (banco m))
            = None
            /\ (r = Retorna (prox_IdIndice (banco m))
                \/ r = Levanta OperationalError)
            /\ banco m'
               = mkBanco (tab_Indices (banco m)
                            ++ [mkIndices (prox_IdIndice (banco m)) ticker
                                          descricao pais true])
                         (tab_HistoricoPrecos (banco m))
                         (tab_SegmentosInvestimento (banco m))
                         (tab_IndicesSegmentos (banco m))
                         (prox_IdIndice (banco m) + 1)%Z)).
Proof.
  destruct m as [b f l]. cbn [banco].
  unfold adicionar_indice, tenta, conecta, executa, commit, fetchone, bind,
    ida_ao_banco, registra, levanta, ret.
  cbn [falhas banco log].
  destruct (find (fun i => String.eqb (Ticker i) ticker) (tab_Indices b))
    as [i0|] eqn:F.
  - destruct f as [|[|] [|[|] f]]; cbn [falhas banco log];
      try rewrite F; cbn [falhas banco log];
      eexists _, _; (split; [reflexivity|]); cbn [banco];
      first [ left; split; reflexivity
            | right; left; exists i0; repeat split ].
  - destruct f as [|[|] [|[|] [|[|] [|[|] [|[|] f]]]]]; cbn [falhas banco log];
      try rewrite F; cbn [falhas banco log];
      eexists _, _; (split; [reflexivity|]); cbn [banco];
      first [ left; split; reflexivity
            | right; right; split; [reflexivity|];
              split; [left; reflexivity | reflexivity]
            | right; right; split; [reflexivity|];
              split; [right; reflexivity | reflexivity] ].
Qed.

Lemma NoDup_snoc {A} (l : list A) (a : A) :
  NoDup l -> ~ In a l -> NoDup (l ++ [a]).
Proof.
  intros N H. apply (Permutation_NoDup (Permutation_cons_append l a)).
  constructor; assumption.
Qed.

Lemma find_ticker_None (l : list Indices) (ticker : string) :
  find (fun i => String.eqb (Ticker i) ticker) l = None ->
  ~ In ticker (map Ticker l).
Proof.
  intros F H. apply in_map_iff in H. destruct H as (i & E & Hin).
  pose proof (find_none _ _ F i Hin) as N. simpl in N.
  apply String.eqb_neq in N. congruence.
Qed.

(** X8.  The constraints of [Indices] (unique tickers, unique ids below
    the next identity value) are kept by [adicionar_indice] in any run,
    whichever round trips fail.  No record is removed and a returned id
    is the id of a stored record of the ticker.  A raise does not mean
    that nothing was written: the store is the one of the start, or the
    record of the ticker is committed and it is the reading of its id,
    after the commit, that failed. *)
Theorem adicionar_indice_coerente
        (ticker descricao pais : string) (m : Mundo) :
  indices_coerentes (banco m) ->
  exists r m',
    adicionar_indice ticker descricao pais m = (r, m')
    /\ indices_coerentes (banco m')
    /\ (forall i, In i (tab_Indices (banco m)) -> In i (tab_Indices (banco m')))
    /\ (forall id, r = Retorna id ->
        exists i, In i (tab_Indices (banco m'))
                  /\ Ticker i = ticker /\ IdIndice i = id)
    /\ (forall e, r = Levanta e ->
        banco m' = banco m
        \/ (indice_do_ticker (banco m) ticker = None
            /\ banco m'
               = mkBanco (tab_Indices (banco m)
                            ++ [mkIndices (prox_IdIndice (banco m)) ticker
                                          descricao pais true])
                         (tab_HistoricoPrecos (banco m))
                         (tab_SegmentosInvestimento (banco m))
                         (tab_IndicesSegmentos (banco m))
                         (prox_IdIndice (banco m) + 1)%Z)).
Proof.
  intros (NT & NI & Lt).
  destruct (adicionar_indice_casos ticker descricao pais m)
    as (r & m' & E & [(R & B)|[(i0 & F & R & B)|(F & R & B)]]);
    exists r, m'; (split; [exact E|]).
  - rewrite B. split; [repeat split; assumption|]. split; [auto|].
    split; [intros id H; congruence | auto].
  - rewrite B. split; [repeat split; assumption|]. split; [auto|].
    split; [|intros e H; congruence].
    intros id H. rewrite R in H. injection H as <-.
    apply find_some in F. destruct F as [Hin He].
    apply String.eqb_eq in He. exists i0. auto.
  - rewrite B. unfold indices_coerentes. cbn [tab_Indices prox_IdIndice].
    split; [|split; [|split]].
    + split; [|split].
      * rewrite map_app. apply NoDup_snoc; [exact NT|].
        apply find_ticker_None, F.
      * rewrite map_app. apply NoDup_snoc; [exact NI|].
        intro H. apply in_map_iff in H. destruct H as (i & Ei & Hin).
        specialize (Lt i Hin). simpl in Ei. lia.
      * intros i Hin. apply in_app_or in Hin. destruct Hin as [Hin|[<-|[]]].
        -- specialize (Lt i Hin). lia.
        -- simpl. lia.
    + intros i Hin. apply in_or_app. left. exact Hin.
    + intros id H. destruct R as [R|R]; rewrite R in H; [|discriminate].
      injection H as <-.
      eexists. split; [apply in_or_app; right; left; reflexivity|].
      split; reflexivity.
    + intros e H. right. split; [exact F|reflexivity].
Qed.

(** X8, instance: the store with the instrument AAA; the record of BBB
    is committed and the reading of its id fails: the call raises and
    the record is stored. *)
Lemma adicionar_indice_coerente_exemplo :
  adicionar_indice "BBB" "B" "Brasil"
                   (mkMundo (Exemplos.banco_AAA [])
                            [false; false; false; false; true] [])
  = (Levanta OperationalError,
     mkMundo (mkBanco [mkIndices 1 "AAA" "Indice AAA" "Brasil" true;
                       mkIndices 2 "BBB" "B" "Brasil" true]
                      []
                      (tab_SegmentosInvestimento (Exemplos.banco_AAA []))
                      (tab_IndicesSegmentos (Exemplos.banco_AAA []))
                      3)
             [] [ErroAdicionarIndice "BBB" OperationalError])
  /\ exists r m',
    adicionar_indice "BBB" "B" "Brasil"
                     (mkMundo (Exemplos.banco_AAA [])
                              [false; false; false; false; true] [])
    = (r, m')
    /\ indices_coerentes (banco m')
    /\ (forall i, In i (tab_Indices (Exemplos.banco_AAA []))
                  -> In i (tab_Indices (banco m')))
    /\ (forall id, r = Retorna id ->
        exists i, In i (tab_Indices (banco m'))
                  /\ Ticker i = "BBB"%string /\ IdIndice i = id)
    /\ (forall e, r = Levanta e ->
        banco m' = Exemplos.banco_AAA []
        \/ (indice_do_ticker (Exemplos.banco_AAA []) "BBB" = None
            /\ banco m'
               = mkBanco (tab_Indices (Exemplos.banco_AAA [])
                            ++ [mkIndices (prox_IdIndice (Exemplos.banco_AAA []))
                                          "BBB" "B" "Brasil" true])
                         (tab_HistoricoPrecos (Exemplos.banco_AAA []))
                         (tab_SegmentosInvestimento (Exemplos.banco_AAA []))
                         (tab_IndicesSegmentos (Exemplos.banco_AAA []))
                         (prox_IdIndice (Exemplos.banco_AAA []) + 1)%Z)).
Proof.
  split; [reflexivity|].
  apply (@adicionar_indice_coerente "BBB" "B" "Brasil"
           (mkMundo (Exemplos.banco_AAA [])
                    [false; false; false; false; true] [])).
  cbn. split; [|split].
  - repeat constructor; simpl; intuition discriminate.
  - repeat constructor; simpl; intuition discriminate.
  - intros i [<-|[]]. simpl. lia.
Defined.

(** The frame that [baixar_dados_historicos] returns is the frame kept
    of the answer of the provider; the store is not visited. *)
Lemma baixar_dados_historicos_casos
      (history : string -> string -> Resultado DataFrame)
      (ticker periodo : string) (m : Mundo) :
  exists m',
    baixar_dados_historicos history ticker periodo m
    = (Retorna (quadro (history ticker periodo)), m')
    /\ banco m' = banco m /\ falhas m' = falhas m.
Proof.
  unfold baixar_dados_historicos, tenta, bind, eleva, registra, ret.
  destruct (history ticker periodo) as [[|row df]|e]; cbn;
    eexists; repeat split.
Qed.

(** X9.  [baixar_dados_historicos] never raises and never visits the
    store: it returns the frame of the provider, and the empty frame
    when the provider raises. *)
Theorem baixar_dados_historicos_retorna
        (history : string -> string -> Resultado DataFrame)
        (ticker periodo : string) (m : Mundo) :
  exists df m',
    baixar_dados_historicos history ticker periodo m = (Retorna df, m')
    /\ banco m' = banco m
    /\ falhas m' = falhas m
    /\ (forall df0, history ticker periodo = Retorna df0 -> df = df0)
    /\ (forall e, history ticker periodo = Levanta e -> df = []).
Proof.
  destruct (baixar_dados_historicos_casos history ticker periodo m)
    as (m' & E & B & F).
  exists (quadro (history ticker periodo)), m'.
  split; [exact E|]. split; [exact B|]. split; [exact F|].
  split; [intros df0 ->; reflexivity | intros e ->; reflexivity].
Qed.

(** *** A full collection of one instrument, run again *)

Lemma passo_tabelas (id : Z) (st : Laco) (row : LinhaYF) :
  tab_Indices (tx (passo id st row)) = tab_Indices (tx st).
Proof.
  unfold passo. destruct (presente (tx st) id row); [reflexivity|].
  destruct (linha_convertida id row); reflexivity.
Qed.

Lemma laco_tabelas (id : Z) (df : DataFrame) (st : Laco) :
  tab_Indices (tx (laco id df st)) = tab_Indices (tx st).
Proof.
  revert st. induction df as [|row df IH]; intro st; [reflexivity|].
  cbn [laco fold_left]. change (fold_left (passo id) df ?s) with (laco id df s).
  rewrite IH. apply passo_tabelas.
Qed.

Lemma find_snoc {A} (f : A -> bool) (l : list A) (a : A) :
  find f l = None -> f a = true -> find f (l ++ [a]) = Some a.
Proof.
  intros N T. induction l as [|x l IH]; simpl in *.
  - rewrite T. reflexivity.
  - destruct (f x); [discriminate|]. apply IH, N.
Qed.

Lemma adicionar_indice_sem_falhas (ticker descricao pais : string) (m : Mundo) :
  falhas m = [] ->
  exists i m',
    adicionar_indice ticker descricao pais m = (Retorna (IdIndice i), m')
    /\ falhas m' = []
    /\ indice_do_ticker (banco m') ticker = Some i
    /\ (forall i0, indice_do_ticker (banco m) ticker = Some i0 ->
                   i = i0 /\ banco m' = banco m).
Proof.
  intro F. destruct m as [b f l]. simpl in F. subst f. cbn [banco].
  unfold indice_do_ticker, adicionar_indice, tenta, conecta, executa, commit,
    bind, ida_ao_banco, registra, levanta, ret.
  cbn [falhas banco log].
  destruct (find (fun i => String.eqb (Ticker i) ticker) (tab_Indices b))
    as [i0|] eqn:E; cbn [falhas banco log].
  - exists i0. eexists. split; [reflexivity|]. cbn [falhas banco].
    split; [reflexivity|]. split; [exact E|].
    intros i1 H. injection H as <-. auto.
  - eexists (mkIndices _ _ _ _ _). eexists. split; [reflexivity|].
    cbn [falhas banco tab_Indices]. split; [reflexivity|].
    split; [|intros i0 H; discriminate].
    apply find_snoc; [exact E|]. simpl. apply String.eqb_refl.
Qed.

Lemma coletar_indice_completo_sem_falhas
      (history : string -> string -> Resultado DataFrame)
      (ticker descricao pais periodo : string) (m : Mundo) :
  falhas m = [] ->
  exists i m',
    coletar_indice_completo history ticker descricao pais periodo m
    = (Retorna tt, m')
    /\ falhas m' = []
    /\ indice_do_ticker (banco m') ticker = Some i
    /\ (forall row, In row (quadro (history ticker periodo)) ->
                    presente (banco m') (IdIndice i) row = true
                    \/ malformada (IdIndice i) row)
    /\ (forall i0,
           indice_do_ticker (banco m) ticker = Some i0 ->
           (forall row, In row (quadro (history ticker periodo)) ->
                        presente (banco m) (IdIndice i0) row = true
                        \/ malformada (IdIndice i0) row) ->
           banco m' = banco m).
Proof.
  intro F.
  pose (m0 := mkMundo (banco m) (falhas m)
                      (log m ++ [IniciandoColeta ticker descricao])).
  destruct (adicionar_indice_sem_falhas ticker descricao pais m0 F)
    as (i & m1 & A1 & F1 & I1 & S1).
  destruct (baixar_dados_historicos_casos history ticker periodo m1)
    as (m2 & A2 & B2 & F2).
  assert (E0 : registra (IniciandoColeta ticker descricao) m = (Retorna tt, m0))
    by reflexivity.
  unfold coletar_indice_completo.
  destruct (quadro (history ticker periodo)) as [|row0 df0] eqn:Q.
  - exists i. eexists. split.
    { apply tenta_Retorna. rewrite (bind_Retorna _ _ E0).
      rewrite (bind_Retorna _ _ A1). rewrite (bind_Retorna _ _ A2).
      reflexivity. }
    cbn [falhas banco]. rewrite B2, F2. split; [exact F1|].
    split; [exact I1|]. split; [intros row []|].
    intros i0 H _. apply (S1 i0 H).
  - pose proof (@salvar_sem_falhas (IdIndice i) ticker (row0 :: df0) m2
                  (eq_trans F2 F1) ltac:(discriminate)) as A3.
    exists i. eexists. split.
    { apply tenta_Retorna. rewrite (bind_Retorna _ _ E0).
      rewrite (bind_Retorna _ _ A1). rewrite (bind_Retorna _ _ A2).
      cbn [empty negb]. rewrite (bind_Retorna _ _ A3). reflexivity. }
    cbn [falhas banco]. rewrite B2. split; [reflexivity|]. split; [|split].
    + unfold indice_do_ticker in *. rewrite laco_tabelas. exact I1.
    + intros row Hin. apply laco_processadas, Hin.
    + intros i0 H Hp. destruct (S1 i0 H) as [-> Bm]. rewrite Bm.
      change (banco m0) with (banco m).
      destruct (banco m) as [] eqn:Eb.
      rewrite laco_estavel; [reflexivity|].
      exact Hp.
Qed.

(** X10.  A full collection of one instrument, run a second time with the
    same answer of the provider, leaves the store as the first run left
    it, when no round trip to the store fails: the instrument is found
    and every bar of the frame is met as a duplicate or fails again. *)
Theorem coletar_indice_completo_duas_vezes
        (history : string -> string -> Resultado DataFrame)
        (ticker descricao pais periodo : string) (m : Mundo) :
  falhas m = [] ->
  exists m1 m2,
    coletar_indice_completo history ticker descricao pais periodo m
    = (Retorna tt, m1)
    /\ coletar_indice_completo history ticker descricao pais periodo m1
       = (Retorna tt, m2)
    /\ banco m2 = banco m1
    /\ exists i, In i (tab_Indices (banco m1)) /\ Ticker i = ticker.
Proof.
  intro F.
  destruct (coletar_indice_completo_sem_falhas
              history ticker descricao pais periodo m F)
    as (i & m1 & E1 & F1 & I1 & P1 & _).
  destruct (coletar_indice_completo_sem_falhas
              history ticker descricao pais periodo m1 F1)
    as (i' & m2 & E2 & _ & _ & _ & S2).
  exists m1, m2. split; [exact E1|]. split; [exact E2|].
  split; [exact (S2 i I1 P1)|].
  apply find_some in I1. destruct I1 as [Hin He].
  apply String.eqb_eq in He. exists i. auto.
Qed.

(** X10, instance: an empty store and a provider that answers with one
    bar. *)
Lemma coletar_indice_completo_duas_vezes_exemplo :
  exists m1 m2,
    coletar_indice_completo Exemplos.history_uma_barra "AAA" "A" "Brasil" "1y"
      (Exemplos.mundo (mkBanco [] [] [] [] 1))
    = (Retorna tt, m1)
    /\ coletar_indice_completo Exemplos.history_uma_barra "AAA" "A" "Brasil" "1y" m1
       = (Retorna tt, m2)
    /\ banco m2 = banco m1
    /\ exists i, In i (tab_Indices (banco m1)) /\ Ticker i = "AAA"%string.
Proof.
  exact (@coletar_indice_completo_duas_vezes Exemplos.history_uma_barra
           "AAA" "A" "Brasil" "1y" (Exemplos.mundo (mkBanco [] [] [] [] 1))
           eq_refl).
Defined.

End ColetaFacts.

(* ================================================================= *)
(** * Collector: segments, links and the full run *)

Module SegmentosFacts.
Import Collector Segmentos StoreFacts CollectorFacts ColetaFacts.

Section Identidade.
Variable identity_segmento : list SegmentosInvestimento -> Z.

Lemma criar_segmento_casos (nome descricao : string) (m : Mundo) :
  exists r m',
    criar_segmento identity_segmento nome descricao m = (r, m')
    /\ ((r = Levanta OperationalError /\ banco m' = banco m)
        \/ (exists s,
               find (fun s => String.eqb (Nome s) nome)
                    (tab_SegmentosInvestimento (banco m)) = Some s
               /\ r = Retorna (IdSegmento s) /\ banco m' = banco m)
        \/ (find (fun s => String.eqb (Nome s) nome)
                 (tab_SegmentosInvestimento (banco m)) = None
            /\ (r = Retorna (identity_segmento (tab_SegmentosInvestimento (banco m)))
                \/ r = Levanta OperationalError)
            /\ banco m'
               = com_segmentos (banco m)
                   (tab_SegmentosInvestimento (banco m)
                      ++ [mkSegmentosInvestimento
                            (identity_segmento (tab_SegmentosInvestimento (banco m)))
                            nome descricao true]))).
Proof.
  destruct m as [b f l]. cbn [banco].
  unfold criar_segmento, tenta, conecta, executa, commit, fetchone, bind,
    ida_ao_banco, levanta, ret.
  cbn [falhas banco log].
  destruct (find (fun s => String.eqb (Nome s) nome) (tab_SegmentosInvestimento b))
    as [s0|] eqn:F.
  - destruct f as [|[|] [|[|] f]]; cbn [falhas banco log];
      try rewrite F; cbn [falhas banco log];
      eexists _, _; (split; [reflexivity|]); cbn [banco];
      first [ left; split; reflexivity
            | right; left; exists s0; repeat split ].
  - destruct f as [|[|] [|[|] [|[|] [|[|] [|[|] f]]]]]; cbn [falhas banco log];
      try rewrite F; cbn [falhas banco log];
      eexists _, _; (split; [reflexivity|]); cbn [banco];
      first [ left; split; reflexivity
            | right; right; split; [reflexivity|];
              split; [left; reflexivity | reflexivity]
            | right; right; split; [reflexivity|];
              split; [right; reflexivity | reflexivity] ].
Qed.

Lemma find_nome_None (l : list SegmentosInvestimento) (nome : string) :
  find (fun s => String.eqb (Nome s) nome) l = None ->
  ~ In nome (map Nome l).
Proof.
  intros F H. apply in_map_iff in H. destruct H as (s & E & Hin).
  pose proof (find_none _ _ F s Hin) as N. simpl in N.
  apply String.eqb_neq in N. congruence.
Qed.

(** X11.  [criar_segmento] keeps the names of the segments unique in any
    run, whichever round trips fail; it touches no other table and
    removes no segment; a returned id is the id of a stored segment of
    that name.  A raise does not mean that nothing was written: the
    store is the one of the start, or the segment is committed and it is
    the reading of its id, after the commit, that failed. *)
Theorem criar_segmento_nomes_unicos (nome descricao : string) (m : Mundo) :
  nomes_unicos (banco m) ->
  exists r m',
    criar_segmento identity_segmento nome descricao m = (r, m')
    /\ nomes_unicos (banco m')
    /\ (exists novos,
           banco m' = com_segmentos (banco m)
                        (tab_SegmentosInvestimento (banco m) ++ novos))
    /\ (forall id, r = Retorna id ->
        exists s, In s (tab_SegmentosInvestimento (banco m'))
                  /\ Nome s = nome /\ IdSegmento s = id)
    /\ (forall e, r = Levanta e ->
        banco m' = banco m
        \/ (find (fun s => String.eqb (Nome s) nome)
                 (tab_SegmentosInvestimento (banco m)) = None
            /\ banco m'
               = com_segmentos (banco m)
                   (tab_SegmentosInvestimento (banco m)
                      ++ [mkSegmentosInvestimento
                            (identity_segmento (tab_SegmentosInvestimento (banco m)))
                            nome descricao true]))).
Proof.
  intros N.
  assert (Hm : forall b, b = com_segmentos b (tab_SegmentosInvestimento b ++ [])).
  { intros []. unfold com_segmentos. simpl. rewrite app_nil_r. reflexivity. }
  destruct (criar_segmento_casos nome descricao m)
    as (r & m' & E & [(R & B)|[(s0 & F & R & B)|(F & R & B)]]);
    exists r, m'; (split; [exact E|]).
  - rewrite B. split; [exact N|]. split; [exists []; apply Hm|].
    split; [intros id H; congruence | auto].
  - rewrite B. split; [exact N|]. split; [exists []; apply Hm|].
    split; [|intros e H; congruence].
    intros id H. rewrite R in H. injection H as <-.
    apply find_some in F. destruct F as [Hin He].
    apply String.eqb_eq in He. exists s0. auto.
  - rewrite B. split; [|split; [|split]].
    + unfold nomes_unicos. cbn [com_segmentos tab_SegmentosInvestimento].
      rewrite map_app. apply NoDup_snoc; [exact N|].
      apply find_nome_None, F.
    + eexists. reflexivity.
    + intros id H. destruct R as [R|R]; rewrite R in H; [|discriminate].
      injection H as <-.
      eexists. split; [apply in_or_app; right; left; reflexivity|].
      split; reflexivity.
    + intros e H. right. split; [exact F|reflexivity].
Qed.

(** X12.  When no round trip fails, [criar_segmento] finds or creates:
    a second call with the same name returns the id of the first call
    and leaves the store unchanged, whatever description it passes. *)
Theorem criar_segmento_duas_vezes (nome descricao descricao' : string) (m : Mundo) :
  falhas m = [] ->
  exists id m1 m2,
    criar_segmento identity_segmento nome descricao m = (Retorna id, m1)
    /\ criar_segmento identity_segmento nome descricao' m1 = (Retorna id, m2)
    /\ banco m2 = banco m1.
Proof.
  intro F. destruct m as [b f l]. simpl in F. subst f.
  unfold criar_segmento, tenta, conecta, executa, commit, bind,
    ida_ao_banco, levanta, ret.
  cbn [falhas banco log].
  destruct (find (fun s => String.eqb (Nome s) nome) (tab_SegmentosInvestimento b))
    as [s0|] eqn:E; cbn [falhas banco log].
  - eexists _, _, _. split; [reflexivity|]. cbn [falhas banco log].
    rewrite E. split; reflexivity.
  - eexists _, _, _. split; [reflexivity|].
    cbn [falhas banco log com_segmentos tab_SegmentosInvestimento].
    rewrite (find_snoc _ _ _ E) by apply String.eqb_refl.
    split; reflexivity.
Qed.

End Identidade.

(** X11, instance: a store with the segment Tecnologia and another
    name; the segment is committed and the reading of its id fails: the
    call raises and the segment is stored. *)
Lemma criar_segmento_nomes_unicos_exemplo :
  criar_segmento (fun l => Z.of_nat (List.length l) + 1)%Z "Energia" "E"
                 (mkMundo (Exemplos.banco_AAA [])
                          [false; false; false; false; true] [])
  = (Levanta OperationalError,
     mkMundo (com_segmentos (Exemplos.banco_AAA [])
                [mkSegmentosInvestimento 1 "Tecnologia" "Empresas de tecnologia" true;
                 mkSegmentosInvestimento 2 "Energia" "E" true])
             [] [])
  /\ exists r m',
    criar_segmento (fun l => Z.of_nat (List.length l) + 1)%Z "Energia" "E"
                   (mkMundo (Exemplos.banco_AAA [])
                            [false; false; false; false; true] [])
    = (r, m')
    /\ nomes_unicos (banco m')
    /\ (exists novos,
           banco m' = com_segmentos (Exemplos.banco_AAA [])
                        (tab_SegmentosInvestimento (Exemplos.banco_AAA []) ++ novos))
    /\ (forall id, r = Retorna id ->
        exists s, In s (tab_SegmentosInvestimento (banco m'))
                  /\ Nome s = "Energia"%string /\ IdSegmento s = id)
    /\ (forall e, r = Levanta e ->
        banco m' = Exemplos.banco_AAA []
        \/ (find (fun s => String.eqb (Nome s) "Energia")
                 (tab_SegmentosInvestimento (Exemplos.banco_AAA [])) = None
            /\ banco m'
               = com_segmentos (Exemplos.banco_AAA [])
                   (tab_SegmentosInvestimento (Exemplos.banco_AAA [])
                      ++ [mkSegmentosInvestimento
                            (Z.of_nat (List.length
                                         (tab_SegmentosInvestimento
                                            (Exemplos.banco_AAA []))) + 1)%Z
                            "Energia" "E" true]))).
Proof.
  split; [reflexivity|].
  apply (@criar_segmento_nomes_unicos (fun l => Z.of_nat (List.length l) + 1)%Z
           "Energia" "E"
           (mkMundo (Exemplos.banco_AAA [])
                    [false; false; false; false; true] [])).
  unfold nomes_unicos. cbn. repeat constructor. simpl. intuition.
Defined.

(** X12, instance: the segment Energia is created, then asked for again
    with another description. *)
Lemma criar_segmento_duas_vezes_exemplo :
  exists id m1 m2,
    criar_segmento (fun l => Z.of_nat (List.length l) + 1)%Z "Energia" "E"
                   (Exemplos.mundo (Exemplos.banco_AAA []))
    = (Retorna id, m1)
    /\ criar_segmento (fun l => Z.of_nat (List.length l) + 1)%Z "Energia" "outra" m1
       = (Retorna id, m2)
    /\ banco m2 = banco m1.
Proof.
  exact (@criar_segmento_duas_vezes (fun l => Z.of_nat (List.length l) + 1)%Z
           "Energia" "E" "outra" (Exemplos.mundo (Exemplos.banco_AAA [])) eq_refl).
Defined.

(** *** Links between instruments and segments *)

Lemma associar_indice_segmento_casos
      (ticker : string) (id_segmento : Z) (peso : pyfloat) (m : Mundo) :
  exists m',
    associar_indice_segmento ticker id_segmento peso m = (Retorna tt, m')
    /\ (banco m' = banco m
        \/ exists i q,
            indice_do_ticker (banco m) ticker = Some i
            /\ conta_links (banco m) (IdIndice i) id_segmento = 0%nat
            /\ peso = Fin q
            /\ banco m'
               = com_links (banco m)
                   (tab_IndicesSegmentos (banco m)
                      ++ [mkIndicesSegmentos (IdIndice i) id_segmento q])).
Proof.
  destruct m as [b f l]. cbn [banco].
  unfold indice_do_ticker, associar_indice_segmento, tenta, conecta, executa,
    commit, bind, ida_ao_banco, levanta, ret, eleva.
  cbn [falhas banco log].
  destruct (find (fun i => String.eqb (Ticker i) ticker) (tab_Indices b))
    as [i0|] eqn:F.
  2:{ destruct f as [|[|] [|[|] f]]; cbn [falhas banco log];
        try rewrite F; cbn [falhas banco log];
        eexists; (split; [reflexivity|]); left; reflexivity. }
  destruct (conta_links b (IdIndice i0) id_segmento) as [|n] eqn:C.
  2:{ destruct f as [|[|] [|[|] [|[|] f]]]; cbn [falhas banco log];
        try rewrite F; cbn [falhas banco log];
        try rewrite C; cbn [Nat.ltb Nat.leb falhas banco log];
        eexists; (split; [reflexivity|]); left; reflexivity. }
  destruct peso as [q| | |].
  - destruct f as [|[|] [|[|] [|[|] [|[|] [|[|] f]]]]]; cbn [falhas banco log];
      try rewrite F; cbn [falhas banco log];
      try rewrite C; cbn [Nat.ltb Nat.leb falhas banco log param_numeric];
      eexists; (split; [reflexivity|]); cbn [banco];
      first [ left; reflexivity
            | right; exists i0, q; repeat split; assumption ].
  - destruct f as [|[|] [|[|] [|[|] [|[|] f]]]]; cbn [falhas banco log];
      try rewrite F; cbn [falhas banco log];
      try rewrite C; cbn [Nat.ltb Nat.leb falhas banco log param_numeric];
      eexists; (split; [reflexivity|]); left; reflexivity.
  - destruct f as [|[|] [|[|] [|[|] [|[|] f]]]]; cbn [falhas banco log];
      try rewrite F; cbn [falhas banco log];
      try rewrite C; cbn [Nat.ltb Nat.leb falhas banco log param_numeric];
      eexists; (split; [reflexivity|]); left; reflexivity.
  - destruct f as [|[|] [|[|] [|[|] [|[|] f]]]]; cbn [falhas banco log];
      try rewrite F; cbn [falhas banco log];
      try rewrite C; cbn [Nat.ltb Nat.leb falhas banco log param_numeric];
      eexists; (split; [reflexivity|]); left; reflexivity.
Qed.

Lemma conta_links_zero (b : Banco) (id_indice id_segmento : Z) :
  conta_links b id_indice id_segmento = 0%nat ->
  ~ In (id_indice, id_segmento)
       (map (fun s => (is_IdIndice s, is_IdSegmento s)) (tab_IndicesSegmentos b)).
Proof.
  unfold conta_links. intros C H. apply in_map_iff in H.
  destruct H as (s & E & Hin). injection E as E1 E2.
  apply List.length_zero_iff_nil in C.
  assert (Hf : In s (filter (fun s => (is_IdIndice s =? id_indice)%Z
                                      && (is_IdSegmento s =? id_segmento)%Z)
                            (tab_IndicesSegmentos b))).
  { apply filter_In. split; [exact Hin|]. rewrite E1, E2, !Z.eqb_refl. reflexivity. }
  rewrite C in Hf. exact Hf.
Qed.

(** X13.  [associar_indice_segmento] never raises, and in any run it
    keeps the links unique: the store is left as it was, or one link of
    the stored instrument of the ticker to the segment is appended, and
    only when no such link was stored.  A ticker that is not stored
    leaves the store unchanged. *)
Theorem associar_indice_segmento_links_unicos
        (ticker : string) (id_segmento : Z) (peso : pyfloat) (m : Mundo) :
  links_unicos (banco m) ->
  exists m',
    associar_indice_segmento ticker id_segmento peso m = (Retorna tt, m')
    /\ links_unicos (banco m')
    /\ (banco m' = banco m
        \/ exists i q,
            indice_do_ticker (banco m) ticker = Some i
            /\ peso = Fin q
            /\ banco m'
               = com_links (banco m)
                   (tab_IndicesSegmentos (banco m)
                      ++ [mkIndicesSegmentos (IdIndice i) id_segmento q]))
    /\ (indice_do_ticker (banco m) ticker = None -> banco m' = banco m).
Proof.
  intro U.
  destruct (associar_indice_segmento_casos ticker id_segmento peso m)
    as (m' & E & [B|(i & q & I & C & P & B)]); exists m'; (split; [exact E|]).
  - rewrite B. split; [exact U|]. split; [left; reflexivity|reflexivity].
  - split; [|split].
    + rewrite B. unfold links_unicos. cbn [com_links tab_IndicesSegmentos].
      rewrite map_app. apply NoDup_snoc; [exact U|].
      apply conta_links_zero, C.
    + right. exists i, q. auto.
    + intro H. congruence.
Qed.

(** X13, instance: the instrument AAA, linked to segment 1, is linked to
    segment 2. *)
Lemma associar_indice_segmento_links_unicos_exemplo :
  exists m',
    associar_indice_segmento "AAA" 2 (Fin 100)
                             (Exemplos.mundo (Exemplos.banco_AAA []))
    = (Retorna tt, m')
    /\ links_unicos (banco m')
    /\ (banco m' = Exemplos.banco_AAA []
        \/ exists i q,
            indice_do_ticker (Exemplos.banco_AAA []) "AAA" = Some i
            /\ Fin 100 = Fin q
            /\ banco m'
               = com_links (Exemplos.banco_AAA [])
                   (tab_IndicesSegmentos (Exemplos.banco_AAA [])
                      ++ [mkIndicesSegmentos (IdIndice i) 2 q]))
    /\ (indice_do_ticker (Exemplos.banco_AAA []) "AAA" = None
        -> banco m' = Exemplos.banco_AAA []).
Proof.
  apply (@associar_indice_segmento_links_unicos "AAA" 2 (Fin 100)
           (Exemplos.mundo (Exemplos.banco_AAA []))).
  unfold links_unicos. cbn. repeat constructor. simpl. intuition.
Defined.

(** X14.  When no round trip fails, a stored instrument and a finite
    weight give a stored link, and linking again, with whatever weight,
    leaves the store unchanged: the first weight stays. *)
Theorem associar_indice_segmento_duas_vezes
        (ticker : string) (id_segmento : Z) (q : Q) (peso' : pyfloat)
        (i : Indices) (m : Mundo) :
  falhas m = [] ->
  indice_do_ticker (banco m) ticker = Some i ->
  exists m1 m2,
    associar_indice_segmento ticker id_segmento (Fin q) m = (Retorna tt, m1)
    /\ (0 < conta_links (banco m1) (IdIndice i) id_segmento)%nat
    /\ associar_indice_segmento ticker id_segmento peso' m1 = (Retorna tt, m2)
    /\ banco m2 = banco m1.
Proof.
  intros F I. destruct m as [b f l]. simpl in F. subst f. cbn [banco] in I.
  unfold indice_do_ticker in I.
  unfold associar_indice_segmento, tenta, conecta, executa, commit, bind,
    ida_ao_banco, levanta, ret, eleva.
  cbn [falhas banco log]. rewrite I.
  destruct (conta_links b (IdIndice i) id_segmento) as [|n] eqn:C.
  - cbn [Nat.ltb Nat.leb falhas banco log param_numeric].
    eexists _, _. split; [reflexivity|].
    assert (C1 : conta_links
                   (com_links b (tab_IndicesSegmentos b
                                   ++ [mkIndicesSegmentos (IdIndice i) id_segmento q]))
                   (IdIndice i) id_segmento = 1%nat).
    { unfold conta_links in *. cbn [com_links tab_IndicesSegmentos].
      rewrite filter_app, length_app, C. cbn. rewrite !Z.eqb_refl. reflexivity. }
    set (b1 := com_links b _) in *.
    assert (I1 : find (fun i => String.eqb (Ticker i) ticker) (tab_Indices b1)
                 = Some i) by exact I.
    cbn [falhas banco log]. rewrite I1, C1. cbn [Nat.ltb Nat.leb].
    split; [lia|]. split; reflexivity.
  - cbn [Nat.ltb Nat.leb falhas banco log].
    eexists _, _. split; [reflexivity|]. cbn [falhas banco log].
    rewrite I, C. cbn [Nat.ltb Nat.leb]. split; [lia|]. split; reflexivity.
Qed.

(** X14, instance: AAA is linked to segment 2 with weights 100 and 50. *)
Lemma associar_indice_segmento_duas_vezes_exemplo :
  exists m1 m2,
    associar_indice_segmento "AAA" 2 (Fin 100)
                             (Exemplos.mundo (Exemplos.banco_AAA []))
    = (Retorna tt, m1)
    /\ (0 < conta_links (banco m1) 1 2)%nat
    /\ associar_indice_segmento "AAA" 2 (Fin 50) m1 = (Retorna tt, m2)
    /\ banco m2 = banco m1.
Proof.
  exact (@associar_indice_segmento_duas_vezes "AAA" 2 100 (Fin 50)
           (mkIndices 1 "AAA" "Indice AAA" "Brasil" true)
           (Exemplos.mundo (Exemplos.banco_AAA [])) eq_refl eq_refl).
Defined.

(** *** Properties kept by a computation *)

Lemma mantem_bind {A B} (P : Banco -> Prop) (c : M A) (k : A -> M B) :
  mantem P c -> (forall a, mantem P (k a)) -> mantem P (bind c k).
Proof.
  intros Hc Hk m H. specialize (Hc m H). unfold bind.
  destruct (c m) as [[a|e] m1]; simpl in *; [apply Hk, Hc | exact Hc].
Qed.

Lemma mantem_tenta {A} (P : Banco -> Prop) (c : M A) (h : Excecao -> M A) :
  mantem P c -> (forall e, mantem P (h e)) -> mantem P (tenta c h).
Proof.
  intros Hc Hh m H. specialize (Hc m H). unfold tenta.
  destruct (c m) as [[a|e] m1]; simpl in *; [exact Hc | apply Hh, Hc].
Qed.

Lemma mantem_ret {A} (P : Banco -> Prop) (a : A) : mantem P (ret a).
Proof. intros m H. exact H. Qed.

Lemma mantem_levanta {A} (P : Banco -> Prop) (e : Excecao) :
  mantem P (@levanta A e).
Proof. intros m H. exact H. Qed.

Lemma mantem_registra (P : Banco -> Prop) (r : Registro) : mantem P (registra r).
Proof. intros m H. exact H. Qed.

Lemma mantem_adicionar_indice (P : Banco -> Prop) (ticker descricao pais : string) :
  (forall b,
      P b ->
      indice_do_ticker b ticker = None ->
      P (mkBanco (tab_Indices b
                    ++ [mkIndices (prox_IdIndice b) ticker descricao pais true])
                 (tab_HistoricoPrecos b) (tab_SegmentosInvestimento b)
                 (tab_IndicesSegmentos b) (prox_IdIndice b + 1)%Z)) ->
  mantem P (adicionar_indice ticker descricao pais).
Proof.
  intros Hn m H.
  destruct (adicionar_indice_casos ticker descricao pais m)
    as (r & m' & E & [(_ & B)|[(i0 & _ & _ & B)|(F & _ & B)]]);
    rewrite E; simpl; rewrite B; [exact H | exact H | apply Hn; assumption].
Qed.

Lemma mantem_baixar_dados_historicos
      (P : Banco -> Prop) (history : string -> string -> Resultado DataFrame)
      (ticker periodo : string) :
  mantem P (baixar_dados_historicos history ticker periodo).
Proof.
  intros m H.
  destruct (baixar_dados_historicos_casos history ticker periodo m)
    as (m' & E & B & _).
  rewrite E. simpl. rewrite B. exact H.
Qed.

Lemma mantem_salvar_historico_precos
      (P : Banco -> Prop) (id : Z) (ticker : string) (df : DataFrame) :
  (forall b novos,
      P b -> unico b ->
      unico (com_HistoricoPrecos b (tab_HistoricoPrecos b ++ novos)) ->
      P (com_HistoricoPrecos b (tab_HistoricoPrecos b ++ novos))) ->
  mantem (fun b => P b /\ unico b) (salvar_historico_precos id ticker df).
Proof.
  intros Hn m [H U].
  pose proof (@salvar_unico id ticker df m U) as U'.
  destruct (salvar_novos id ticker df m) as (novos & B & _).
  rewrite B in *. split; [apply Hn; assumption | exact U'].
Qed.

Lemma mantem_criar_segmento
      (P : Banco -> Prop) (identity_segmento : list SegmentosInvestimento -> Z)
      (nome descricao : string) :
  (forall b id,
      P b ->
      find (fun s => String.eqb (Nome s) nome) (tab_SegmentosInvestimento b) = None ->
      P (com_segmentos b (tab_SegmentosInvestimento b
                            ++ [mkSegmentosInvestimento id nome descricao true]))) ->
  mantem P (criar_segmento identity_segmento nome descricao).
Proof.
  intros Hn m H.
  destruct (criar_segmento_casos identity_segmento nome descricao m)
    as (r & m' & E & [(_ & B)|[(s0 & _ & _ & B)|(F & _ & B)]]);
    rewrite E; simpl; rewrite B; [exact H | exact H | apply Hn; assumption].
Qed.

Lemma mantem_associar_indice_segmento
      (P : Banco -> Prop) (ticker : string) (id_segmento : Z) (peso : pyfloat) :
  (forall b id_indice q,
      P b ->
      conta_links b id_indice id_segmento = 0%nat ->
      P (com_links b (tab_IndicesSegmentos b
                        ++ [mkIndicesSegmentos id_indice id_segmento q]))) ->
  mantem P (associar_indice_segmento ticker id_segmento peso).
Proof.
  intros Hn m H.
  destruct (associar_indice_segmento_casos ticker id_segmento peso m)
    as (m' & E & [B|(i & q & _ & C & _ & B)]);
    rewrite E; simpl; rewrite B; [exact H | apply Hn; assumption].
Qed.

(** *** The constraints, kept by each method *)

Lemma indices_coerentes_novo (b : Banco) (ticker descricao pais : string)
      (ativo : bool) :
  indices_coerentes b ->
  indice_do_ticker b ticker = None ->
  indices_coerentes
    (mkBanco (tab_Indices b
                ++ [mkIndices (prox_IdIndice b) ticker descricao pais ativo])
             (tab_HistoricoPrecos b) (tab_SegmentosInvestimento b)
             (tab_IndicesSegmentos b) (prox_IdIndice b + 1)%Z).
Proof.
  intros (NT & NI & Lt) F. unfold indices_coerentes.
  cbn [tab_Indices prox_IdIndice]. split; [|split].
  - rewrite map_app. apply NoDup_snoc; [exact NT|]. apply find_ticker_None, F.
  - rewrite map_app. apply NoDup_snoc; [exact NI|].
    intro H. apply in_map_iff in H. destruct H as (i & Ei & Hin).
    specialize (Lt i Hin). simpl in Ei. lia.
  - intros i Hin. apply in_app_or in Hin. destruct Hin as [Hin|[<-|[]]].
    + specialize (Lt i Hin). lia.
    + simpl. lia.
Qed.

Lemma restricoes_adicionar_indice (ticker descricao pais : string) :
  mantem restricoes (adicionar_indice ticker descricao pais).
Proof.
  apply mantem_adicionar_indice. intros b (U & I & N & L) F.
  split; [exact U|]. split; [apply indices_coerentes_novo; assumption|].
  split; [exact N | exact L].
Qed.

Lemma restricoes_salvar_historico_precos (id : Z) (ticker : string) (df : DataFrame) :
  mantem restricoes (salvar_historico_precos id ticker df).
Proof.
  intros m (U & I & N & L).
  assert (K : mantem (fun b => (indices_coerentes b /\ nomes_unicos b
                                /\ links_unicos b) /\ unico b)
                     (salvar_historico_precos id ticker df)).
  { apply mantem_salvar_historico_precos. intros b novos H _ _. exact H. }
  destruct (K m) as [(I' & N' & L') U']; [auto|].
  split; [exact U'|]. split; [exact I'|]. split; assumption.
Qed.

Lemma restricoes_criar_segmento
      (identity_segmento : list SegmentosInvestimento -> Z)
      (nome descricao : string) :
  mantem restricoes (criar_segmento identity_segmento nome descricao).
Proof.
  apply mantem_criar_segmento. intros b id (U & I & N & L) F.
  split; [exact U|]. split; [exact I|]. split; [|exact L].
  unfold nomes_unicos. cbn [com_segmentos tab_SegmentosInvestimento].
  rewrite map_app. apply NoDup_snoc; [exact N|]. apply find_nome_None, F.
Qed.

Lemma restricoes_associar_indice_segmento
      (ticker : string) (id_segmento : Z) (peso : pyfloat) :
  mantem restricoes (associar_indice_segmento ticker id_segmento peso).
Proof.
  apply mantem_associar_indice_segmento. intros b id q (U & I & N & L) C.
  split; [exact U|]. split; [exact I|]. split; [exact N|].
  unfold links_unicos. cbn [com_links tab_IndicesSegmentos].
  rewrite map_app. apply NoDup_snoc; [exact L|]. apply conta_links_zero, C.
Qed.

Section Coleta.
Variable identity_segmento : list SegmentosInvestimento -> Z.
Variable history : string -> string -> Resultado DataFrame.

Lemma mantem_coletar_indice_completo
      (P : Banco -> Prop) (ticker descricao pais periodo : string) :
  mantem P (adicionar_indice ticker descricao pais) ->
  (forall id df, mantem P (salvar_historico_precos id ticker df)) ->
  mantem P (coletar_indice_completo history ticker descricao pais periodo).
Proof.
  intros Ha Hs. unfold coletar_indice_completo.
  apply mantem_tenta; [|intro e; apply mantem_registra].
  apply mantem_bind; [apply mantem_registra|intros _].
  apply mantem_bind; [exact Ha|intro id].
  apply mantem_bind; [apply mantem_baixar_dados_historicos|intro df].
  destruct (negb (empty df)); [|apply mantem_registra].
  apply mantem_bind; [apply Hs|intros _; apply mantem_registra].
Qed.

Lemma mantem_cria_segmentos
      (P : Banco -> Prop) (infos : list (string * string)) (ids : dict) :
  (forall nome descricao,
      mantem P (criar_segmento identity_segmento nome descricao)) ->
  mantem P (cria_segmentos identity_segmento infos ids).
Proof.
  intro Hc. revert ids. induction infos as [|[nome descricao] infos IH]; intro ids.
  - apply mantem_ret.
  - cbn [cria_segmentos]. apply mantem_bind; [apply Hc|intro id; apply IH].
Qed.

Lemma mantem_coleta_indices
      (P : Banco -> Prop) (indices : list IndiceInfo) (ids : dict) :
  (forall ticker descricao pais periodo,
      mantem P (coletar_indice_completo history ticker descricao pais periodo)) ->
  (forall ticker id peso, mantem P (associar_indice_segmento ticker id peso)) ->
  mantem P (coleta_indices history indices ids).
Proof.
  intros Hc Ha. induction indices as [|info indices IH].
  - apply mantem_ret.
  - cbn [coleta_indices]. apply mantem_bind; [apply Hc|intros _].
    apply mantem_bind; [|intros _; exact IH].
    destruct (get (info_segmento info) ids) as [id|]; [|apply mantem_ret].
    destruct (id =? 0)%Z; [apply mantem_ret|apply Ha].
Qed.

Lemma coleta_indices_retorna (indices : list IndiceInfo) (ids : dict) (m : Mundo) :
  exists m', coleta_indices history indices ids m = (Retorna tt, m').
Proof.
  revert m. induction indices as [|info indices IH]; intro m.
  - eexists. reflexivity.
  - cbn [coleta_indices].
    destruct (coletar_indice_completo_retorna
                history (info_ticker info) (info_descricao info)
                (info_pais info) "2y" m) as (m1 & E1).
    rewrite (bind_Retorna _ _ E1).
    assert (E2 : exists m2,
               match get (info_segmento info) ids with
               | Some id_segmento =>
                   if (id_segmento =? 0)%Z then ret tt
                   else associar_indice_segmento (info_ticker info)
                                                 id_segmento (Fin 100)
               | None => ret tt
               end m1 = (Retorna tt, m2)).
    { destruct (get (info_segmento info) ids) as [id|]; [|eexists; reflexivity].
      destruct (id =? 0)%Z; [eexists; reflexivity|].
      destruct (associar_indice_segmento_casos (info_ticker info) id (Fin 100) m1)
        as (m2 & E & _).
      exists m2. exact E. }
    destruct E2 as (m2 & E2). rewrite (bind_Retorna _ _ E2). apply IH.
Qed.

(** X15.  The loop of a full collection run over the instruments always
    returns, and the run can raise only while it creates the segments,
    before any instrument is touched: when the run raises, it is the
    creation of the segments that raised, and the instruments, the bars
    and the links are those of the start. *)
Theorem coleta_completa_levanta
        (infos : list (string * string)) (indices : list IndiceInfo) (m : Mundo) :
  (forall ids m0,
      exists m', coleta_indices history indices ids m0 = (Retorna tt, m'))
  /\ (forall ids m1,
         cria_segmentos identity_segmento infos [] m = (Retorna ids, m1) ->
         exists m',
           coleta_completa identity_segmento history infos indices m
           = (Retorna tt, m'))
  /\ (forall e m',
         coleta_completa identity_segmento history infos indices m
         = (Levanta e, m') ->
         cria_segmentos identity_segmento infos [] m = (Levanta e, m')
         /\ tab_Indices (banco m') = tab_Indices (banco m)
         /\ tab_HistoricoPrecos (banco m') = tab_HistoricoPrecos (banco m)
         /\ tab_IndicesSegmentos (banco m') = tab_IndicesSegmentos (banco m)
         /\ prox_IdIndice (banco m') = prox_IdIndice (banco m)).
Proof.
  split; [intros ids m0; apply coleta_indices_retorna|].
  split.
  { intros ids m1 E. unfold coleta_completa, bind. rewrite E.
    apply coleta_indices_retorna. }
  unfold coleta_completa, bind. intros e m' E.
  pose proof (@mantem_cria_segmentos
                (fun b => tab_Indices b = tab_Indices (banco m)
                          /\ tab_HistoricoPrecos b = tab_HistoricoPrecos (banco m)
                          /\ tab_IndicesSegmentos b = tab_IndicesSegmentos (banco m)
                          /\ prox_IdIndice b = prox_IdIndice (banco m))
                infos []) as K.
  specialize (K ltac:(intros nome descricao; apply mantem_criar_segmento;
                      intros b id H _; exact H)
                m ltac:(repeat split)).
  destruct (cria_segmentos identity_segmento infos [] m) as [[ids|e1] m1].
  - destruct (coleta_indices_retorna indices ids m1) as (m2 & E2).
    rewrite E2 in E. discriminate.
  - injection E as <- <-. split; [reflexivity|exact K].
Qed.

(** X16.  A full collection run keeps the four uniqueness constraints of
    the store (bars, instruments, segment names, links), whatever the
    provider answers and whichever round trips fail. *)
Theorem coleta_completa_restricoes
        (infos : list (string * string)) (indices : list IndiceInfo) (m : Mundo) :
  restricoes (banco m) ->
  restricoes (banco (snd (coleta_completa identity_segmento history
                                          infos indices m))).
Proof.
  revert m. change (mantem restricoes
                           (coleta_completa identity_segmento history infos indices)).
  unfold coleta_completa. apply mantem_bind.
  - apply mantem_cria_segmentos. intros. apply restricoes_criar_segmento.
  - intro ids. apply mantem_coleta_indices.
    + intros. apply mantem_coletar_indice_completo.
      * apply restricoes_adicionar_indice.
      * intros. apply restricoes_salvar_historico_precos.
    + intros. apply restricoes_associar_indice_segmento.
Qed.

End Coleta.

Lemma restricoes_banco_AAA : restricoes (Exemplos.banco_AAA []).
Proof.
  split; [constructor|]. split; [|split].
  - split; [|split].
    + cbn. repeat constructor. simpl. intuition.
    + cbn. repeat constructor. simpl. intuition.
    + intros i [<-|[]]. simpl. lia.
  - unfold nomes_unicos. cbn. repeat constructor. simpl. intuition.
  - unfold links_unicos. cbn. repeat constructor. simpl. intuition.
Qed.

(** X15, instance: the connection of the first segment fails. *)
Lemma coleta_completa_levanta_exemplo :
  cria_segmentos (fun l => Z.of_nat (List.length l) + 1)%Z
                 [("Energia", "E")]%string []
                 (mkMundo (Exemplos.banco_AAA []) [true] [])
  = (Levanta OperationalError, mkMundo (Exemplos.banco_AAA []) [] [])
  /\ tab_Indices (banco (mkMundo (Exemplos.banco_AAA []) [] []))
     = tab_Indices (banco (mkMundo (Exemplos.banco_AAA []) [true] []))
  /\ tab_HistoricoPrecos (banco (mkMundo (Exemplos.banco_AAA []) [] []))
     = tab_HistoricoPrecos (banco (mkMundo (Exemplos.banco_AAA []) [true] []))
  /\ tab_IndicesSegmentos (banco (mkMundo (Exemplos.banco_AAA []) [] []))
     = tab_IndicesSegmentos (banco (mkMundo (Exemplos.banco_AAA []) [true] []))
  /\ prox_IdIndice (banco (mkMundo (Exemplos.banco_AAA []) [] []))
     = prox_IdIndice (banco (mkMundo (Exemplos.banco_AAA []) [true] [])).
Proof.
  exact (proj2 (proj2 (@coleta_completa_levanta
           (fun l => Z.of_nat (List.length l) + 1)%Z Exemplos.history_uma_barra
           [("Energia", "E")]%string
           [mkIndiceInfo "AAA" "Indice AAA" "Brasil" "Energia"]
           (mkMundo (Exemplos.banco_AAA []) [true] [])))
           OperationalError
           (mkMundo (Exemplos.banco_AAA []) [] [])
           eq_refl).
Defined.

(** X16, instance: the catalogue of [executar_coleta_completa] on the
    store with the instrument AAA; the third round trip fails. *)
Lemma coleta_completa_restricoes_exemplo :
  restricoes (banco (mkMundo (Exemplos.banco_AAA []) [false; false; true] []))
  /\ restricoes
       (banco (snd (executar_coleta_completa
                      (fun l => Z.of_nat (List.length l) + 1)%Z
                      Exemplos.history_uma_barra
                      (mkMundo (Exemplos.banco_AAA []) [false; false; true] [])))).
Proof.
  split; [exact restricoes_banco_AAA|].
  exact (@coleta_completa_restricoes
           (fun l => Z.of_nat (List.length l) + 1)%Z Exemplos.history_uma_barra
           segmentos_info indices_para_coletar
           (mkMundo (Exemplos.banco_AAA []) [false; false; true] [])
           restricoes_banco_AAA).
Defined.

End SegmentosFacts.

(* ================================================================= *)
(** * Loader: bars, instruments, download and report *)

Module CargaFacts.
Import Loader Carga StoreFacts LoaderFacts ColetaFacts.

(** *** The loop of [insere_historico_precos] with an invariant *)

Lemma linha_inserida_volume (p : Parametros) (h : HistoricoPrecos) (z : Z) :
  p_volume p = CInt z -> linha_inserida p = Retorna h -> Volume h = Some z.
Proof.
  unfold linha_inserida, liga. intros V H. rewrite V in H.
  cbn [param_bigint] in H.
  repeat match type of H with
         | match ?x with _ => _ end = _ => destruct x; try discriminate
         end.
  injection H as <-. reflexivity.
Qed.

(** One turn of the loop: the state is kept, up to the counter of
    duplicates, or one bar is appended for a row of a known instrument
    with an integer volume and a date that is not stored. *)
Lemma volta_da_carga_casos (mapa : list (string * Z)) (row : LinhaCarga)
      (st : Laco) (m : Mundo) :
  exists st' m',
    tenta (corpo_linha mapa row st)
          (fun e => registra (ErroInserirPreco e) ;; ret st) m
    = (Retorna st', m')
    /\ banco m' = banco m
    /\ ((tx st' = tx st /\ registros_inseridos st' = registros_inseridos st)
        \/ exists h z,
            dict_get (ld_Ticker row) mapa = Some (hp_IdIndice h)
            /\ hp_IdIndice h <> 0%Z
            /\ DataQuotacao h = date (ld_DataQuotacao row)
            /\ py_int (ld_Volume row) = Retorna z
            /\ Volume h = Some z
            /\ conta_historico (tx st) (hp_IdIndice h) (DataQuotacao h) = 0%nat
            /\ tx st' = com_HistoricoPrecos (tx st)
                          (tab_HistoricoPrecos (tx st) ++ [h])
            /\ registros_inseridos st' = (registros_inseridos st + 1)%nat).
Proof.
  unfold tenta, corpo_linha, executa, bind, eleva, registra, ret.
  destruct (dict_get (ld_Ticker row) mapa) as [id|]; [|fecha_carga].
  destruct (id =? 0)%Z eqn:Z0; [fecha_carga|].
  destruct (py_int (ld_Volume row)) as [volume|e]; [|fecha_carga].
  destruct (ida_ao_banco_casos m) as (r1 & m1 & E1 & [->| ->] & B1 & _);
    rewrite E1; [|fecha_carga].
  match goal with
  | |- context [linha_inserida ?p] =>
      destruct (linha_inserida p) as [h|e] eqn:L; [|fecha_carga]
  end.
  destruct (linha_inserida_chave _ L) as [K1 K2]. cbn in K1, K2.
  pose proof (fun V => @linha_inserida_volume _ h volume V L) as K3.
  specialize (K3 eq_refl).
  destruct (0 <? conta_historico (tx st) id (date (ld_DataQuotacao row)))%nat eqn:C;
    [fecha_carga|].
  eexists _, _. split; [reflexivity|]. cbn [banco tx registros_inseridos].
  split; [congruence|]. right. exists h, volume.
  apply Z.eqb_neq in Z0. apply Nat.ltb_ge in C.
  rewrite K1, K2. repeat split; try assumption; try reflexivity. lia.
Qed.

Lemma carga_linhas_inv (Q : Banco -> nat -> Prop) (mapa : list (string * Z))
      (df : list LinhaCarga) (st : Laco) (m : Mundo) :
  (forall b n row h z,
      In row df -> Q b n ->
      dict_get (ld_Ticker row) mapa = Some (hp_IdIndice h) ->
      hp_IdIndice h <> 0%Z ->
      DataQuotacao h = date (ld_DataQuotacao row) ->
      py_int (ld_Volume row) = Retorna z ->
      Volume h = Some z ->
      conta_historico b (hp_IdIndice h) (DataQuotacao h) = 0%nat ->
      Q (com_HistoricoPrecos b (tab_HistoricoPrecos b ++ [h])) (n + 1)%nat) ->
  Q (tx st) (registros_inseridos st) ->
  exists st' m',
    para_cada_linha mapa df st m = (Retorna st', m')
    /\ banco m' = banco m /\ Q (tx st') (registros_inseridos st').
Proof.
  revert st m. induction df as [|row df IH]; intros st m Hq H0.
  - exists st, m. auto.
  - cbn [para_cada_linha]. unfold bind at 1.
    destruct (volta_da_carga_casos mapa row st m)
      as (st1 & m1 & E1 & B1 & [(T & I)|(h & z & D & N & Dt & V & Vh & C & T & I)]);
      rewrite E1.
    + destruct (IH st1 m1) as (st' & m' & E & B & Q').
      * intros b n r h z Hin. apply Hq. right. exact Hin.
      * rewrite T, I. exact H0.
      * exists st', m'. split; [exact E|]. split; [congruence|exact Q'].
    + destruct (IH st1 m1) as (st' & m' & E & B & Q').
      * intros b n r h' z' Hin. apply Hq. right. exact Hin.
      * rewrite T, I. apply (Hq _ _ row h z); auto. left. reflexivity.
      * exists st', m'. split; [exact E|]. split; [congruence|exact Q'].
Qed.

Lemma insere_historico_precos_inv (Q : Banco -> nat -> Prop)
      (df : list LinhaCarga) (m : Mundo) :
  (forall b n row h z,
      In row df -> Q b n ->
      dict_get (ld_Ticker row) (indices_map (banco m)) = Some (hp_IdIndice h) ->
      hp_IdIndice h <> 0%Z ->
      DataQuotacao h = date (ld_DataQuotacao row) ->
      py_int (ld_Volume row) = Retorna z ->
      Volume h = Some z ->
      conta_historico b (hp_IdIndice h) (DataQuotacao h) = 0%nat ->
      Q (com_HistoricoPrecos b (tab_HistoricoPrecos b ++ [h])) (n + 1)%nat) ->
  Q (banco m) 0%nat ->
  exists r m',
    insere_historico_precos df m = (r, m')
    /\ ((exists i d, r = Retorna (i, d) /\ Q (banco m') i)
        \/ (r = Levanta OperationalError /\ banco m' = banco m)).
Proof.
  intros Hq H0. unfold insere_historico_precos.
  destruct (get_connection_casos m) as (r & m1 & E1 & B1 & [->| ->]).
  2:{ eexists _, _. split; [apply (bind_Levanta _ _ E1)|]. right. auto. }
  rewrite (bind_Retorna _ _ E1).
  rewrite (bind_Retorna _ _ (registra_eq _ _)).
  set (m2 := mkMundo _ _ _).
  unfold executa.
  destruct (ida_ao_banco_casos m2) as (r3 & m3 & E3 & [->| ->] & B3 & _).
  2:{ eexists _, _. split; [apply (bind_Levanta _ _ E3)|]. right.
      split; [reflexivity|]. subst m2. cbn in B3. congruence. }
  rewrite (bind_Retorna _ _ E3).
  destruct (@carga_linhas_inv Q (indices_map (banco m)) df
                                 (mkLaco (banco m) 0 0) m3 Hq H0)
    as (st' & m4 & E4 & B4 & Q4).
  rewrite (bind_Retorna _ _ E4).
  unfold commit.
  destruct (ida_ao_banco_casos m4) as (r5 & m5 & E5 & [->| ->] & B5 & _).
  2:{ eexists _, _. split; [apply (bind_Levanta _ _ (bind_Levanta _ _ E5))|].
      right. split; [reflexivity|]. subst m2. cbn in B3. congruence. }
  rewrite (bind_Retorna _ _ (eq_trans (bind_Retorna _ _ E5) eq_refl)).
  eexists _, _. split; [reflexivity|]. left. eexists _, _.
  split; [reflexivity|]. cbn. exact Q4.
Qed.

(** X17.  In any run, [insere_historico_precos] only appends bars, and
    each bar that it adds comes from a row of the frame whose ticker is
    a stored instrument with an id other than 0 and whose volume
    [int()] converts: rows of unknown tickers and rows with a missing
    (NaN) volume add nothing.  When the call returns, its inserted
    counter is the number of bars added; when it raises, none is. *)
Theorem insere_historico_precos_acrescenta (df : list LinhaCarga) (m : Mundo) :
  exists r m' novos,
    insere_historico_precos df m = (r, m')
    /\ banco m' = com_HistoricoPrecos (banco m)
                                      (tab_HistoricoPrecos (banco m) ++ novos)
    /\ Forall (fun h =>
                 exists row z,
                   In row df
                   /\ dict_get (ld_Ticker row) (indices_map (banco m))
                      = Some (hp_IdIndice h)
                   /\ hp_IdIndice h <> 0%Z
                   /\ DataQuotacao h = date (ld_DataQuotacao row)
                   /\ py_int (ld_Volume row) = Retorna z
                   /\ Volume h = Some z)
              novos
    /\ (forall i d, r = Retorna (i, d) -> List.length novos = i)
    /\ (forall e, r = Levanta e -> novos = []).
Proof.
  destruct (@insere_historico_precos_inv
              (fun b n =>
                 exists novos,
                   b = com_HistoricoPrecos (banco m)
                         (tab_HistoricoPrecos (banco m) ++ novos)
                   /\ List.length novos = n
                   /\ Forall (fun h =>
                                exists row z,
                                  In row df
                                  /\ dict_get (ld_Ticker row) (indices_map (banco m))
                                     = Some (hp_IdIndice h)
                                  /\ hp_IdIndice h <> 0%Z
                                  /\ DataQuotacao h = date (ld_DataQuotacao row)
                                  /\ py_int (ld_Volume row) = Retorna z
                                  /\ Volume h = Some z)
                             novos)
              df m)
    as (r & m' & E & [(i & d & R & novos & B & L & F)|(R & B)]).
  - intros b n row h z Hin (novos & B & L & F) D N Dt V Vh _.
    exists (novos ++ [h]). split; [|split].
    + rewrite B. unfold com_HistoricoPrecos. cbn. rewrite <- app_assoc. reflexivity.
    + rewrite length_app. simpl. lia.
    + apply Forall_app. split; [exact F|]. constructor; [|constructor].
      exists row, z. auto 10.
  - exists []. split; [symmetry; apply CollectorFacts.com_HistoricoPrecos_mesmo|]. split; auto.
  - exists r, m', novos. split; [exact E|]. split; [exact B|]. split; [exact F|].
    split; [|intros e H; congruence].
    intros i' d' H. rewrite R in H. injection H as <- _. exact L.
  - exists r, m', []. split; [exact E|].
    split; [rewrite B; symmetry; apply CollectorFacts.com_HistoricoPrecos_mesmo|].
    split; [constructor|]. split; [intros i d H; congruence | reflexivity].
Qed.

(** *** Instruments of the bulk load *)

Lemma existsb_ticker_false (l : list Indices) (ticker : string) :
  existsb (fun i => String.eqb (Ticker i) ticker) l = false ->
  find (fun i => String.eqb (Ticker i) ticker) l = None.
Proof.
  induction l as [|i l IH]; simpl; [reflexivity|].
  destruct (String.eqb (Ticker i) ticker); [discriminate|exact IH].
Qed.

Lemma existsb_ticker_true (l : list Indices) (ticker : string) :
  existsb (fun i => String.eqb (Ticker i) ticker) l = true <->
  exists i, In i l /\ Ticker i = ticker.
Proof.
  rewrite existsb_exists. split; intros (i & Hin & E); exists i;
    (split; [exact Hin|]); apply String.eqb_eq, E.
Qed.

Lemma find_app_None {A} (f : A -> bool) (l l' : list A) :
  find f (l ++ l') = None -> find f l = None.
Proof.
  induction l as [|x l IH]; simpl; [reflexivity|].
  destruct (f x); [discriminate|exact IH].
Qed.

Lemma drop_duplicates_de_In (vistos l : list Trio) (x : Trio) :
  In x (drop_duplicates_de vistos l) -> In x l.
Proof.
  revert vistos. induction l as [|y l IH]; intros vistos H; simpl in *; [exact H|].
  destruct (existsb (trio_eqb y) vistos).
  - right. apply (IH _ H).
  - destruct H as [->|H]; [left; reflexivity | right; apply (IH _ H)].
Qed.

Lemma trio_eqb_eq (a b : Trio) : trio_eqb a b = true <-> a = b.
Proof.
  destruct a as [[t1 d1] p1], b as [[t2 d2] p2]. unfold trio_eqb.
  rewrite !andb_true_iff, !String.eqb_eq. split.
  - intros [[-> ->] ->]. reflexivity.
  - intro H. injection H as -> -> ->. auto.
Qed.

(** Every row of the frame survives in [drop_duplicates]. *)
Lemma drop_duplicates_de_completo (vistos l : list Trio) (x : Trio) :
  In x l -> In x vistos \/ In x (drop_duplicates_de vistos l).
Proof.
  revert vistos. induction l as [|y l IH]; intros vistos H; [destruct H|].
  cbn [drop_duplicates_de]. destruct (existsb (trio_eqb y) vistos) eqn:E.
  - destruct H as [->|H]; [|apply (IH _ H)].
    left. apply existsb_exists in E. destruct E as (v & Hv & Ev).
    apply trio_eqb_eq in Ev. subst. exact Hv.
  - destruct H as [->|H]; [right; left; reflexivity|].
    destruct (IH (y :: vistos) H) as [[->|Hv]|Hd].
    + right. left. reflexivity.
    + left. exact Hv.
    + right. right. exact Hd.
Qed.

Section Padrao.
Variable Ativo_padrao : bool.

(** One turn of the loop over the instruments never raises and leaves
    the committed store alone: the content seen by the connection is
    kept, or a record is appended for a ticker that it does not hold. *)
Lemma volta_do_indice_casos (row : Trio) (conn : Banco) (m : Mundo) :
  exists conn' m',
    tenta (corpo_indice Ativo_padrao row conn) (fun e => ret conn) m
    = (Retorna conn', m')
    /\ banco m' = banco m
    /\ (falhas m = [] -> m' = m)
    /\ ((conn' = conn
         /\ (falhas m = [] ->
             existsb (fun i => String.eqb (Ticker i) (fst (fst row)))
                     (tab_Indices conn) = true))
        \/ (existsb (fun i => String.eqb (Ticker i) (fst (fst row)))
                    (tab_Indices conn) = false
            /\ conn'
               = mkBanco (tab_Indices conn
                            ++ [mkIndices (prox_IdIndice conn) (fst (fst row))
                                          (snd (fst row)) (snd row) Ativo_padrao])
                         (tab_HistoricoPrecos conn)
                         (tab_SegmentosInvestimento conn)
                         (tab_IndicesSegmentos conn)
                         (prox_IdIndice conn + 1)%Z)).
Proof.
  destruct row as [[ticker descricao] pais]. cbn [fst snd].
  destruct m as [b f l].
  unfold tenta, corpo_indice, executa, bind, ida_ao_banco, ret.
  cbn [falhas banco log].
  destruct (existsb (fun i => String.eqb (Ticker i) ticker) (tab_Indices conn))
    eqn:E;
    destruct f as [|[|] f]; cbn [falhas banco log]; try rewrite E;
      eexists _, _; (split; [reflexivity|]); cbn [banco];
      (split; [reflexivity|]);
      (split; [first [intros _; reflexivity | intro H; discriminate H]|]);
      first [ right; split; reflexivity
            | left; split; [reflexivity|];
              first [intros _; reflexivity | intro H; discriminate H] ].
Qed.

Lemma para_cada_indice_inv (P : Banco -> Prop) (rows : list Trio)
      (conn : Banco) (m : Mundo) :
  (forall b ticker descricao pais,
      In (ticker, descricao, pais) rows ->
      P b ->
      indice_do_ticker b ticker = None ->
      P (mkBanco (tab_Indices b
                    ++ [mkIndices (prox_IdIndice b) ticker descricao pais
                                  Ativo_padrao])
                 (tab_HistoricoPrecos b) (tab_SegmentosInvestimento b)
                 (tab_IndicesSegmentos b) (prox_IdIndice b + 1)%Z)) ->
  P conn ->
  exists conn' m',
    para_cada_indice Ativo_padrao rows conn m = (Retorna conn', m')
    /\ banco m' = banco m /\ P conn'.
Proof.
  revert conn m. induction rows as [|row rows IH]; intros conn m Hp H0.
  - exists conn, m. auto.
  - cbn [para_cada_indice]. unfold bind at 1.
    destruct (volta_do_indice_casos row conn m)
      as (conn1 & m1 & E1 & B1 & _ & [(-> & _)|(F & ->)]); rewrite E1.
    + destruct (IH conn m1) as (conn' & m' & E & B & P').
      * intros b t d p Hin. apply Hp. right. exact Hin.
      * exact H0.
      * exists conn', m'. split; [exact E|]. split; [congruence|exact P'].
    + match goal with
      | |- context [para_cada_indice _ rows ?c m1] =>
          destruct (IH c m1) as (conn' & m' & E & B & P')
      end.
      * intros b t d p Hin. apply Hp. right. exact Hin.
      * destruct row as [[t d] p]. apply Hp; [left; reflexivity|exact H0|].
        apply existsb_ticker_false, F.
      * exists conn', m'. split; [exact E|]. split; [congruence|exact P'].
Qed.

Lemma mantem_insere_ou_atualiza_indice (P : Banco -> Prop) (df : list Trio) :
  (forall b ticker descricao pais,
      In (ticker, descricao, pais) df ->
      P b ->
      indice_do_ticker b ticker = None ->
      P (mkBanco (tab_Indices b
                    ++ [mkIndices (prox_IdIndice b) ticker descricao pais
                                  Ativo_padrao])
                 (tab_HistoricoPrecos b) (tab_SegmentosInvestimento b)
                 (tab_IndicesSegmentos b) (prox_IdIndice b + 1)%Z)) ->
  mantem P (insere_ou_atualiza_indice Ativo_padrao df).
Proof.
  intros Hp m H0. unfold insere_ou_atualiza_indice.
  destruct (get_connection_casos m) as (r & m1 & E1 & B1 & [->| ->]).
  2:{ rewrite (bind_Levanta _ _ E1). cbn. rewrite B1. exact H0. }
  rewrite (bind_Retorna _ _ E1).
  destruct (@para_cada_indice_inv P (drop_duplicates df) (banco m) m1)
    as (conn' & m2 & E2 & B2 & P2).
  { intros b t d p Hin. apply Hp. apply (drop_duplicates_de_In _ _ _ Hin). }
  { exact H0. }
  rewrite (bind_Retorna _ _ E2). unfold commit.
  destruct (ida_ao_banco_casos m2) as (r3 & m3 & E3 & [->| ->] & B3 & _).
  - rewrite (bind_Retorna _ _ E3). cbn. exact P2.
  - rewrite (bind_Levanta _ _ E3). cbn. rewrite B3, B2, B1. exact H0.
Qed.

(** X18.  Despite its name, [insere_ou_atualiza_indice] never updates a
    stored instrument: in any run the store after the call is the store
    before it with records appended to [Indices], each one for a row of
    the frame whose ticker was not stored, with the default of [Ativo].
    Tickers and ids stay unique. *)
Theorem insere_ou_atualiza_indice_acrescenta (df : list Trio) (m : Mundo) :
  indices_coerentes (banco m) ->
  exists novos,
    banco (snd (insere_ou_atualiza_indice Ativo_padrao df m))
    = mkBanco (tab_Indices (banco m) ++ novos)
              (tab_HistoricoPrecos (banco m))
              (tab_SegmentosInvestimento (banco m))
              (tab_IndicesSegmentos (banco m))
              (prox_IdIndice (banco m) + Z.of_nat (List.length novos))%Z
    /\ indices_coerentes (banco (snd (insere_ou_atualiza_indice Ativo_padrao df m)))
    /\ Forall (fun i => In (Ticker i, Descricao i, Pais i) df
                        /\ Ativo i = Ativo_padrao
                        /\ indice_do_ticker (banco m) (Ticker i) = None)
              novos.
Proof.
  intro C.
  apply (@mantem_insere_ou_atualiza_indice
           (fun b =>
              exists novos,
                b = mkBanco (tab_Indices (banco m) ++ novos)
                            (tab_HistoricoPrecos (banco m))
                            (tab_SegmentosInvestimento (banco m))
                            (tab_IndicesSegmentos (banco m))
                            (prox_IdIndice (banco m) + Z.of_nat (List.length novos))%Z
                /\ indices_coerentes b
                /\ Forall (fun i => In (Ticker i, Descricao i, Pais i) df
                                    /\ Ativo i = Ativo_padrao
                                    /\ indice_do_ticker (banco m) (Ticker i) = None)
                          novos)
           df).
  - intros b t d p Hin (novos & B & Cb & F) N.
    exists (novos ++ [mkIndices (prox_IdIndice b) t d p Ativo_padrao]).
    split; [|split].
    + clear - B. subst b.
      cbn [tab_Indices tab_HistoricoPrecos tab_SegmentosInvestimento
           tab_IndicesSegmentos prox_IdIndice].
      rewrite <- app_assoc, length_app. cbn [List.length]. f_equal. lia.
    + apply SegmentosFacts.indices_coerentes_novo; assumption.
    + apply Forall_app. split; [exact F|]. constructor; [|constructor].
      cbn. split; [exact Hin|]. split; [reflexivity|].
      unfold indice_do_ticker in *. rewrite B in N. cbn [tab_Indices] in N.
      apply (find_app_None _ _ _ N).
  - exists []. split; [|split; [exact C|constructor]].
    destruct (banco m). cbn. rewrite app_nil_r, Z.add_0_r. reflexivity.
Qed.

Lemma get_connection_sem_falhas (m : Mundo) :
  falhas m = [] ->
  get_connection m
  = (Retorna (banco m), mkMundo (banco m) [] (log m ++ [ConexaoEstabelecida])).
Proof. destruct m as [b f l]. simpl. intros ->. reflexivity. Qed.

Lemma para_cada_indice_sem_falhas (rows : list Trio) (conn : Banco) (m : Mundo) :
  falhas m = [] ->
  exists conn',
    para_cada_indice Ativo_padrao rows conn m = (Retorna conn', m)
    /\ (forall t, existsb (fun i => String.eqb (Ticker i) t) (tab_Indices conn) = true ->
                  existsb (fun i => String.eqb (Ticker i) t) (tab_Indices conn') = true)
    /\ (forall row, In row rows ->
                    existsb (fun i => String.eqb (Ticker i) (fst (fst row)))
                            (tab_Indices conn') = true)
    /\ ((forall row, In row rows ->
                     existsb (fun i => String.eqb (Ticker i) (fst (fst row)))
                             (tab_Indices conn) = true) ->
        conn' = conn).
Proof.
  intro F. revert conn. induction rows as [|row rows IH]; intro conn.
  - exists conn. split; [reflexivity|]. split; [auto|]. split; [intros row []|auto].
  - cbn [para_cada_indice]. unfold bind at 1.
    destruct (volta_do_indice_casos row conn m)
      as (conn1 & m1 & E1 & _ & M1 & [(-> & T)|(N & ->)]);
      rewrite E1, (M1 F).
    + destruct (IH conn) as (conn' & E & Mo & Al & St).
      exists conn'. split; [exact E|]. split; [exact Mo|]. split.
      * intros r [<-|Hin]; [apply Mo, (T F) | apply Al, Hin].
      * intro H. apply St. intros r Hin. apply H. right. exact Hin.
    + match goal with
      | |- context [para_cada_indice _ rows ?c m] =>
          destruct (IH c) as (conn' & E & Mo & Al & St)
      end.
      exists conn'. split; [exact E|]. split; [|split].
      * intros t Ht. apply Mo. cbn [tab_Indices]. rewrite existsb_app, Ht.
        reflexivity.
      * intros r [<-|Hin]; [|apply Al, Hin].
        apply Mo. cbn [tab_Indices]. rewrite existsb_app. cbn.
        rewrite String.eqb_refl. apply orb_true_iff. right. reflexivity.
      * intro H. specialize (H row (or_introl eq_refl)). congruence.
Qed.

Lemma insere_ou_atualiza_indice_sem_falhas (df : list Trio) (m : Mundo) :
  falhas m = [] ->
  exists m',
    insere_ou_atualiza_indice Ativo_padrao df m = (Retorna tt, m')
    /\ falhas m' = []
    /\ (forall row, In row df ->
                    existsb (fun i => String.eqb (Ticker i) (fst (fst row)))
                            (tab_Indices (banco m')) = true)
    /\ ((forall row, In row df ->
                     existsb (fun i => String.eqb (Ticker i) (fst (fst row)))
                             (tab_Indices (banco m)) = true) ->
        banco m' = banco m).
Proof.
  intro F. unfold insere_ou_atualiza_indice.
  rewrite (bind_Retorna _ _ (get_connection_sem_falhas m F)).
  set (m1 := mkMundo _ _ _).
  destruct (para_cada_indice_sem_falhas (drop_duplicates df) (banco m) m1 eq_refl)
    as (conn' & E & _ & Al & St).
  rewrite (bind_Retorna _ _ E).
  eexists. split; [reflexivity|]. cbn [falhas banco]. split; [reflexivity|]. split.
  - intros row Hin. apply Al.
    destruct (drop_duplicates_de_completo [] df row Hin) as [[]|H]. exact H.
  - intro H. apply St. intros row Hin. apply H.
    apply (drop_duplicates_de_In _ _ _ Hin).
Qed.

(** X19.  When no round trip fails, every ticker of the frame is stored
    after [insere_ou_atualiza_indice], and a second call with a frame
    over the same tickers leaves the store unchanged, whatever
    descriptions and countries it carries. *)
Theorem insere_ou_atualiza_indice_duas_vezes (df df' : list Trio) (m : Mundo) :
  falhas m = [] ->
  (forall t d p, In (t, d, p) df' -> exists d0 p0, In (t, d0, p0) df) ->
  exists m1 m2,
    insere_ou_atualiza_indice Ativo_padrao df m = (Retorna tt, m1)
    /\ (forall t d p, In (t, d, p) df ->
                      exists i, In i (tab_Indices (banco m1)) /\ Ticker i = t)
    /\ insere_ou_atualiza_indice Ativo_padrao df' m1 = (Retorna tt, m2)
    /\ banco m2 = banco m1.
Proof.
  intros F S.
  destruct (insere_ou_atualiza_indice_sem_falhas df m F)
    as (m1 & E1 & F1 & Al1 & _).
  destruct (insere_ou_atualiza_indice_sem_falhas df' m1 F1)
    as (m2 & E2 & _ & _ & St2).
  exists m1, m2. split; [exact E1|]. split; [|split; [exact E2|]].
  - intros t d p Hin. apply existsb_ticker_true. apply (Al1 _ Hin).
  - apply St2. intros [[t d] p] Hin. destruct (S t d p Hin) as (d0 & p0 & H0).
    apply (Al1 _ H0).
Qed.

End Padrao.

(** X18, instance: the store with the instrument AAA, a frame with AAA
    under another description and with BBB; the commit fails. *)
Lemma insere_ou_atualiza_indice_acrescenta_exemplo :
  exists novos,
    banco (snd (insere_ou_atualiza_indice
                  true [("AAA", "outra", "Chile"); ("BBB", "B", "Brasil")]%string
                  (mkMundo (Exemplos.banco_AAA []) [false; false; false; true] [])))
    = mkBanco (tab_Indices (Exemplos.banco_AAA []) ++ novos)
              (tab_HistoricoPrecos (Exemplos.banco_AAA []))
              (tab_SegmentosInvestimento (Exemplos.banco_AAA []))
              (tab_IndicesSegmentos (Exemplos.banco_AAA []))
              (prox_IdIndice (Exemplos.banco_AAA []) + Z.of_nat (List.length novos))%Z
    /\ indices_coerentes
         (banco (snd (insere_ou_atualiza_indice
                        true [("AAA", "outra", "Chile"); ("BBB", "B", "Brasil")]%string
                        (mkMundo (Exemplos.banco_AAA [])
                                 [false; false; false; true] []))))
    /\ Forall (fun i => In (Ticker i, Descricao i, Pais i)
                           [("AAA", "outra", "Chile"); ("BBB", "B", "Brasil")]%string
                        /\ Ativo i = true
                        /\ indice_do_ticker (Exemplos.banco_AAA []) (Ticker i) = None)
              novos.
Proof.
  apply (@insere_ou_atualiza_indice_acrescenta
           true [("AAA", "outra", "Chile"); ("BBB", "B", "Brasil")]%string
           (mkMundo (Exemplos.banco_AAA []) [false; false; false; true] [])).
  destruct SegmentosFacts.restricoes_banco_AAA as (_ & C & _). exact C.
Defined.

(** X19, instance: AAA and BBB are loaded into the store with AAA, then
    BBB again with another description. *)
Lemma insere_ou_atualiza_indice_duas_vezes_exemplo :
  exists m1 m2,
    insere_ou_atualiza_indice
      true [("AAA", "outra", "Chile"); ("BBB", "B", "Brasil")]%string
      (Exemplos.mundo (Exemplos.banco_AAA []))
    = (Retorna tt, m1)
    /\ (forall t d p,
           In (t, d, p) [("AAA", "outra", "Chile"); ("BBB", "B", "Brasil")]%string ->
           exists i, In i (tab_Indices (banco m1)) /\ Ticker i = t)
    /\ insere_ou_atualiza_indice true [("BBB", "B2", "Chile")]%string m1
       = (Retorna tt, m2)
    /\ banco m2 = banco m1.
Proof.
  apply (@insere_ou_atualiza_indice_duas_vezes
           true [("AAA", "outra", "Chile"); ("BBB", "B", "Brasil")]%string
           [("BBB", "B2", "Chile")]%string
           (Exemplos.mundo (Exemplos.banco_AAA [])) eq_refl).
  intros t d p [H|[]]. injection H as <- _ _. exists "B"%string, "Brasil"%string.
  right. left. reflexivity.
Defined.

(** *** The loading report *)

Lemma left_join_length (b : Banco) (i : Indices) :
  List.length (left_join b i) = Nat.max 1 (barras_do_indice b i).
Proof.
  unfold left_join, barras_do_indice.
  destruct (filter _ (tab_HistoricoPrecos b)) as [|h l]; [reflexivity|].
  rewrite length_map. simpl. reflexivity.
Qed.

Lemma insere_por_total_Permutation (x : string * string * nat)
      (l : list (string * string * nat)) :
  Permutation (x :: l) (insere_por_total x l).
Proof.
  induction l as [|y l IH]; simpl; [reflexivity|].
  destruct (snd y <=? snd x)%nat; [reflexivity|].
  rewrite perm_swap. apply perm_skip, IH.
Qed.

Lemma insere_por_total_Sorted (x : string * string * nat)
      (l : list (string * string * nat)) :
  Sorted (fun a b => (snd b <= snd a)%nat) l ->
  Sorted (fun a b => (snd b <= snd a)%nat) (insere_por_total x l).
Proof.
  induction 1 as [|y l S IH H]; simpl.
  - repeat constructor.
  - destruct (snd y <=? snd x)%nat eqn:E.
    + apply Nat.leb_le in E. repeat constructor; assumption.
    + apply Nat.leb_gt in E. constructor; [exact IH|].
      destruct l as [|z l]; simpl.
      * constructor. lia.
      * destruct (snd z <=? snd x)%nat; constructor; [lia|].
        inversion H; subst. assumption.
Qed.

Lemma totais_por_indice_lista (b : Banco) :
  Permutation (totais_por_indice b)
              (map (fun i => (Ticker i, Descricao i, Nat.max 1 (barras_do_indice b i)))
                   (tab_Indices b))
  /\ Sorted (fun x y => (snd y <= snd x)%nat) (totais_por_indice b).
Proof.
  unfold totais_por_indice. induction (tab_Indices b) as [|i l [IHp IHs]].
  - split; constructor.
  - cbn [map fold_right]. split.
    + rewrite <- insere_por_total_Permutation, left_join_length.
      apply perm_skip, IHp.
    + apply insere_por_total_Sorted, IHs.
Qed.

Lemma gera_relatorio_carregamento_casos (m : Mundo) :
  exists r m',
    gera_relatorio_carregamento m = (r, m')
    /\ banco m' = banco m
    /\ (r = Levanta OperationalError
        \/ r = Retorna
                 (mkRelatorio
                    (List.length (filter Ativo (tab_Indices (banco m))))
                    (List.length (tab_HistoricoPrecos (banco m)))
                    (min_data (map DataQuotacao (tab_HistoricoPrecos (banco m))),
                     max_data (map DataQuotacao (tab_HistoricoPrecos (banco m))))
                    (totais_por_indice (banco m)))).
Proof.
  unfold gera_relatorio_carregamento.
  destruct (get_connection_casos m) as (r & m1 & E1 & B1 & [->| ->]).
  2:{ eexists _, _. split; [apply (bind_Levanta _ _ E1)|]. auto. }
  rewrite (bind_Retorna _ _ E1). unfold executa.
  destruct (ida_ao_banco_casos m1) as (r2 & m2 & E2 & [->| ->] & B2 & _).
  2:{ eexists _, _. split; [apply (bind_Levanta _ _ E2)|].
      split; [congruence|auto]. }
  rewrite (bind_Retorna _ _ E2). cbv zeta.
  destruct (ida_ao_banco_casos m2) as (r3 & m3 & E3 & [->| ->] & B3 & _).
  2:{ eexists _, _. split; [apply (bind_Levanta _ _ E3)|].
      split; [congruence|auto]. }
  rewrite (bind_Retorna _ _ E3).
  destruct (ida_ao_banco_casos m3) as (r4 & m4 & E4 & [->| ->] & B4 & _).
  2:{ eexists _, _. split; [apply (bind_Levanta _ _ E4)|].
      split; [congruence|auto]. }
  rewrite (bind_Retorna _ _ E4).
  destruct (ida_ao_banco_casos m4) as (r5 & m5 & E5 & [->| ->] & B5 & _).
  2:{ eexists _, _. split; [apply (bind_Levanta _ _ E5)|].
      split; [congruence|auto]. }
  rewrite (bind_Retorna _ _ E5).
  eexists _, _. split; [reflexivity|]. split; [congruence|]. right. reflexivity.
Qed.

(** X20.  [gera_relatorio_carregamento] only reads the store.  The list
    that it reports holds every instrument once, active or not, in
    descending order of total, and the total of an instrument is the
    number of its bars, except that an instrument without bars is
    reported with 1: [COUNT( * )] counts the row that the left join
    keeps for it.  The first line counts the active instruments only. *)
Theorem gera_relatorio_carregamento_totais (m : Mundo) :
  exists r m',
    gera_relatorio_carregamento m = (r, m')
    /\ banco m' = banco m
    /\ forall rel,
        r = Retorna rel ->
        total_indices rel = List.length (filter Ativo (tab_Indices (banco m)))
        /\ total_historico rel = List.length (tab_HistoricoPrecos (banco m))
        /\ Permutation
             (registros_por_indice rel)
             (map (fun i => (Ticker i, Descricao i,
                             Nat.max 1 (barras_do_indice (banco m) i)))
                  (tab_Indices (banco m)))
        /\ Sorted (fun x y => (snd y <= snd x)%nat) (registros_por_indice rel).
Proof.
  destruct (gera_relatorio_carregamento_casos m) as (r & m' & E & B & [->| ->]);
    eexists _, m'; (split; [exact E|]); (split; [exact B|]); intros rel H.
  - discriminate.
  - injection H as <-. cbn [total_indices total_historico registros_por_indice].
    split; [reflexivity|]. split; [reflexivity|]. apply totais_por_indice_lista.
Qed.

(** *** The frame of the download *)

Lemma nth_substitui_mesmo {A} (n : nat) (x d : A) (l : list A) :
  (n < List.length l)%nat -> nth n (substitui n x l) d = x.
Proof.
  revert n. induction l as [|y l IH]; intros n H; simpl in H; [lia|].
  destruct n; simpl; [reflexivity|]. apply IH. lia.
Qed.

Lemma posicao_snoc (r : string) (cols : list string) :
  posicao r cols = None -> posicao r (cols ++ [r]) = Some (List.length cols).
Proof.
  induction cols as [|c cols IH]; simpl; intro H.
  - rewrite String.eqb_refl. reflexivity.
  - destruct (String.eqb c r); [discriminate|].
    destruct (posicao r cols); [discriminate|]. rewrite IH; reflexivity.
Qed.

Lemma map_constante {A B} (f : A -> B) (v : B) (l : list A) :
  (forall x, In x l -> f x = v) -> map f l = repeat v (List.length l).
Proof.
  induction l as [|x l IH]; intro H; simpl; [reflexivity|].
  rewrite (H x (or_introl eq_refl)), IH; [reflexivity|].
  intros y Hy. apply H. right. exact Hy.
Qed.

(** Assigning a column gives every row the value under that label. *)
Lemma atribui_propria (r : string) (v : celula) (df : Frame) :
  bem_formado df ->
  exists n,
    posicao r (columns (atribui r v df)) = Some n
    /\ bem_formado (atribui r v df)
    /\ celulas n (atribui r v df) = repeat v (List.length (linhas df))
    /\ List.length (linhas (atribui r v df)) = List.length (linhas df).
Proof.
  intro W. unfold atribui, bem_formado, celulas in *.
  rewrite Forall_forall in W.
  destruct (posicao r (columns df)) as [k|] eqn:Hr; cbn [columns linhas].
  - exists k. destruct (posicao_limite _ _ Hr) as [Hk _].
    split; [exact Hr|]. split; [|split; [|apply length_map]].
    + apply Forall_forall. intros l Hl. apply in_map_iff in Hl.
      destruct Hl as [l0 [<- Hl0]]. rewrite length_substitui. exact (W l0 Hl0).
    + rewrite map_map. apply map_constante. intros l Hl.
      apply nth_substitui_mesmo. rewrite (W l Hl). exact Hk.
  - exists (List.length (columns df)).
    split; [apply posicao_snoc, Hr|]. split; [|split; [|apply length_map]].
    + apply Forall_forall. intros l Hl. apply in_map_iff in Hl.
      destruct Hl as [l0 [<- Hl0]]. rewrite !length_app, (W l0 Hl0). reflexivity.
    + rewrite map_map. apply map_constante. intros l Hl.
      rewrite app_nth2 by (rewrite (W l Hl); lia).
      rewrite (W l Hl), Nat.sub_diag. reflexivity.
Qed.

Lemma atribui_linhas (r : string) (v : celula) (df : Frame) :
  List.length (linhas (atribui r v df)) = List.length (linhas df).
Proof.
  unfold atribui. destruct (posicao r (columns df)); cbn [linhas]; apply length_map.
Qed.

Lemma renomear_adj_close_bem_formado (df : Frame) :
  bem_formado df ->
  bem_formado (renomear_adj_close df)
  /\ linhas (renomear_adj_close df) = linhas df.
Proof.
  intro W. unfold renomear_adj_close.
  destruct (existsb _ _); [auto|].
  destruct (find _ _); [|auto]. split; [|reflexivity].
  unfold bem_formado in *. cbn [rename1 columns linhas].
  rewrite length_map. exact W.
Qed.

(** A label that the dictionary of a renaming neither reads nor writes
    stays where it is. *)
Lemma posicao_rename_fixo (d : list (string * string)) (x : string) (df : Frame) :
  (forall kv, In kv d -> fst kv <> x /\ snd kv <> x) ->
  posicao x (columns (rename d df)) = posicao x (columns df).
Proof.
  intro H. unfold rename. cbn [columns]. apply posicao_map. intros c _.
  destruct (find (fun kv => String.eqb (fst kv) c) d) as [kv|] eqn:F; [|reflexivity].
  apply find_some in F. destruct F as [Hin E]. apply String.eqb_eq in E.
  destruct (H kv Hin) as [N1 N2].
  apply String.eqb_neq in N2. rewrite N2. symmetry. apply String.eqb_neq.
  congruence.
Qed.

Lemma posicoes_length (rotulos cols : list string) (ns : list nat) :
  posicoes rotulos cols = Retorna ns -> List.length ns = List.length rotulos.
Proof.
  revert ns. induction rotulos as [|r rotulos IH]; intros ns H; simpl in H.
  - injection H as <-. reflexivity.
  - destruct (posicao r cols); [|discriminate].
    destruct (posicoes rotulos cols) as [ms|]; [|discriminate].
    simpl in H. injection H as <-. simpl. rewrite (IH ms eq_refl). reflexivity.
Qed.

Lemma seleciona_quadro (rotulos : list string) (df f : Frame) :
  seleciona rotulos df = Retorna f ->
  columns f = rotulos
  /\ List.length (linhas f) = List.length (linhas df)
  /\ Forall (fun l => List.length l = List.length rotulos) (linhas f).
Proof.
  unfold seleciona, liga. intro H.
  destruct (posicoes rotulos (columns df)) as [ns|] eqn:Hp; [|discriminate].
  injection H as <-. cbn [columns linhas]. split; [reflexivity|].
  split; [apply length_map|].
  apply Forall_forall. intros l Hl. apply in_map_iff in Hl.
  destruct Hl as [l0 [<- _]]. rewrite length_map. apply (posicoes_length _ _ Hp).
Qed.

(** The frame appended for a ticker: the ten columns, as many rows as
    the download, and on every row the ticker, the description and the
    country of the catalogue. *)
Lemma baixar_dados_indices_ticker_quadro
      (ticker descricao pais : string) (df f : Frame) :
  bem_formado df ->
  baixar_dados_indices_ticker ticker descricao pais df = Retorna (Some f) ->
  columns f = colunas_mantidas
  /\ linhas f <> []
  /\ List.length (linhas f) = List.length (linhas df)
  /\ Forall (fun l => List.length l = 10%nat
                      /\ nth 0 l CNone = CTexto ticker
                      /\ nth 1 l CNone = CTexto descricao
                      /\ nth 2 l CNone = CTexto pais)
            (linhas f).
Proof.
  intros W H. unfold baixar_dados_indices_ticker in H.
  destruct (frame_empty df) eqn:Em; [discriminate|]. cbn [negb] in H.
  destruct (renomear_adj_close_bem_formado W) as [W1 L1].
  set (df1 := renomear_adj_close df) in *.
  destruct (atribui_propria "Ticker" (CTexto ticker) W1) as (n1 & P2 & W2 & K2 & N2).
  set (df2 := atribui "Ticker" (CTexto ticker) df1) in *.
  destruct (atribui_propria "Descricao" (CTexto descricao) W2)
    as (n2 & Q3 & W3 & J3 & N3).
  destruct (@atribui_outra "Descricao" (CTexto descricao) df2 "Ticker" n1 W2
                           ltac:(discriminate) P2) as (_ & P3 & K3).
  set (df3 := atribui "Descricao" (CTexto descricao) df2) in *.
  destruct (atribui_propria "Pais" (CTexto pais) W3) as (n3 & R4 & W4 & I4 & N4).
  destruct (@atribui_outra "Pais" (CTexto pais) df3 "Ticker" n1 W3
                           ltac:(discriminate) P3) as (_ & P4 & K4).
  destruct (@atribui_outra "Pais" (CTexto pais) df3 "Descricao" n2 W3
                           ltac:(discriminate) Q3) as (_ & Q4 & J4).
  set (df4 := atribui "Pais" (CTexto pais) df3) in *.
  match type of H with
  | liga (seleciona _ ?d) _ = _ => set (df5 := d) in *
  end.
  assert (Fx : forall x,
             x = "Ticker"%string \/ x = "Descricao"%string \/ x = "Pais"%string ->
             posicao x (columns df5) = posicao x (columns df4)).
  { intros x Hx. apply posicao_rename_fixo. intros kv Hin. simpl in Hin.
    destruct Hx as [->|[->| ->]];
      repeat (destruct Hin as [<-|Hin]; [split; discriminate|]);
      destruct Hin. }
  assert (L5 : linhas df5 = linhas df4) by reflexivity.
  destruct (seleciona colunas_mantidas df5) as [f5|e] eqn:S5; [|discriminate].
  cbn [liga] in H. injection H as <-.
  destruct (seleciona_quadro _ _ S5) as (C5 & N5 & W5).
  assert (Nl : List.length (linhas f5) = List.length (linhas df)).
  { rewrite N5, L5. unfold df4, df3, df2. rewrite !atribui_linhas.
    fold df1. rewrite L1. reflexivity. }
  split; [exact C5|]. split; [|split; [exact Nl|]].
  { intro E. rewrite E in Nl. unfold frame_empty in Em.
    destruct (linhas df); [discriminate|]. discriminate. }
  pose proof (@seleciona_coluna "Ticker" _ _ _ 0 n1 S5 eq_refl
                (eq_trans (Fx _ (or_introl eq_refl)) P4)) as T.
  pose proof (@seleciona_coluna "Descricao" _ _ _ 1 n2 S5 eq_refl
                (eq_trans (Fx _ (or_intror (or_introl eq_refl))) Q4)) as D.
  pose proof (@seleciona_coluna "Pais" _ _ _ 2 n3 S5 eq_refl
                (eq_trans (Fx _ (or_intror (or_intror eq_refl))) R4)) as P.
  rewrite (@coluna_posicao "Ticker" f5 0) in T by (rewrite C5; reflexivity).
  rewrite (@coluna_posicao "Descricao" f5 1) in D by (rewrite C5; reflexivity).
  rewrite (@coluna_posicao "Pais" f5 2) in P by (rewrite C5; reflexivity).
  injection T as T. injection D as D. injection P as P.
  assert (T' : celulas 0 f5 = repeat (CTexto ticker) (List.length (linhas df1))).
  { rewrite T. change (celulas n1 df5) with (celulas n1 df4).
    rewrite K4, K3. exact K2. }
  assert (D' : celulas 1 f5 = repeat (CTexto descricao) (List.length (linhas df2))).
  { rewrite D. change (celulas n2 df5) with (celulas n2 df4).
    rewrite J4. exact J3. }
  assert (P' : celulas 2 f5 = repeat (CTexto pais) (List.length (linhas df3))).
  { rewrite P. change (celulas n3 df5) with (celulas n3 df4). exact I4. }
  apply Forall_forall. intros l Hl. split.
  { rewrite Forall_forall in W5. exact (W5 l Hl). }
  split; [|split].
  - apply (repeat_spec (List.length (linhas df1))). rewrite <- T'.
    unfold celulas. apply (in_map (fun l => nth 0 l CNone)), Hl.
  - apply (repeat_spec (List.length (linhas df2))). rewrite <- D'.
    unfold celulas. apply (in_map (fun l => nth 1 l CNone)), Hl.
  - apply (repeat_spec (List.length (linhas df3))). rewrite <- P'.
    unfold celulas. apply (in_map (fun l => nth 2 l CNone)), Hl.
Qed.

Section Download.
Variable download : string -> Resultado Frame.
Hypothesis download_bem_formado :
  forall ticker df, download ticker = Retorna df -> bem_formado df.

Lemma dados_completos_quadros (infos : list (string * (string * string))) :
  Forall (fun f =>
            columns f = colunas_mantidas
            /\ linhas f <> []
            /\ Forall (fun l =>
                         List.length l = 10%nat
                         /\ exists t d p,
                             In (t, (d, p)) infos
                             /\ nth 0 l CNone = CTexto t
                             /\ nth 1 l CNone = CTexto d
                             /\ nth 2 l CNone = CTexto p)
                      (linhas f))
         (dados_completos download infos).
Proof.
  induction infos as [|[t [d p]] infos IH]; [constructor|].
  assert (IH' : Forall (fun f =>
            columns f = colunas_mantidas
            /\ linhas f <> []
            /\ Forall (fun l =>
                         List.length l = 10%nat
                         /\ exists t0 d0 p0,
                             In (t0, (d0, p0)) ((t, (d, p)) :: infos)
                             /\ nth 0 l CNone = CTexto t0
                             /\ nth 1 l CNone = CTexto d0
                             /\ nth 2 l CNone = CTexto p0)
                      (linhas f))
         (dados_completos download infos)).
  { eapply Forall_impl; [|exact IH]. intros f (C & N & F).
    split; [exact C|]. split; [exact N|].
    eapply Forall_impl; [|exact F]. intros l (L & t0 & d0 & p0 & Hin & H).
    split; [exact L|]. exists t0, d0, p0. split; [right; exact Hin|exact H]. }
  cbn [dados_completos].
  destruct (download t) as [df|e] eqn:Dl; cbn [liga]; [|exact IH'].
  destruct (baixar_dados_indices_ticker t d p df) as [[f|]|e] eqn:B;
    [|exact IH'|exact IH'].
  constructor; [|exact IH'].
  destruct (@baixar_dados_indices_ticker_quadro t d p df f
              (@download_bem_formado t df Dl) B) as (C & N & _ & F).
  split; [exact C|]. split; [exact N|].
  eapply Forall_impl; [|exact F]. intros l (L & H).
  split; [exact L|]. exists t, d, p. split; [left; reflexivity|exact H].
Qed.

(** X21.  When [baixar_dados_indices] returns a frame, the frame has the
    ten columns of the load in their order and at least one row, every
    row holds ten cells, and the first three cells of a row are the
    ticker, the description and the country of one entry of the
    catalogue.  A ticker whose download raises, is empty or lacks a
    column contributes no row. *)
Theorem baixar_dados_indices_quadro
        (infos : list (string * (string * string))) (f : Frame) :
  baixar_dados_indices download infos = Some f ->
  columns f = colunas_mantidas
  /\ linhas f <> []
  /\ Forall (fun l =>
               List.length l = 10%nat
               /\ exists t d p,
                   In (t, (d, p)) infos
                   /\ nth 0 l CNone = CTexto t
                   /\ nth 1 l CNone = CTexto d
                   /\ nth 2 l CNone = CTexto p)
            (linhas f).
Proof.
  unfold baixar_dados_indices. intro H.
  pose proof (dados_completos_quadros infos) as Q.
  destruct (dados_completos download infos) as [|f0 frames]; [discriminate|].
  injection H as <-. unfold concat. cbn [columns linhas flat_map].
  inversion Q as [|? ? (C & N & F) Q']; subst.
  split; [exact C|]. split.
  - destruct (linhas f0); [congruence|discriminate].
  - apply Forall_app. split; [exact F|].
    apply Forall_forall. intros l Hl. apply in_flat_map in Hl.
    destruct Hl as (g & Hg & Hl).
    rewrite Forall_forall in Q'. destruct (Q' g Hg) as (_ & _ & Fg).
    rewrite Forall_forall in Fg. exact (Fg l Hl).
Qed.

End Download.

(** X21, instance: the catalogue of the loader and a provider that
    answers every ticker with a frame of one row. *)
Lemma baixar_dados_indices_quadro_exemplo :
  exists f,
    baixar_dados_indices (fun _ => Retorna Exemplos.frame_adj_close) tickers_info
    = Some f
    /\ columns f = colunas_mantidas
    /\ linhas f <> []
    /\ Forall (fun l =>
                 List.length l = 10%nat
                 /\ exists t d p,
                     In (t, (d, p)) tickers_info
                     /\ nth 0 l CNone = CTexto t
                     /\ nth 1 l CNone = CTexto d
                     /\ nth 2 l CNone = CTexto p)
              (linhas f).
Proof.
  eexists. split; [vm_compute; reflexivity|].
  apply (@baixar_dados_indices_quadro (fun _ => Retorna Exemplos.frame_adj_close)).
  - intros ticker df H. injection H as <-. repeat constructor.
  - vm_compute. reflexivity.
Defined.

End CargaFacts.

(* ================================================================= *)
(** * The returns in binary64 *)

Module RetornoFacts.
Import App Binary64.

(** *** Rounding never gives [-0.0] from terms that are not *)

Lemma iter_pos_nat {A} (f : A -> A) (n : positive) (x : A) :
  iter_pos f n x = Nat.iter (Pos.to_nat n) f x.
Proof.
  revert x. induction n as [n IH|n IH|]; intro x; cbn [iter_pos].
  - rewrite !IH, Pos2Nat.inj_xI.
    replace (S (2 * Pos.to_nat n)) with (Pos.to_nat n + (Pos.to_nat n + 1))%nat by lia.
    rewrite !Nat.iter_add. reflexivity.
  - rewrite !IH, Pos2Nat.inj_xO.
    replace (2 * Pos.to_nat n)%nat with (Pos.to_nat n + Pos.to_nat n)%nat by lia.
    rewrite Nat.iter_add. reflexivity.
  - reflexivity.
Qed.

(** Halving a mantissa of two digits or more leaves a positive one. *)
Lemma shr_1_pos (r : shr_record) (p : positive) :
  shr_m r = Zpos p -> (1 < digits2_pos p)%positive ->
  exists q, shr_m (shr_1 r) = Zpos q /\ Pos.succ (digits2_pos q) = digits2_pos p.
Proof.
  destruct r as [m r s]. cbn [shr_m]. intros -> H.
  destruct p as [p|p|]; cbn [shr_1 shr_m digits2_pos] in *; [eauto | eauto | lia].
Qed.

Lemma iter_shr_1_pos (k : nat) (r : shr_record) (p : positive) :
  shr_m r = Zpos p -> (Z.of_nat k < Zpos (digits2_pos p))%Z ->
  exists q, shr_m (Nat.iter k shr_1 r) = Zpos q.
Proof.
  revert r p. induction k as [|k IH]; intros r p H L; [eauto|].
  rewrite Nat.iter_succ_r.
  destruct (@shr_1_pos r p H) as (q & Hq & D); [lia|].
  apply (IH _ q Hq). lia.
Qed.

Lemma shr_record_of_loc_m (m : Z) (l : location) :
  shr_m (shr_record_of_loc m l) = m.
Proof. destruct l as [|[ | | ]]; reflexivity. Qed.

(** The exponent that [shr_fexp] returns is not below [emin]. *)
Lemma shr_fexp_expoente (m e : Z) (l : location) :
  (emin prec emax <= snd (shr_fexp prec emax m e l))%Z.
Proof.
  unfold shr_fexp, shr, fexp.
  destruct (Z.max (Zdigits2 m + e - prec) (emin prec emax) - e)%Z eqn:E;
    cbn [snd]; lia.
Qed.

(** A positive mantissa above the smallest subnormal stays positive. *)
Lemma shr_fexp_pos (p : positive) (e : Z) (l : location) :
  (emin prec emax < Zpos (digits2_pos p) + e)%Z ->
  exists q, shr_m (fst (shr_fexp prec emax (Zpos p) e l)) = Zpos q.
Proof.
  intro H. unfold shr_fexp, shr, fexp. cbn [Zdigits2].
  destruct (Z.max (Zpos (digits2_pos p) + e - prec) (emin prec emax) - e)%Z eqn:E;
    cbn [fst]; try (rewrite shr_record_of_loc_m; eauto).
  rewrite iter_pos_nat.
  apply iter_shr_1_pos with p; [apply shr_record_of_loc_m|].
  rewrite positive_nat_Z. unfold prec in *. lia.
Qed.

Lemma round_nearest_even_pos (q : positive) (l : location) :
  exists q', round_nearest_even (Zpos q) l = Zpos q'.
Proof.
  destruct l as [|[ | | ]]; cbn [round_nearest_even]; eauto.
  - destruct (Z.even (Zpos q)); [eauto|]. exists (q + 1)%positive. reflexivity.
  - exists (q + 1)%positive. reflexivity.
Qed.

(** What rounding returns: a zero of the sign asked for, or a finite
    float whose exponent is not below [emin], or an infinity. *)
Lemma binary_round_aux_casos (sx : bool) (m e : Z) (l : location) :
  match binary_round_aux prec emax sx m e l with
  | S754_zero s => s = sx
  | S754_finite _ _ e' => (emin prec emax <= e')%Z
  | _ => True
  end.
Proof.
  unfold binary_round_aux.
  destruct (shr_fexp prec emax m e l) as [r1 e1].
  pose proof (shr_fexp_expoente
                (round_nearest_even (shr_m r1) (loc_of_shr_record r1)) e1 loc_Exact) as H.
  destruct (shr_fexp prec emax _ e1 loc_Exact) as [r2 e2]. cbn [snd] in H.
  destruct (shr_m r2); auto.
  destruct (e2 <=? emax - prec)%Z; auto.
Qed.

Lemma binary_round_aux_nao_zero (sx : bool) (p : positive) (e : Z) (l : location)
      (s : bool) :
  (emin prec emax < Zpos (digits2_pos p) + e)%Z ->
  binary_round_aux prec emax sx (Zpos p) e l <> S754_zero s.
Proof.
  intro H. unfold binary_round_aux.
  destruct (@shr_fexp_pos p e l H) as (q & Hq).
  pose proof (shr_fexp_expoente (Zpos p) e l) as He.
  destruct (shr_fexp prec emax (Zpos p) e l) as [r1 e1]. cbn [fst snd] in *.
  rewrite Hq.
  destruct (round_nearest_even_pos q (loc_of_shr_record r1)) as (q' & ->).
  assert (K : exists q2,
             shr_m (fst (shr_fexp prec emax (Zpos q') e1 loc_Exact)) = Zpos q2).
  { unfold shr_fexp, shr, fexp. cbn [Zdigits2].
    destruct (Z.max (Zpos (digits2_pos q') + e1 - prec) (emin prec emax) - e1)%Z eqn:E;
      cbn [fst]; try (cbn [shr_record_of_loc shr_m]; eauto).
    rewrite iter_pos_nat.
    apply iter_shr_1_pos with q'; [reflexivity|].
    rewrite positive_nat_Z. unfold prec in *. lia. }
  destruct (shr_fexp prec emax (Zpos q') e1 loc_Exact) as [r2 e2]. cbn [fst] in K.
  destruct K as (q2 & ->).
  destruct (e2 <=? emax - prec)%Z; discriminate.
Qed.

Lemma digits2_pos_iter_xO (m d : positive) :
  Zpos (digits2_pos (Pos.iter xO m d)) = (Zpos (digits2_pos m) + Zpos d)%Z.
Proof.
  induction d as [|d IH] using Pos.peano_ind.
  - cbn [Pos.iter digits2_pos]. lia.
  - rewrite Pos.iter_succ. cbn [digits2_pos]. lia.
Qed.

Lemma shl_align_digitos (m : positive) (e e' : Z) :
  (Zpos (digits2_pos (fst (shl_align m e e'))) + snd (shl_align m e e')
   = Zpos (digits2_pos m) + e)%Z.
Proof.
  unfold shl_align. destruct (e' - e)%Z eqn:E; cbn [fst snd]; try reflexivity.
  rewrite digits2_pos_iter_xO. lia.
Qed.

Lemma binary_round_casos (sx : bool) (m : positive) (e : Z) :
  (emin prec emax <= e)%Z ->
  match binary_round prec emax sx m e with
  | S754_zero _ => False
  | S754_finite _ _ e' => (emin prec emax <= e')%Z
  | _ => True
  end.
Proof.
  intro H. unfold binary_round.
  pose proof (shl_align_digitos m e (fexp prec emax (Zpos (digits2_pos m) + e))) as D.
  destruct (shl_align m e _) as [mz ez]. cbn [fst snd] in D.
  pose proof (binary_round_aux_casos sx (Zpos mz) ez loc_Exact) as C.
  pose proof (@binary_round_aux_nao_zero sx mz ez loc_Exact) as N.
  destruct (binary_round_aux prec emax sx (Zpos mz) ez loc_Exact); auto.
  apply (N s); [|reflexivity]. pose proof (Pos2Z.is_pos (digits2_pos m)). lia.
Qed.

Lemma binary_normalize_regular (m e : Z) :
  (emin prec emax <= e)%Z -> regular (binary_normalize prec emax m e false).
Proof.
  intro H. unfold binary_normalize, regular.
  destruct m as [|p|p].
  - split; [discriminate | exact I].
  - pose proof (@binary_round_casos false p e H) as C.
    destruct (binary_round prec emax false p e);
      split; try discriminate; try exact I; tauto.
  - pose proof (@binary_round_casos true p e H) as C.
    destruct (binary_round prec emax true p e);
      split; try discriminate; try exact I; tauto.
Qed.

Lemma regular_zero : regular zero.
Proof. split; [discriminate | exact I]. Qed.

(** A sum is [-0.0] only when both terms are. *)
Lemma add_regular (x y : f64) :
  regular x -> regular y -> regular (add x y).
Proof.
  intros [Nx Ex] [Ny Ey]. unfold add, SFadd.
  destruct x as [sx|sx| |sx mx ex], y as [sy|sy| |sy my ey];
    try (split; [discriminate | exact I]);
    try (split; assumption).
  - destruct sx, sy; try (split; [discriminate | exact I]); congruence.
  - destruct sx, sy; split; try discriminate; exact I.
  - apply binary_normalize_regular. cbn [expoente_ok] in *. lia.
Qed.

Lemma add_zero_r (x : f64) : x <> S754_zero true -> add x zero = x.
Proof. destruct x as [[|]| | |]; intro H; try reflexivity. congruence. Qed.

(** A square is never [-0.0]. *)
Lemma mul_quadrado_regular (d : f64) : regular (mul d d).
Proof.
  unfold mul, SFmul. destruct d as [s|s| |s m e].
  - split; [destruct s; discriminate | exact I].
  - split; [discriminate | exact I].
  - split; [discriminate | exact I].
  - pose proof (binary_round_aux_casos (xorb s s) (Zpos (m * m)) (e + e) loc_Exact) as C.
    destruct (binary_round_aux _ _ _ _ _ _);
      split; try discriminate; try exact I; try exact C.
    rewrite C. destruct s; discriminate.
Qed.

Lemma digits2_pos_size (p : positive) : digits2_pos p = Pos.size p.
Proof. induction p; cbn [digits2_pos Pos.size]; congruence. Qed.

Lemma digits2_pos_log2 (p : positive) :
  Zpos (digits2_pos p) = (Z.log2 (Zpos p) + 1)%Z.
Proof.
  destruct p as [p|p|]; cbn [digits2_pos Z.log2]; rewrite ?digits2_pos_size; lia.
Qed.

Lemma digits2_pos_mul (m c : positive) :
  (Zpos (digits2_pos c) <= Zpos (digits2_pos (m * c)))%Z.
Proof.
  rewrite !digits2_pos_log2.
  assert (Z.log2 (Zpos c) <= Z.log2 (Zpos (m * c)))%Z; [|lia].
  apply Z.log2_le_mono. nia.
Qed.

(** The three operations of a return keep the floats regular. *)
Lemma div_expoente (x y : f64) : expoente_ok (div x y).
Proof.
  unfold div, SFdiv.
  destruct x as [sx|sx| |sx mx ex], y as [sy|sy| |sy my ey]; try exact I.
  destruct (SFdiv_core_binary prec emax (Zpos mx) ex (Zpos my) ey) as [[mz ez] lz].
  pose proof (binary_round_aux_casos (xorb sx sy) mz ez lz) as C.
  destruct (binary_round_aux _ _ _ _ _ _); try exact I. exact C.
Qed.

Lemma sub_um_regular (q : f64) : expoente_ok q -> regular (sub q (of_Z 1)).
Proof.
  intro E.
  change (of_Z 1) with (S754_finite false 4503599627370496 (-52)).
  unfold sub, SFsub. destruct q as [s|s| |s m e];
    try (split; [discriminate | exact I]).
  - split; [discriminate|]. cbn. unfold emin, prec, emax. lia.
  - apply binary_normalize_regular. cbn [expoente_ok] in E.
    unfold emin, prec, emax in *. lia.
Qed.

Lemma mul_cem_regular (r : f64) : regular r -> regular (mul r (of_Z 100)).
Proof.
  intros [N E].
  change (of_Z 100) with (S754_finite false 7036874417766400 (-46)).
  unfold mul, SFmul. destruct r as [s|s| |s m e].
  - split; [destruct s; [congruence | discriminate] | exact I].
  - split; [discriminate | exact I].
  - split; [discriminate | exact I].
  - cbn [expoente_ok] in E.
    pose proof (binary_round_aux_casos (xorb s false) (Zpos (m * 7036874417766400))
                                       (e + -46) loc_Exact) as C.
    pose proof (@binary_round_aux_nao_zero (xorb s false) (m * 7036874417766400)
                                           (e + -46) loc_Exact) as Z.
    destruct (binary_round_aux _ _ _ _ _ _);
      split; try discriminate; try exact I; try exact C.
    apply Z. pose proof (digits2_pos_mul m 7036874417766400) as D.
    change (Zpos (digits2_pos 7036874417766400)) with 53%Z in D. lia.
Qed.

(** *** The column of returns, row by row *)

Lemma procura_anterior (t : string) (l : list LinhaDF) :
  procura t (map (fun a => (df_Ticker a, fechamento a)) l)
  = option_map fechamento (find (fun a => String.eqb (df_Ticker a) t) l).
Proof.
  induction l as [|a l IH]; simpl; [reflexivity|].
  destruct (String.eqb (df_Ticker a) t); [reflexivity | exact IH].
Qed.

(** The grouped shift, started after the rows [pre], computes the
    return of each remaining row from its previous observation. *)
Lemma pct_change_grupo_linhas (resto pre : list LinhaDF) :
  map (fun r => mul r (of_Z 100))
      (pct_change_grupo
         (rev (map (fun a => (df_Ticker a, fechamento a)) pre))
         (map (fun a => (df_Ticker a, fechamento a)) resto))
  = map (retorno_calculado (pre ++ resto))
        (seq (List.length pre) (List.length resto)).
Proof.
  revert pre. induction resto as [|l r IH]; intro pre; [reflexivity|].
  cbn [map pct_change_grupo List.length seq]. f_equal.
  - unfold retorno_calculado, observacao_anterior.
    rewrite MetricsFacts.nth_error_meio, MetricsFacts.firstn_meio, <- map_rev,
      procura_anterior.
    destruct (find _ (rev pre)); reflexivity.
  - replace ((df_Ticker l, fechamento l)
             :: rev (map (fun a => (df_Ticker a, fechamento a)) pre))
      with (rev (map (fun a => (df_Ticker a, fechamento a)) (pre ++ [l])))
      by (rewrite map_app, rev_app_distr; reflexivity).
    rewrite IH, <- app_assoc, length_app, Nat.add_comm. reflexivity.
Qed.

Lemma coluna_Retorno_linhas (df : list LinhaDF) :
  coluna_Retorno df = map (retorno_calculado df) (seq 0 (List.length df)).
Proof. exact (pct_change_grupo_linhas df []). Qed.

Lemma nth_coluna_Retorno_linha (df : list LinhaDF) (i : nat) :
  (i < List.length df)%nat ->
  nth i (coluna_Retorno df) nan = retorno_calculado df i.
Proof.
  intro H. rewrite coluna_Retorno_linhas.
  rewrite (nth_indep _ nan (retorno_calculado df 0))
    by (rewrite length_map, length_seq; exact H).
  rewrite map_nth, seq_nth by exact H. reflexivity.
Qed.

Lemma retorno_calculado_regular (df : list LinhaDF) (i : nat) :
  regular (retorno_calculado df i).
Proof.
  unfold retorno_calculado.
  destruct (nth_error df i); [|split; [discriminate | exact I]].
  destruct (observacao_anterior df i); [|split; [discriminate | exact I]].
  apply mul_cem_regular, sub_um_regular, div_expoente.
Qed.

Lemma coluna_Retorno_regular (df : list LinhaDF) :
  Forall regular (coluna_Retorno df).
Proof.
  rewrite coluna_Retorno_linhas. apply Forall_forall. intros x H.
  apply in_map_iff in H. destruct H as (i & <- & _).
  apply retorno_calculado_regular.
Qed.

(** *** The aggregates *)

(** Adding the zeros of the masked slots changes no partial sum. *)
Lemma fold_mascarado (g : f64 -> f64) (xs : list f64) (acc : f64) :
  (forall x, In x xs -> regular (g x)) -> regular acc ->
  fold_left add (map (fun x => if isnan x then zero else g x) xs) acc
  = fold_left add (map g (definidos xs)) acc.
Proof.
  revert acc. induction xs as [|x xs IH]; intros acc G A; [reflexivity|].
  cbn [map fold_left definidos filter].
  destruct (isnan x) eqn:E; cbn [negb].
  - rewrite add_zero_r by apply A. apply IH; [|exact A].
    intros y Hy. apply G. right. exact Hy.
  - cbn [map fold_left]. apply IH.
    + intros y Hy. apply G. right. exact Hy.
    + apply add_regular; [exact A | apply G; left; reflexivity].
Qed.

Lemma mascarado_sem_zero_negativo (g : f64 -> f64) (xs : list f64) :
  (forall x, In x xs -> regular (g x)) ->
  ~ In (S754_zero true) (map (fun x => if isnan x then zero else g x) xs).
Proof.
  intros G H. apply in_map_iff in H. destruct H as (x & E & Hx).
  destruct (isnan x); [discriminate|].
  destruct (G x Hx) as [N _]. congruence.
Qed.

Section Sequencial.
Variable soma : list f64 -> f64.
(** The lengths at which the numbers are added one after the other. *)
Variable curta : nat -> Prop.
Hypothesis soma_curta :
  forall xs, curta (List.length xs) -> ~ In (S754_zero true) xs ->
             soma xs = soma_sequencial xs.

Lemma soma_preenche (xs : list f64) :
  curta (List.length xs) -> Forall regular xs ->
  soma (preenche xs) = soma_sequencial (definidos xs).
Proof.
  intros L R. rewrite Forall_forall in R.
  unfold preenche. rewrite soma_curta.
  - unfold soma_sequencial.
    rewrite (@fold_mascarado (fun x => x) xs zero R regular_zero), map_id.
    reflexivity.
  - rewrite length_map. exact L.
  - apply (@mascarado_sem_zero_negativo (fun x => x)). exact R.
Qed.

Lemma mean_definidos (xs : list f64) :
  curta (List.length xs) -> Forall regular xs ->
  mean soma xs = media (definidos xs).
Proof.
  intros L R. unfold mean, media, conta. fold (definidos xs).
  rewrite soma_preenche by assumption.
  destruct (definidos xs); reflexivity.
Qed.

Lemma std_definidos (xs : list f64) :
  curta (List.length xs) -> Forall regular xs ->
  std soma xs = desvio_padrao (definidos xs).
Proof.
  intros L R. unfold std, desvio_padrao, conta. fold (definidos xs).
  destruct (List.length (definidos xs) <=? 1)%nat eqn:E; [reflexivity|].
  cbv zeta. rewrite soma_preenche by assumption.
  assert (M : div (soma_sequencial (definidos xs))
                  (of_nat (List.length (definidos xs)))
              = media (definidos xs)).
  { unfold media. destruct (definidos xs); [discriminate | reflexivity]. }
  rewrite M. set (avg := media (definidos xs)).
  rewrite soma_curta.
  - unfold soma_sequencial.
    rewrite (@fold_mascarado (fun x => mul (sub avg x) (sub avg x)) xs zero);
      [reflexivity | | exact regular_zero].
    intros x _. apply mul_quadrado_regular.
  - rewrite length_map. exact L.
  - apply (@mascarado_sem_zero_negativo (fun x => mul (sub avg x) (sub avg x))).
    intros x _. apply mul_quadrado_regular.
Qed.

End Sequencial.

(** C8 (amended).  The rows of a segment come by ticker and by date
    within a ticker.  The return of a row is [(close[t] / close[t-1] - 1)
    * 100] in binary64, each of the three operations rounded, for the
    closes of the row and of the previous observation of the same
    instrument, and [NaN] (undefined, not zero) when the row is the first
    observation of its instrument.  The metrics exist for every non-empty
    result set.  An undefined return enters the sum of the mean as 0 and
    is left out of its count; fewer than two defined returns have no
    volatility.  When the sum adds fewer than eight numbers one after the
    other, the mean return and the volatility of a result set of fewer
    than eight rows are the rounded arithmetic mean and the rounded sample
    standard deviation of the defined returns alone; with a sum that adds
    any numbers one after the other they are so for every result set.
    Closes 100, 110, 99 give the returns undefined, 10.000000000000009
    and -9.999999999999998, a mean of 5.329070518200751e-15 and a
    volatility of 14.142135623730956 (two returns, not three). *)
Theorem retornos_por_instrumento (soma : list f64 -> f64) :
  (forall xs, (0 < List.length xs < 8)%nat -> ~ In (S754_zero true) xs ->
              soma xs = soma_sequencial xs) ->
  (forall b agora id dias,
      Sorted (fun a c => ordem_leb a c = true)
             (obter_dados_segmento b agora id dias))
  /\ (forall df i l a,
         nth_error df i = Some l ->
         observacao_anterior df i = Some a ->
         nth i (coluna_Retorno df) nan
         = mul (sub (div (fechamento l) (fechamento a)) (of_Z 1)) (of_Z 100))
  /\ (forall df i,
         observacao_anterior df i = None -> nth i (coluna_Retorno df) nan = nan)
  /\ (forall dados,
         (retorno_medio soma dados = None <-> dados = [])
         /\ (volatilidade_media soma dados = None <-> dados = []))
  /\ (forall dados,
         dados <> [] ->
         let Retorno := coluna_Retorno (map linha_df dados) in
         (definidos Retorno = [] -> retorno_medio soma dados = Some nan)
         /\ (definidos Retorno <> [] ->
             retorno_medio soma dados
             = Some (div (soma (preenche Retorno))
                         (of_nat (List.length (definidos Retorno)))))
         /\ ((List.length (definidos Retorno) <= 1)%nat ->
             volatilidade_media soma dados = Some nan))
  /\ (forall dados,
         dados <> [] -> (List.length dados < 8)%nat ->
         let Retorno := coluna_Retorno (map linha_df dados) in
         retorno_medio soma dados = Some (media (definidos Retorno))
         /\ volatilidade_media soma dados = Some (desvio_padrao (definidos Retorno)))
  /\ (forall dados,
         dados <> [] ->
         let Retorno := coluna_Retorno (map linha_df dados) in
         retorno_medio soma_sequencial dados = Some (media (definidos Retorno))
         /\ volatilidade_media soma_sequencial dados
            = Some (desvio_padrao (definidos Retorno)))
  /\ (let dados := obter_dados_segmento Exemplos.banco_tres_barras
                                        Exemplos.agora 1 365 in
      map fechamento (map linha_df dados) = [of_Z 100; of_Z 110; of_Z 99]
      /\ coluna_Retorno (map linha_df dados)
         = [nan; of_Q 10.000000000000009; of_Q (-9.999999999999998)]
      /\ retorno_medio soma dados = Some (of_Q 5.329070518200751e-15)
      /\ volatilidade_media soma dados = Some (of_Q 14.142135623730956)).
Proof.
  intro soma_curta.
  assert (G : forall dados,
             dados <> [] -> (List.length dados < 8)%nat ->
             retorno_medio soma dados
             = Some (media (definidos (coluna_Retorno (map linha_df dados))))
             /\ volatilidade_media soma dados
                = Some (desvio_padrao (definidos (coluna_Retorno (map linha_df dados))))).
  { intros dados N L.
    assert (C : (0 < List.length (coluna_Retorno (map linha_df dados)) < 8)%nat).
    { rewrite coluna_Retorno_linhas, length_map, length_seq, length_map.
      destruct dados; [congruence | simpl in *; lia]. }
    unfold retorno_medio, volatilidade_media.
    destruct dados as [|d r]; [congruence|].
    rewrite (@mean_definidos soma (fun n => (0 < n < 8)%nat) soma_curta _ C
                             (coluna_Retorno_regular _)).
    rewrite (@std_definidos soma (fun n => (0 < n < 8)%nat) soma_curta _ C
                            (coluna_Retorno_regular _)).
    split; reflexivity. }
  split; [exact MetricsFacts.obter_dados_segmento_Sorted|].
  split.
  { intros df i l a Hl Ha.
    assert (L : (i < List.length df)%nat).
    { apply nth_error_Some. congruence. }
    rewrite nth_coluna_Retorno_linha by exact L.
    unfold retorno_calculado. rewrite Hl, Ha. reflexivity. }
  split.
  { intros df i H.
    destruct (Nat.lt_ge_cases i (List.length df)) as [L|L].
    - rewrite nth_coluna_Retorno_linha by exact L.
      unfold retorno_calculado. rewrite H. destruct (nth_error df i); reflexivity.
    - apply nth_overflow.
      rewrite coluna_Retorno_linhas, length_map, length_seq. exact L. }
  split.
  { intro dados. unfold retorno_medio, volatilidade_media.
    destruct dados; split; split; congruence. }
  split.
  { intros dados N. cbv zeta.
    unfold retorno_medio, volatilidade_media, mean, std, conta.
    fold (definidos (coluna_Retorno (map linha_df dados))).
    destruct dados as [|d r]; [congruence|].
    split; [intros ->; reflexivity|].
    split.
    - intro D. destruct (definidos _); [congruence | reflexivity].
    - intro L. apply Nat.leb_le in L. rewrite L. reflexivity. }
  split; [exact G|].
  split.
  { intros dados N. cbv zeta. unfold retorno_medio, volatilidade_media.
    destruct dados as [|d r]; [congruence|].
    rewrite (@mean_definidos soma_sequencial (fun _ => True) (fun _ _ _ => eq_refl)
                             _ I (coluna_Retorno_regular _)).
    rewrite (@std_definidos soma_sequencial (fun _ => True) (fun _ _ _ => eq_refl)
                            _ I (coluna_Retorno_regular _)).
    split; reflexivity. }
  cbv zeta.
  split; [vm_compute; reflexivity|].
  split; [vm_compute; reflexivity|].
  destruct (G (obter_dados_segmento Exemplos.banco_tres_barras Exemplos.agora 1 365))
    as [M S].
  { vm_compute. discriminate. }
  { vm_compute. lia. }
  rewrite M, S. split; vm_compute; reflexivity.
Qed.

(** C8, instance: the sum that adds from left to right, on the three
    closes. *)
Lemma retornos_por_instrumento_exemplo :
  retorno_medio soma_sequencial
                (obter_dados_segmento Exemplos.banco_tres_barras Exemplos.agora 1 365)
  = Some (of_Q 5.329070518200751e-15).
Proof.
  destruct (@retornos_por_instrumento soma_sequencial (fun _ _ _ => eq_refl))
    as (_ & _ & _ & _ & _ & _ & _ & _ & _ & H & _).
  exact H.
Defined.

(** C8, counterexample.  Closes 100, 110, 99 of one instrument: the
    returns that the code computes are above 10 and above -10, where the
    formula [(close[t] - close[t-1]) / close[t-1] * 100] gives 10 and -10
    in the same arithmetic, and their mean is not the mean 0 of 10 and
    -10. *)
Lemma retornos_arredondados :
  let dados := obter_dados_segmento Exemplos.banco_tres_barras Exemplos.agora 1 365 in
  let df := map linha_df dados in
  map fechamento df = [of_Z 100; of_Z 110; of_Z 99]
  /\ SFcompare (nth 1 (coluna_Retorno df) nan) (of_Z 10) = Some Gt
  /\ SFcompare (nth 2 (coluna_Retorno df) nan) (of_Z (-10)) = Some Gt
  /\ retorno_documentado df 1 = of_Z 10
  /\ retorno_documentado df 2 = of_Z (-10)
  /\ media [of_Z 10; of_Z (-10)] = zero
  /\ (exists m, retorno_medio soma_sequencial dados = Some m
                /\ SFcompare m zero = Some Gt).
Proof.
  cbv zeta.
  repeat (split; [vm_compute; reflexivity|]).
  eexists. split; vm_compute; reflexivity.
Qed.

End RetornoFacts.
